(** * transferdb: the Oracle to MySQL full-load engine

    A shallow embedding of

      - database/oracle/full.go   (snapshot SCN, row-id chunk tasks, the row
                                   reader with its value codec and batching);
      - module/migrate/o2m/full.go (planner [Full], chunker
                                   [initWaitSyncTableRowID], orchestrator
                                   [fullPartSyncTable], the SELECT projection
                                   [adjustTableSelectColumn]).

    Go strings are byte strings: [string] of [ascii].  Go [int], [int64] and
    [uint64] values are [Z]; the only arithmetic the code performs on them is
    on list lengths and row counts.  A function returning [(v, error)] returns
    a [result]; code that mutates the metadata store, the destination or the
    source-side task list is written in a state-and-error monad over [World]. *)

From Stdlib Require Import List String Ascii ZArith Lia Bool Arith DecimalString.
Import ListNotations.
Local Open Scope string_scope.
Local Open Scope Z_scope.

Set Implicit Arguments.

(** ** Errors and results *)

Definition error := string.

Inductive result (A : Type) : Type :=
| Ok (a : A)
| Err (e : error).
Arguments Ok {A} a.
Arguments Err {A} e.

(** [fmt.Sprintf] of [%v] for an [error] operand: the message, or [<nil>]. *)
Definition fmt_err (e : option error) : string :=
  match e with
  | Some m => m
  | None => "<nil>"
  end.

(** ** Go standard library: strings and strconv *)

Module GoStrings.

Definition is_lower (c : ascii) : bool :=
  let n := nat_of_ascii c in (Nat.leb 97 n && Nat.leb n 122)%bool.

Definition upper_char (c : ascii) : ascii :=
  if is_lower c then ascii_of_nat (nat_of_ascii c - 32) else c.

(** [strings.ToUpper] as it acts on ASCII text: the letters [a] to [z] are
    mapped to [A] to [Z] and every other byte is kept.  On text with a byte
    of 0x80 or above [strings.ToUpper] maps runes by the Unicode tables,
    which are not embedded: a statement on the upper-cased form of such a
    text is made under [is_ascii]. *)
Fixpoint ToUpper (s : string) : string :=
  match s with
  | EmptyString => EmptyString
  | String c r => String (upper_char c) (ToUpper r)
  end.

(** Every byte of [s] is below [utf8.RuneSelf] (0x80). *)
Fixpoint is_ascii (s : string) : bool :=
  match s with
  | EmptyString => true
  | String c r => (Nat.ltb (nat_of_ascii c) 128 && is_ascii r)%bool
  end.

(** [strings.Contains]. *)
Fixpoint Contains (s sub : string) : bool :=
  if String.prefix sub s then true
  else match s with
       | EmptyString => false
       | String _ r => Contains r sub
       end.

(** [strings.Join]. *)
Definition Join (l : list string) (sep : string) : string :=
  String.concat sep l.

Definition is_digit (c : ascii) : bool :=
  let n := nat_of_ascii c in (Nat.leb 48 n && Nat.leb n 57)%bool.

Definition digit_val (c : ascii) : Z := Z.of_nat (nat_of_ascii c - 48).

(** The digit loop of [strconv.ParseUint] in base 10: [None] on a byte that
    is not a decimal digit. *)
Fixpoint parse_digits (acc : Z) (s : string) : option Z :=
  match s with
  | EmptyString => Some acc
  | String c r =>
      if is_digit c then parse_digits (acc * 10 + digit_val c) r else None
  end.

Definition hex_digit (n : nat) : ascii :=
  nth n
    ("0" :: "1" :: "2" :: "3" :: "4" :: "5" :: "6" :: "7" :: "8" :: "9"
       :: "a" :: "b" :: "c" :: "d" :: "e" :: "f" :: nil)%char "0"%char.

(** What [strconv.Quote] writes for one byte of ASCII text: a backslash
    before the double quote and the backslash, the printable bytes as they
    are, the escapes of the control bytes.  A byte of 0x80 or above is kept:
    that is what [strconv.Quote] does with a printable rune; the Unicode
    tables that decide it are not embedded. *)
Definition quote_byte (c : ascii) : string :=
  let n := nat_of_ascii c in
  if Nat.eqb n 34 || Nat.eqb n 92 then String "\" (String c "")
  else if Nat.leb 32 n && Nat.ltb n 127 then String c ""
  else if Nat.leb 128 n then String c ""
  else if Nat.eqb n 7 then "\a"
  else if Nat.eqb n 8 then "\b"
  else if Nat.eqb n 12 then "\f"
  else if Nat.eqb n 10 then "\n"
  else if Nat.eqb n 13 then "\r"
  else if Nat.eqb n 9 then "\t"
  else if Nat.eqb n 11 then "\v"
  else String "\" (String "x" (String (hex_digit (Nat.div n 16))
                                  (String (hex_digit (Nat.modulo n 16)) ""))).

Fixpoint quote_bytes (s : string) : string :=
  match s with
  | EmptyString => EmptyString
  | String c r => quote_byte c ++ quote_bytes r
  end.

(** [strconv.Quote]. *)
Definition Quote (s : string) : string :=
  String "034" (quote_bytes s ++ String "034" "").

(** The text of a [strconv.NumError]: the input is quoted. *)
Definition syntax_error (fn s : string) : error :=
  "strconv." ++ fn ++ ": parsing " ++ Quote s ++ ": invalid syntax".
Definition range_error (fn s : string) : error :=
  "strconv." ++ fn ++ ": parsing " ++ Quote s ++ ": value out of range".

(** [strconv.ParseInt(s, 10, 64)] as [Atoi] uses it on a 64-bit platform:
    an optional sign, at least one decimal digit, the value within int64. *)
Definition parse_int64 (fn s : string) : result Z :=
  let '(neg, body) :=
    match s with
    | String "-"%char r => (true, r)
    | String "+"%char r => (false, r)
    | _ => (false, s)
    end in
  match body with
  | EmptyString => Err (syntax_error fn s)
  | _ =>
      match parse_digits 0 body with
      | None => Err (syntax_error fn s)
      | Some n =>
          let v := if neg then - n else n in
          if (- 2 ^ 63 <=? v) && (v <=? 2 ^ 63 - 1) then Ok v
          else Err (range_error fn s)
      end
  end.

Definition Atoi (s : string) : result Z := parse_int64 "Atoi" s.

(** [strconv.Itoa], and [%v] of an integer operand. *)
Definition Itoa (z : Z) : string := NilZero.string_of_int (Z.to_int z).

End GoStrings.

(** ** Package common

    The helpers of package [common] are called by the sources above but are
    not among them. *)

Module common.

(** Modelled from the spec: [common.StringUPPER] is missing; names are
    compared upper-cased everywhere. *)
Definition StringUPPER (s : string) : string := GoStrings.ToUpper s.

(** Modelled from the spec: [common.StringsBuilder] is missing; it joins
    its arguments into one SQL or literal text. *)
Definition StringsBuilder (parts : list string) : string :=
  String.concat "" parts.

(** Modelled from the spec: [common.IsContainString] is missing; membership
    of a table name in a list. *)
Definition IsContainString (items : list string) (item : string) : bool :=
  existsb (String.eqb item) items.

(** Modelled from the spec: [common.FilterDifferenceStringItems] is missing;
    the set difference [prior_success - exporters]. *)
Definition FilterDifferenceStringItems (a b : list string) : list string :=
  filter (fun x => negb (IsContainString b x)) a.

(** Modelled from the spec: [common.FilterIntersectionStringItems] is
    missing; the intersection of [prior_success] with [exporters]. *)
Definition FilterIntersectionStringItems (a b : list string) : list string :=
  filter (fun x => IsContainString b x) a.

(** Status values are the literal strings of the persisted schema. *)
Definition TaskStatusWaiting : string := "WAITING".
Definition TaskStatusRunning : string := "RUNNING".
Definition TaskStatusSuccess : string := "SUCCESS".
Definition TaskStatusFailed : string := "FAILED".

End common.

(** ** Result rows of a source query

    [Query] returns each row as a [map[string]string]; reading a key that is
    absent gives the empty string. *)

Definition row := list (string * string).

Fixpoint row_get (r : row) (k : string) : string :=
  match r with
  | [] => ""
  | (k', v) :: rest => if String.eqb k k' then v else row_get rest k
  end.

(** ** The SELECT projection (o2m/full.go, adjustTableSelectColumn) *)

Module Projection.

Definition plain_types : list string :=
  [ "NUMBER";
    "DECIMAL"; "DEC"; "DOUBLE PRECISION"; "FLOAT"; "INTEGER"; "INT"; "REAL";
    "NUMERIC"; "BINARY_FLOAT"; "BINARY_DOUBLE"; "SMALLINT";
    "BFILE"; "CHARACTER"; "LONG"; "NCHAR VARYING"; "ROWID"; "UROWID";
    "VARCHAR"; "CHAR"; "NCHAR"; "NVARCHAR2"; "NCLOB"; "CLOB";
    "BLOB"; "LONG RAW"; "RAW" ].

(** One iteration of the loop over [columnsINFO]: the fragment appended to
    [columnNames], or the error the function returns. *)
Definition columnFragment (rowCol : row) : result string :=
  let name := row_get rowCol "COLUMN_NAME" in
  let ty := GoStrings.ToUpper (row_get rowCol "DATA_TYPE") in
  if common.IsContainString plain_types ty then Ok name
  else if String.eqb ty "XMLTYPE" then
    Ok (" XMLSERIALIZE(CONTENT " ++ name ++ " AS CLOB) AS " ++ name)
  else if String.eqb ty "DATE" then
    Ok (common.StringsBuilder
          ["TO_CHAR("; name; ",'yyyy-MM-dd HH24:mi:ss') AS "; name])
  else if GoStrings.Contains (row_get rowCol "DATA_TYPE") "INTERVAL" then
    Ok (common.StringsBuilder ["TO_CHAR("; name; ") AS "; name])
  else if GoStrings.Contains (row_get rowCol "DATA_TYPE") "TIMESTAMP" then
    match GoStrings.Atoi (row_get rowCol "DATA_SCALE") with
    | Err e =>
        Err ("aujust oracle timestamp datatype scale ["
               ++ row_get rowCol "DATA_SCALE"
               ++ "] strconv.Atoi failed: " ++ e)
    | Ok dataScale =>
        if dataScale =? 0 then
          Ok (common.StringsBuilder
                ["TO_CHAR("; name; ",'yyyy-mm-dd hh24:mi:ss') AS "; name])
        else if (dataScale <? 0) && (dataScale <=? 6) then
          Ok (common.StringsBuilder
                ["TO_CHAR("; name; ",'yyyy-mm-dd hh24:mi:ss.ff";
                 row_get rowCol "DATA_SCALE"; "') AS "; name])
        else
          Ok (common.StringsBuilder
                ["TO_CHAR("; name; ",'yyyy-mm-dd hh24:mi:ss.ff6') AS "; name])
    end
  else Ok name.

Fixpoint columnFragments (columnsINFO : list row) : result (list string) :=
  match columnsINFO with
  | [] => Ok []
  | rowCol :: rest =>
      match columnFragment rowCol with
      | Err e => Err e
      | Ok f =>
          match columnFragments rest with
          | Err e => Err e
          | Ok fs => Ok (f :: fs)
          end
      end
  end.

(** [adjustTableSelectColumn] once [GetOracleSchemaTableColumn] has
    answered with [columnsINFO]. *)
Definition adjustTableSelectColumn (columnsINFO : result (list row))
  : result string :=
  match columnsINFO with
  | Err e => Err e
  | Ok cols =>
      match columnFragments cols with
      | Err e => Err e
      | Ok names => Ok (GoStrings.Join names ",")
      end
  end.

(** The column of scenario S6: [ts TIMESTAMP(3)]. *)
Definition ts_timestamp3 : row :=
  [ ("COLUMN_NAME", "ts"); ("DATA_TYPE", "TIMESTAMP(3)"); ("DATA_SCALE", "3") ].

End Projection.

(** ** The row reader (database/oracle/full.go, GetOracleTableRowsData) *)

Module Reader.

(** Modelled from the spec: [common.SpecialLettersUsingMySQL] is missing;
    the MySQL special-character escape backslash-escapes NUL, newline,
    carriage return, backslash, both quotes and ctrl-Z. *)
Definition escape_char (c : ascii) : string :=
  if Ascii.eqb c "000"%char then "\0"
  else if Ascii.eqb c "010"%char then "\n"
  else if Ascii.eqb c "013"%char then "\r"
  else if Ascii.eqb c "092"%char then "\\"
  else if Ascii.eqb c "039"%char then "\'"
  else if Ascii.eqb c "034"%char then String "092"%char (String "034"%char "")
  else if Ascii.eqb c "026"%char then "\Z"
  else String c "".

(** Modelled from the spec: [common.SpecialLettersUsingMySQL] is missing;
    the escape is applied to every byte of the raw value. *)
Fixpoint SpecialLettersUsingMySQL (bs : string) : string :=
  match bs with
  | EmptyString => EmptyString
  | String c r => escape_char c ++ SpecialLettersUsingMySQL r
  end.

(** What the driver hands back for one query: the outcome of
    [QueryContext], of [Columns], of [ColumnTypes] (per column the names
    [ScanType().String()] and [DatabaseTypeName()]), of each [Scan] (a raw
    value is [nil] or a byte string) and of the closing [rows.Err()]. *)
Record QueryResult : Type := {
  qr_query_err : option error;
  qr_columns : result (list string);
  qr_column_types : result (list (string * string));
  qr_rows : list (result (list (option string)));
  qr_rows_err : option error
}.

Section Codec.

(** The numeric helpers of package [common] and of the decimal library
    are not among the sources: they are parameters.  [Float] stands for
    float64 and [Decimal] for decimal.Decimal. *)
Variable Float : Type.
Variable Decimal : Type.
Variable StrconvIntBitSize : string -> Z -> result Z.
Variable StrconvUintBitSize : string -> Z -> result Z.
Variable StrconvFloatBitSize : string -> Z -> result Float.
Variable StrconvRune : string -> result Z.
Variable fmt_float : Float -> string.
Variable decimal_NewFromString : string -> result Decimal.
Variable decimal_IsInteger : Decimal -> bool.

Definition numeric_scan_types : list string :=
  [ "int64"; "uint64"; "float32"; "float64"; "rune"; "godror.Number" ].

(** The [switch columnTypes[i]] on a raw value that is neither nil nor
    empty. *)
Definition encodeNonEmpty (columnType raw : string) : result string :=
  if String.eqb columnType "int64" then
    match StrconvIntBitSize raw 64 with
    | Err e => Err e
    | Ok r => Ok (GoStrings.Itoa r)
    end
  else if String.eqb columnType "uint64" then
    match StrconvUintBitSize raw 64 with
    | Err e => Err e
    | Ok r => Ok (GoStrings.Itoa r)
    end
  else if String.eqb columnType "float32" then
    match StrconvFloatBitSize raw 32 with
    | Err e => Err e
    | Ok r => Ok (fmt_float r)
    end
  else if String.eqb columnType "float64" then
    match StrconvFloatBitSize raw 64 with
    | Err e => Err e
    | Ok r => Ok (fmt_float r)
    end
  else if String.eqb columnType "rune" then
    match StrconvRune raw with
    | Err e => Err e
    | Ok r => Ok (GoStrings.Itoa r)
    end
  else if String.eqb columnType "godror.Number" then
    match decimal_NewFromString raw with
    | Err e => Err e
    | Ok r =>
        if decimal_IsInteger r then
          match StrconvIntBitSize raw 64 with
          | Err e => Err e
          | Ok si => Ok (GoStrings.Itoa si)
          end
        else
          match StrconvFloatBitSize raw 64 with
          | Err e => Err e
          | Ok rf => Ok (fmt_float rf)
          end
    end
  else Ok ("'" ++ SpecialLettersUsingMySQL raw ++ "'").

(** The body of [for i, raw := range rawResult] for one value. *)
Definition encodeValue (columnType : string) (raw : option string)
  : result string :=
  match raw with
  | None => Ok "NULL"
  | Some s =>
      if String.eqb s "" then Ok "NULL" else encodeNonEmpty columnType s
  end.

(** The inner loop over one scanned row.  [rowsResult] accumulates the
    literals; on an error the loop stops and reports the scan type of the
    failing column with the literals collected so far. *)
Fixpoint encodeRow (columnTypes : list string) (i : nat)
    (raws : list (option string)) (rowsResult : list string)
  : list string * option (string * error) :=
  match raws with
  | [] => (rowsResult, None)
  | raw :: rest =>
      let ct := nth i columnTypes "" in
      match encodeValue ct raw with
      | Err e => (rowsResult, Some (ct, e))
      | Ok lit => encodeRow columnTypes (S i) rest (rowsResult ++ [lit])%list
      end
  end.

Definition rowTuple (rowsResult : list string) : string :=
  common.StringsBuilder ["("; GoStrings.Join rowsResult ","; ")"].

(** The loop [for rows.Next()]: [rowsTMP] holds the tuples of the batch
    being filled, [batchResults] the finished batches.  The result is the
    pair of the batch list and the error the function returns with. *)
Fixpoint scanRows (insertBatchSize : Z) (columnTypes : list string)
    (rows : list (result (list (option string))))
    (rows_err : option error)
    (rowsTMP batchResults : list string)
  : list string * option error :=
  match rows with
  | [] =>
      match rows_err with
      | Some e => (batchResults, Some e)
      | None =>
          if (0 <? Z.of_nat (List.length rowsTMP)) then
            ((batchResults ++ [GoStrings.Join rowsTMP ","])%list, None)
          else (batchResults, None)
      end
  | Err e :: _ => (batchResults, Some e)
  | Ok raws :: rest =>
      match encodeRow columnTypes 0 raws [] with
      | (rowsResult, Some (ct, e)) =>
          (* the godror.Number branch returns rowsResult in place of the
             batches *)
          if String.eqb ct "godror.Number" then (rowsResult, Some e)
          else (batchResults, Some e)
      | (rowsResult, None) =>
          let rowsTMP := (rowsTMP ++ [rowTuple rowsResult])%list in
          if Z.of_nat (List.length rowsTMP) =? insertBatchSize then
            scanRows insertBatchSize columnTypes rest rows_err
              [] (batchResults ++ [GoStrings.Join rowsTMP ","])%list
          else
            scanRows insertBatchSize columnTypes rest rows_err
              rowsTMP batchResults
      end
  end.

Definition GetOracleTableRowsData (q : QueryResult) (insertBatchSize : Z)
  : list string * list string * option error :=
  match qr_query_err q with
  | Some e => ([], [], Some e)
  | None =>
      match qr_columns q with
      | Err e => ([], [], Some e)
      | Ok tmpCols =>
          let cols :=
            map (fun col => common.StringsBuilder ["`"; col; "`"]) tmpCols in
          match qr_column_types q with
          | Err e => (cols, [], Some e)
          | Ok colTypes =>
              let columnTypes := map fst colTypes in
              let '(batchResults, err) :=
                scanRows insertBatchSize columnTypes (qr_rows q)
                  (qr_rows_err q) [] [] in
              (cols, batchResults, err)
          end
      end
  end.

(** The tuple a row contributes when its scan and every value of it
    succeed. *)
Definition scannedTuple (columnTypes : list string)
    (r : result (list (option string))) : option string :=
  match r with
  | Err _ => None
  | Ok raws =>
      match encodeRow columnTypes 0 raws [] with
      | (rowsResult, None) => Some (rowTuple rowsResult)
      | (_, Some _) => None
      end
  end.

End Codec.

End Reader.

(** ** Package meta: the persisted records

    The metadata store (package [database/meta]) is not among the sources;
    the records follow the persisted schema ([wait_sync_meta],
    [full_sync_meta]) and keep the field names the sources use. *)

Module WaitSyncMeta.
(** Modelled from the spec: the struct [meta.WaitSyncMeta] is missing; the
    per-table progress record of [wait_sync_meta]. *)
Record t : Type := mk {
  DBTypeS : string;
  DBTypeT : string;
  SchemaNameS : string;
  TableNameS : string;
  TaskMode : string;
  TaskStatus : string;
  GlobalScnS : Z;
  ChunkTotalNums : Z;
  ChunkSuccessNums : Z;
  ChunkFailedNums : Z;
  IsPartition : string
}.

(** The Go zero value: what a composite literal leaves in the fields it
    does not name. *)
Definition zero : t := mk "" "" "" "" "" "" 0 0 0 0 "".

(** The columns a [map[string]interface{}] of updates may carry. *)
Record patch : Type := mkPatch {
  pTaskStatus : option string;
  pGlobalScnS : option Z;
  pChunkTotalNums : option Z;
  pChunkSuccessNums : option Z;
  pChunkFailedNums : option Z;
  pIsPartition : option string
}.

Definition noPatch : patch := mkPatch None None None None None None.

Definition or_else {A} (o : option A) (d : A) : A :=
  match o with Some v => v | None => d end.

Definition apply (p : patch) (r : t) : t :=
  mk (DBTypeS r) (DBTypeT r) (SchemaNameS r) (TableNameS r) (TaskMode r)
     (or_else (pTaskStatus p) (TaskStatus r))
     (or_else (pGlobalScnS p) (GlobalScnS r))
     (or_else (pChunkTotalNums p) (ChunkTotalNums r))
     (or_else (pChunkSuccessNums p) (ChunkSuccessNums r))
     (or_else (pChunkFailedNums p) (ChunkFailedNums r))
     (or_else (pIsPartition p) (IsPartition r)).
End WaitSyncMeta.

Module FullSyncMeta.
(** Modelled from the spec: the struct [meta.FullSyncMeta] is missing; the
    per-chunk work record of [full_sync_meta]. *)
Record t : Type := mk {
  DBTypeS : string;
  DBTypeT : string;
  SchemaNameS : string;
  TableNameS : string;
  SchemaNameT : string;
  TableNameT : string;
  GlobalScnS : Z;
  ColumnDetailS : string;
  ChunkDetailS : string;
  TaskMode : string;
  TaskStatus : string;
  InfoDetail : string;
  ErrorDetail : string;
  IsPartition : string
}.

Definition zero : t := mk "" "" "" "" "" "" 0 "" "" "" "" "" "" "".

Record patch : Type := mkPatch {
  pTaskStatus : option string;
  pInfoDetail : option string;
  pErrorDetail : option string
}.

Definition or_else {A} (o : option A) (d : A) : A :=
  match o with Some v => v | None => d end.

Definition apply (p : patch) (r : t) : t :=
  mk (DBTypeS r) (DBTypeT r) (SchemaNameS r) (TableNameS r)
     (SchemaNameT r) (TableNameT r) (GlobalScnS r) (ColumnDetailS r)
     (ChunkDetailS r) (TaskMode r)
     (or_else (pTaskStatus p) (TaskStatus r))
     (or_else (pInfoDetail p) (InfoDetail r))
     (or_else (pErrorDetail p) (ErrorDetail r))
     (IsPartition r).

(** Modelled from the spec: the method [String] of the record is missing;
    [info_detail] is a stringification of the chunk key and description. *)
Definition String (m : t) : string :=
  common.StringsBuilder
    [ SchemaNameS m; "."; TableNameS m; " -> "; SchemaNameT m; ".";
      TableNameT m; " scn "; GoStrings.Itoa (GlobalScnS m);
      " where "; ChunkDetailS m ].
End FullSyncMeta.

(** ** The world the engine acts on *)

(** Statements issued against the metadata store, the destination and the
    source, in the order they are issued. *)
Inductive Stmt : Type :=
| StDeleteWaitSuccessTables (tables : list string)
| StCreateWait (r : WaitSyncMeta.t)
| StDeleteWait (q : WaitSyncMeta.t)
| StUpdateWait (q : WaitSyncMeta.t) (p : WaitSyncMeta.patch)
| StDeleteFullBySchema (q : FullSyncMeta.t)
| StUpdateFull (q : FullSyncMeta.t) (p : FullSyncMeta.patch)
| StBatchCreateFull (rows : list FullSyncMeta.t)
| StCreateFullAndUpdateWait (f : FullSyncMeta.t) (r : WaitSyncMeta.t)
| StDeleteFullAndUpdateWait (q : FullSyncMeta.t) (r : WaitSyncMeta.t)
| StTruncate (schema table : string)
| StExtract (m : FullSyncMeta.t)
| StApply (m : FullSyncMeta.t)
| StOracleExec (sql : string).

Record World : Type := mkWorld {
  wait_sync_meta : list WaitSyncMeta.t;
  full_sync_meta : list FullSyncMeta.t;
  (** the source's DBMS_PARALLEL_EXECUTE tasks: name and chunk predicates *)
  parallel_tasks : list (string * list string);
  trace : list Stmt;
  (** calls made to the metadata store so far *)
  meta_calls : nat
}.

Definition set_wait (ws : list WaitSyncMeta.t) (w : World) : World :=
  mkWorld ws (full_sync_meta w) (parallel_tasks w) (trace w) (meta_calls w).
Definition set_full (fs : list FullSyncMeta.t) (w : World) : World :=
  mkWorld (wait_sync_meta w) fs (parallel_tasks w) (trace w) (meta_calls w).
Definition set_tasks (ts : list (string * list string)) (w : World) : World :=
  mkWorld (wait_sync_meta w) (full_sync_meta w) ts (trace w) (meta_calls w).
Definition issue (s : Stmt) (w : World) : World :=
  mkWorld (wait_sync_meta w) (full_sync_meta w) (parallel_tasks w)
          (trace w ++ [s])%list (meta_calls w).
Definition count_call (w : World) : World :=
  mkWorld (wait_sync_meta w) (full_sync_meta w) (parallel_tasks w)
          (trace w) (S (meta_calls w)).

(** ** The state-and-error monad

    A call ends with a value, with an error, or (indexing an empty slice) in a
    run-time panic. *)

Inductive Outcome (A : Type) : Type :=
| Ret (a : A) (w : World)
| Fail (e : error) (w : World)
| Crash.
Arguments Ret {A} a w.
Arguments Fail {A} e w.
Arguments Crash {A}.

Definition M (A : Type) : Type := World -> Outcome A.

Definition ret {A} (a : A) : M A := fun w => Ret a w.
Definition fail {A} (e : error) : M A := fun w => Fail e w.
Definition crash {A} : M A := fun _ => Crash.

Definition bind {A B} (m : M A) (k : A -> M B) : M B :=
  fun w =>
    match m w with
    | Ret a w' => k a w'
    | Fail e w' => Fail e w'
    | Crash => Crash
    end.

Notation "x <- m ;; k" := (bind m (fun x => k))
  (at level 61, m at next level, right associativity).
Notation "m ;;; k" := (bind m (fun _ => k))
  (at level 61, right associativity).

Definition modify (f : World -> World) : M unit := fun w => Ret tt (f w).

Definition lift {A} (r : result A) : M A :=
  match r with
  | Ok a => ret a
  | Err e => fail e
  end.

(** [v, err := f()] where the caller inspects [err] itself. *)
Definition attempt {A} (m : M A) : M (result A) :=
  fun w =>
    match m w with
    | Ret a w' => Ret (Ok a) w'
    | Fail e w' => Ret (Err e) w'
    | Crash => Crash
    end.

(** A [for] loop whose body returns on the first error. *)
Fixpoint forM_ {A} (l : list A) (f : A -> M unit) : M unit :=
  match l with
  | [] => ret tt
  | x :: rest => f x ;;; forM_ rest f
  end.

(** [errgroup.Group{}] with [SetLimit], [Go] for every task, then [Wait].
    The group is a zero value: it has no context, so an error cancels
    nothing; every task runs and [Wait] reports the first error returned.
    The tasks are run one after the other in the order of the loop: the
    schedule the group has with a limit of 1, where [Go] blocks until the
    task before has returned, and one of the schedules it has with a larger
    limit.  With a larger limit the tasks can return in another order, and
    the error [Wait] reports is that of the task that returned an error
    first. *)
Fixpoint errgroup_run (tasks : list (M unit)) (first : option error)
  : M unit :=
  fun w =>
    match tasks with
    | [] =>
        match first with
        | None => Ret tt w
        | Some e => Fail e w
        end
    | t :: rest =>
        match t w with
        | Ret _ w' => errgroup_run rest first w'
        | Fail e w' =>
            errgroup_run rest
              (match first with None => Some e | Some _ => first end) w'
        | Crash => Crash
        end
    end.

Definition errgroup (tasks : list (M unit)) : M unit :=
  errgroup_run tasks None.

(** The world an outcome leaves behind. *)
Definition world_of {A} (o : Outcome A) (d : World) : World :=
  match o with
  | Ret _ w => w
  | Fail _ w => w
  | Crash => d
  end.

(** ** Configuration and the collaborators outside the sources *)

Record Config : Type := mkConfig {
  DBTypeS : string;
  DBTypeT : string;
  TaskMode : string;
  OracleSchemaName : string;
  MySQLSchemaName : string;
  EnableCheckpoint : bool;
  InsertBatchSize : Z;
  CSVRows : Z
}.

(** What the engine takes from outside the sources: constants and helpers
    of package [common], the answers of the source and destination drivers,
    the extract/translate/apply stages, and the failures of the metadata
    store ([meta_fault n] is the error of the [n]-th call, if it fails). *)
Record Env : Type := mkEnv {
  RequireOracleDBVersion : string;
  OracleTableColumnCollationDBVersion : string;
  VersionOrdinal : string -> Z;
  TaskTableDefaultSourceGlobalSCN : Z;
  TaskTableDefaultSplitChunkNums : Z;
  StrconvUintBitSize : string -> Z -> result Z;
  GetOracleDBVersion : result string;
  filterCFGTable : result (list string);
  table_name_rules : list (string * string);
  GetOracleSchemaPartitionTable : string -> result (list string);
  GetOracleTableRowsByStatistics : string -> string -> result Z;
  GetOracleSchemaTableColumn : string -> string -> bool -> result (list row);
  Query : string -> World -> result (list row);
  rowid_chunks : string -> string -> string -> result (list string);
  IExtractor : FullSyncMeta.t -> Z -> result (list string * list string);
  ITranslator : FullSyncMeta.t -> list string -> list string -> option error;
  IApplier : FullSyncMeta.t -> list string -> list string -> option error;
  TruncateMySQLTable_fault : string -> string -> option error;
  meta_fault : nat -> option error
}.

(** ** Package meta: the operations

    Modelled from the spec: the metadata store is missing.  A lookup is a
    query by example: a field left at its zero value does not constrain,
    schema and table names are compared upper-cased, every other field by
    equality.  The compound operations are atomic: a failing call changes
    nothing. *)

Module meta.

(** Modelled from the spec: the lookups of the store are missing; a string
    field constrains by equality unless it is empty. *)
Definition str_cond (q v : string) : bool :=
  String.eqb q "" || String.eqb q v.

(** Modelled from the spec: schema and table names are compared upper-cased
    everywhere. *)
Definition name_cond (q v : string) : bool :=
  String.eqb q "" || String.eqb (common.StringUPPER q) (common.StringUPPER v).

(** Modelled from the spec: a numeric field constrains by equality unless it
    is zero. *)
Definition num_cond (q v : Z) : bool :=
  Z.eqb q 0 || Z.eqb q v.

(** Modelled from the spec: the WHERE clause of a [wait_sync_meta] lookup by
    the example record [q]. *)
Definition wait_matches (q r : WaitSyncMeta.t) : bool :=
  str_cond (WaitSyncMeta.DBTypeS q) (WaitSyncMeta.DBTypeS r)
  && str_cond (WaitSyncMeta.DBTypeT q) (WaitSyncMeta.DBTypeT r)
  && name_cond (WaitSyncMeta.SchemaNameS q) (WaitSyncMeta.SchemaNameS r)
  && name_cond (WaitSyncMeta.TableNameS q) (WaitSyncMeta.TableNameS r)
  && str_cond (WaitSyncMeta.TaskMode q) (WaitSyncMeta.TaskMode r)
  && str_cond (WaitSyncMeta.TaskStatus q) (WaitSyncMeta.TaskStatus r)
  && num_cond (WaitSyncMeta.GlobalScnS q) (WaitSyncMeta.GlobalScnS r)
  && num_cond (WaitSyncMeta.ChunkTotalNums q) (WaitSyncMeta.ChunkTotalNums r).

(** The unique key of a WaitSync record. *)
Definition wait_key (r : WaitSyncMeta.t) : WaitSyncMeta.t :=
  WaitSyncMeta.mk (WaitSyncMeta.DBTypeS r) (WaitSyncMeta.DBTypeT r)
    (WaitSyncMeta.SchemaNameS r) (WaitSyncMeta.TableNameS r)
    (WaitSyncMeta.TaskMode r) "" 0 0 0 0 "".

(** Modelled from the spec: the WHERE clause of a [full_sync_meta] lookup by
    the example record [q]. *)
Definition full_matches (q r : FullSyncMeta.t) : bool :=
  str_cond (FullSyncMeta.DBTypeS q) (FullSyncMeta.DBTypeS r)
  && str_cond (FullSyncMeta.DBTypeT q) (FullSyncMeta.DBTypeT r)
  && name_cond (FullSyncMeta.SchemaNameS q) (FullSyncMeta.SchemaNameS r)
  && name_cond (FullSyncMeta.TableNameS q) (FullSyncMeta.TableNameS r)
  && str_cond (FullSyncMeta.TaskMode q) (FullSyncMeta.TaskMode r)
  && str_cond (FullSyncMeta.ChunkDetailS q) (FullSyncMeta.ChunkDetailS r)
  && str_cond (FullSyncMeta.TaskStatus q) (FullSyncMeta.TaskStatus r).

(** The unique key of a FullSync record. *)
Definition full_key (r : FullSyncMeta.t) : FullSyncMeta.t :=
  FullSyncMeta.mk (FullSyncMeta.DBTypeS r) (FullSyncMeta.DBTypeT r)
    (FullSyncMeta.SchemaNameS r) (FullSyncMeta.TableNameS r) "" "" 0 ""
    (FullSyncMeta.ChunkDetailS r) (FullSyncMeta.TaskMode r) "" "" "" "".

Definition update_where {A} (c : A -> bool) (f : A -> A) (l : list A)
  : list A :=
  map (fun r => if c r then f r else r) l.

Definition delete_where {A} (c : A -> bool) (l : list A) : list A :=
  filter (fun r => negb (c r)) l.

Definition count_where {A} (c : A -> bool) (l : list A) : Z :=
  Z.of_nat (List.length (filter c l)).

Fixpoint dedup (l : list string) : list string :=
  match l with
  | [] => []
  | x :: rest =>
      if common.IsContainString rest x then dedup rest else x :: dedup rest
  end.

Section Ops.
Variable env : Env.

(** One call to the store: it is counted, its statements are issued, and
    it either fails as the fault schedule says or runs [body]. *)
Definition call {A} (issued : list Stmt)
    (body : World -> result (A * World)) : M A :=
  fun w =>
    let w1 := fold_left (fun acc s => issue s acc) issued (count_call w) in
    match meta_fault env (meta_calls w) with
    | Some e => Fail e w1
    | None =>
        match body w1 with
        | Ok (a, w2) => Ret a w2
        | Err e => Fail e w1
        end
    end.

Definition read {A} (f : World -> A) : M A :=
  call [] (fun w => Ok (f w, w)).

Definition write (s : Stmt) (f : World -> World) : M unit :=
  call [s] (fun w => Ok (tt, f w)).

(** Modelled from the spec: [DetailWaitSyncMetaSuccessTables] is missing;
    the table names of the records matching [q] ([prior_success]). *)
Definition DetailWaitSyncMetaSuccessTables (q : WaitSyncMeta.t)
  : M (list string) :=
  read (fun w =>
          map WaitSyncMeta.TableNameS
              (filter (wait_matches q) (wait_sync_meta w))).

(** Modelled from the spec: [DeleteWaitSyncMetaSuccessTables] is missing; it
    deletes the records matching [q] whose table is one of [tables]. *)
Definition DeleteWaitSyncMetaSuccessTables (q : WaitSyncMeta.t)
    (tables : list string) : M unit :=
  write (StDeleteWaitSuccessTables tables)
    (fun w =>
       set_wait
         (delete_where
            (fun r => wait_matches q r
                      && common.IsContainString
                           (map common.StringUPPER tables)
                           (common.StringUPPER (WaitSyncMeta.TableNameS r)))
            (wait_sync_meta w)) w).

(** Modelled from the spec: [CountsErrWaitSyncMetaBySchema] is missing; the
    error-count query of the gate. *)
Definition CountsErrWaitSyncMetaBySchema (q : WaitSyncMeta.t) : M Z :=
  read (fun w => count_where (wait_matches q) (wait_sync_meta w)).

(** Modelled from the spec: [DetailWaitSyncMeta] is missing; detail by
    key. *)
Definition DetailWaitSyncMeta (q : WaitSyncMeta.t)
  : M (list WaitSyncMeta.t) :=
  read (fun w => filter (wait_matches q) (wait_sync_meta w)).

(** Modelled from the spec: [QueryWaitSyncMetaByPartTask] is missing;
    [part_tables], the records with status RUNNING. *)
Definition QueryWaitSyncMetaByPartTask (q : WaitSyncMeta.t)
  : M (list WaitSyncMeta.t) :=
  read (fun w => filter (wait_matches q) (wait_sync_meta w)).

(** Modelled from the spec: [CreateWaitSyncMeta] is missing; single-row
    insert of the record as given, refused on a duplicate of the unique
    key. *)
Definition CreateWaitSyncMeta (r : WaitSyncMeta.t) : M unit :=
  call [StCreateWait r]
    (fun w =>
       if existsb (wait_matches (wait_key r)) (wait_sync_meta w)
       then Err "Duplicate entry for key of wait_sync_meta"
       else Ok (tt, set_wait (wait_sync_meta w ++ [r])%list w)).

(** Modelled from the spec: [DeleteWaitSyncMeta] is missing; delete by
    key. *)
Definition DeleteWaitSyncMeta (q : WaitSyncMeta.t) : M unit :=
  write (StDeleteWait q)
    (fun w => set_wait (delete_where (wait_matches q) (wait_sync_meta w)) w).

(** Modelled from the spec: [UpdateWaitSyncMeta] is missing; it writes the
    columns of the patch on the records matching [q]. *)
Definition UpdateWaitSyncMeta (q : WaitSyncMeta.t)
    (p : WaitSyncMeta.patch) : M unit :=
  write (StUpdateWait q p)
    (fun w =>
       set_wait
         (update_where (wait_matches q) (WaitSyncMeta.apply p)
            (wait_sync_meta w)) w).

(** Modelled from the spec: [DeleteFullSyncMetaBySchemaSyncMode] is missing;
    it deletes all FullSync rows of the schema/task-mode. *)
Definition DeleteFullSyncMetaBySchemaSyncMode (q : FullSyncMeta.t)
  : M unit :=
  write (StDeleteFullBySchema q)
    (fun w => set_full (delete_where (full_matches q) (full_sync_meta w)) w).

(** Modelled from the spec: [DistinctFullSyncMetaTableNameSByTaskStatus] is
    missing; the distinct tables having a row that matches [q]. *)
Definition DistinctFullSyncMetaTableNameSByTaskStatus (q : FullSyncMeta.t)
  : M (list string) :=
  read (fun w =>
          dedup (map FullSyncMeta.TableNameS
                     (filter (full_matches q) (full_sync_meta w)))).

(** Modelled from the spec: [CountsFullSyncMetaByTaskTable] is missing; the
    count of FullSync rows of a table. *)
Definition CountsFullSyncMetaByTaskTable (q : FullSyncMeta.t) : M Z :=
  read (fun w => count_where (full_matches q) (full_sync_meta w)).

(** Modelled from the spec: [CountsErrorFullSyncMeta] is missing; count by
    status. *)
Definition CountsErrorFullSyncMeta (q : FullSyncMeta.t) : M Z :=
  read (fun w => count_where (full_matches q) (full_sync_meta w)).

(** Modelled from the spec: [DetailFullSyncMeta] is missing; detail by
    key. *)
Definition DetailFullSyncMeta (q : FullSyncMeta.t)
  : M (list FullSyncMeta.t) :=
  read (fun w => filter (full_matches q) (full_sync_meta w)).

(** Modelled from the spec: [UpdateFullSyncMeta] is missing; it writes the
    columns of the patch on the rows matching [q]. *)
Definition UpdateFullSyncMeta (q : FullSyncMeta.t)
    (p : FullSyncMeta.patch) : M unit :=
  write (StUpdateFull q p)
    (fun w =>
       set_full
         (update_where (full_matches q) (FullSyncMeta.apply p)
            (full_sync_meta w)) w).

(** Modelled from the spec: [BatchCreateFullSyncMeta] is missing;
    [batch_insert_chunks], one atomic compound operation. *)
Definition BatchCreateFullSyncMeta (rows : list FullSyncMeta.t)
    (insertBatchSize : Z) : M unit :=
  call [StBatchCreateFull rows]
    (fun w =>
       if existsb
            (fun f => existsb (full_matches (full_key f)) (full_sync_meta w))
            rows
       then Err "Duplicate entry for key of full_sync_meta"
       else Ok (tt, set_full (full_sync_meta w ++ rows)%list w)).

(** Modelled from the spec: [CreateFullSyncMetaAndUpdateWaitSyncMeta] is
    missing; [create_chunks_and_update_table], atomic: the chunk row is
    inserted and the snapshot id, the counters and the partition flag of
    the table record are written. *)
Definition CreateFullSyncMetaAndUpdateWaitSyncMeta (f : FullSyncMeta.t)
    (r : WaitSyncMeta.t) : M unit :=
  call [StCreateFullAndUpdateWait f r]
    (fun w =>
       if existsb (full_matches (full_key f)) (full_sync_meta w)
       then Err "Duplicate entry for key of full_sync_meta"
       else Ok (tt,
       set_wait
         (update_where (wait_matches (wait_key r))
            (WaitSyncMeta.apply
               (WaitSyncMeta.mkPatch None
                  (Some (WaitSyncMeta.GlobalScnS r))
                  (Some (WaitSyncMeta.ChunkTotalNums r))
                  (Some (WaitSyncMeta.ChunkSuccessNums r))
                  (Some (WaitSyncMeta.ChunkFailedNums r))
                  (Some (WaitSyncMeta.IsPartition r))))
            (wait_sync_meta w))
         (set_full (full_sync_meta w ++ [f])%list w))).

(** Modelled from the spec: [DeleteTableFullSyncMetaAndUpdateWaitSyncMeta]
    is missing; [delete_chunks_and_update_table], atomic: the FullSync rows
    of the table are deleted and the status and the success and failed
    counters of the table record are written. *)
Definition DeleteTableFullSyncMetaAndUpdateWaitSyncMeta
    (q : FullSyncMeta.t) (r : WaitSyncMeta.t) : M unit :=
  write (StDeleteFullAndUpdateWait q r)
    (fun w =>
       set_wait
         (update_where (wait_matches (wait_key r))
            (WaitSyncMeta.apply
               (WaitSyncMeta.mkPatch
                  (Some (WaitSyncMeta.TaskStatus r)) None None
                  (Some (WaitSyncMeta.ChunkSuccessNums r))
                  (Some (WaitSyncMeta.ChunkFailedNums r)) None))
            (wait_sync_meta w))
         (set_full (delete_where (full_matches q) (full_sync_meta w)) w)).

(** Modelled from the spec: [DetailTableNameRule] is missing; the optional
    mapping of source table to target table. *)
Definition DetailTableNameRule : M (list (string * string)) :=
  read (fun _ => table_name_rules env).

End Ops.

End meta.

(** ** Package oracle (database/oracle/full.go): snapshot and chunk tasks *)

Module oracle.

Definition has_task (name : string) (w : World) : bool :=
  existsb (fun t => String.eqb (fst t) name) (parallel_tasks w).

Section Ops.
Variable env : Env.

(** [Query]: the rows the source answers with, or its error. *)
Definition RunQuery (sql : string) : M (list row) :=
  fun w =>
    match Query env sql w with
    | Ok res => Ret res w
    | Err e => Fail e w
    end.

(** [ExecContext] of a PL/SQL block on the source.  The effect is the
    source's: [effect] gives the new task list or the ORA- error. *)
Definition ExecContext (sql : string)
    (effect : World -> result (list (string * list string))) : M unit :=
  fun w =>
    let w1 := issue (StOracleExec sql) w in
    match effect w1 with
    | Ok ts => Ret tt (set_tasks ts w1)
    | Err e => Fail e w1
    end.

Definition GetOracleCurrentSnapshotSCN : M Z :=
  res <- RunQuery "select min(current_scn) CURRENT_SCN from gv$database" ;;
  match res with
  | [] => crash
  | r0 :: _ =>
      match StrconvUintBitSize env (row_get r0 "CURRENT_SCN") 64 with
      | Err e =>
          fail ("get oracle current snapshot scn "
                  ++ row_get r0 "CURRENT_SCN"
                  ++ " utils.StrconvUintBitSize failed: " ++ e)
      | Ok globalSCN => ret globalSCN
      end
  end.

Definition CloseOracleChunkTask (taskName : string) : M unit :=
  let clearSQL := common.StringsBuilder ["BEGIN
  DBMS_PARALLEL_EXECUTE.DROP_TASK ('"; taskName; "');
END;"] in
  r <- attempt
         (ExecContext clearSQL
            (fun w =>
               if has_task taskName w then
                 Ok (filter (fun t => negb (String.eqb (fst t) taskName))
                            (parallel_tasks w))
               else Err "ORA-29498: task not found")) ;;
  match r with
  | Err e =>
      fail ("oracle DBMS_PARALLEL_EXECUTE drop task failed: " ++ e
              ++ ", sql: " ++ clearSQL)
  | Ok _ => ret tt
  end.

Definition StartOracleChunkCreateTask (taskName : string) : M unit :=
  let querySQL := common.StringsBuilder
    ["SELECT COUNT(1) COUNT FROM user_parallel_execute_chunks WHERE TASK_NAME='";
     taskName; "'"] in
  res <- RunQuery querySQL ;;
  match res with
  | [] => crash
  | r0 :: _ =>
      (if negb (String.eqb (row_get r0 "COUNT") "0")
       then CloseOracleChunkTask taskName
       else ret tt) ;;;
      let createSQL := common.StringsBuilder ["BEGIN
  DBMS_PARALLEL_EXECUTE.CREATE_TASK (task_name => '"; taskName; "');
END;"] in
      r <- attempt
             (ExecContext createSQL
                (fun w =>
                   if has_task taskName w
                   then Err "ORA-29497: duplicate task name"
                   else Ok (parallel_tasks w ++ [(taskName, [])])%list)) ;;
      match r with
      | Err e =>
          fail ("oracle DBMS_PARALLEL_EXECUTE create task failed: " ++ e
                  ++ ", sql: " ++ createSQL)
      | Ok _ => ret tt
      end
  end.

Definition StartOracleCreateChunkByRowID
    (taskName schemaName tableName chunkSize : string) : M unit :=
  let chunkSQL := common.StringsBuilder ["BEGIN
  DBMS_PARALLEL_EXECUTE.CREATE_CHUNKS_BY_ROWID (task_name   => '"; taskName; "',
                                               table_owner => '"; schemaName; "',
                                               table_name  => '"; tableName; "',
                                               by_row      => TRUE,
                                               chunk_size  => "; chunkSize; ");
END;"] in
  r <- attempt
         (ExecContext chunkSQL
            (fun w =>
               if has_task taskName w then
                 match rowid_chunks env schemaName tableName chunkSize with
                 | Err e => Err e
                 | Ok chunks =>
                     Ok (map (fun t =>
                                if String.eqb (fst t) taskName
                                then (taskName, chunks) else t)
                             (parallel_tasks w))
                 end
               else Err "ORA-29498: task not found")) ;;
  match r with
  | Err e =>
      fail ("oracle DBMS_PARALLEL_EXECUTE create_chunks_by_rowid task failed: "
              ++ e ++ ", sql: " ++ chunkSQL)
  | Ok _ => ret tt
  end.

Definition GetOracleTableChunksByRowID (taskName : string) : M (list row) :=
  let querySQL := common.StringsBuilder
    ["SELECT 'ROWID BETWEEN ''' || start_rowid || ''' AND ''' || end_rowid || '''' CMD FROM user_parallel_execute_chunks WHERE  task_name = '";
     taskName; "' ORDER BY chunk_id"] in
  RunQuery querySQL.

End Ops.

End oracle.

(** ** Package mysql: the destination *)

Module mysql.
Section Ops.
Variable env : Env.

Definition TruncateMySQLTable (schemaName tableName : string) : M unit :=
  fun w =>
    let w1 := issue (StTruncate schemaName tableName) w in
    match TruncateMySQLTable_fault env schemaName tableName with
    | Some e => Fail e w1
    | None => Ret tt w1
    end.
End Ops.
End mysql.

(** ** Package o2m (module/migrate/o2m/full.go): chunker, orchestrator, planner *)

Module o2m.

(** [tableNameRuleMap[k]]: the Go map keeps the last value written for a
    key; entries are consed in front and the first match is read. *)
Fixpoint rule_lookup (m : list (string * string)) (k : string)
  : option string :=
  match m with
  | [] => None
  | (k', v) :: rest => if String.eqb k k' then Some v else rule_lookup rest k
  end.

Section Migrate.
Variable cfg : Config.
Variable env : Env.

Definition schemaUPPER : string := common.StringUPPER (OracleSchemaName cfg).

(** The five key fields the sources fill in for a WaitSync lookup. *)
Definition waitQuery (schema table status : string) (scn total : Z)
  : WaitSyncMeta.t :=
  WaitSyncMeta.mk (DBTypeS cfg) (DBTypeT cfg) schema table (TaskMode cfg)
    status scn total 0 0 "".

Definition fullQuery (schema table status : string) : FullSyncMeta.t :=
  FullSyncMeta.mk (DBTypeS cfg) (DBTypeT cfg) schema table "" "" 0 "" ""
    (TaskMode cfg) status "" "" "".

(** *** fullPartSyncTable *)

(** The lookup [&meta.FullSyncMeta{DBTypeS: m.DBTypeS, ...,
    ChunkDetailS: m.ChunkDetailS}] of the chunk's own record. *)
Definition chunkQuery (m : FullSyncMeta.t) : FullSyncMeta.t :=
  FullSyncMeta.mk (FullSyncMeta.DBTypeS m) (FullSyncMeta.DBTypeT m)
    (FullSyncMeta.SchemaNameS m) (FullSyncMeta.TableNameS m) "" "" 0 ""
    (FullSyncMeta.ChunkDetailS m) (FullSyncMeta.TaskMode m) "" "" "" "".

(** The [record error, skip error] block, written three times in the
    source with the stage name in its message. *)
Definition recordFailed (m : FullSyncMeta.t) (stage : string) (err : error)
  : M unit :=
  r <- attempt
         (meta.UpdateFullSyncMeta env (chunkQuery m)
            (FullSyncMeta.mkPatch (Some common.TaskStatusFailed)
               (Some (FullSyncMeta.String m)) (Some err))) ;;
  match r with
  | Err errf =>
      fail ("get oracle schema table [" ++ FullSyncMeta.String m ++ "] "
              ++ stage ++ " failed: " ++ errf)
  | Ok _ => ret tt
  end.

(** The function given to [g1.Go]: one chunk. *)
Definition syncChunk (m : FullSyncMeta.t) : M unit :=
  modify (issue (StExtract m)) ;;;
  match IExtractor env m (InsertBatchSize cfg) with
  | Err err => recordFailed m "IExtractor" err
  | Ok (columnFields, batchResults) =>
      match ITranslator env m columnFields batchResults with
      | Some err => recordFailed m "ITranslator" err
      | None =>
          modify (issue (StApply m)) ;;;
          match IApplier env m columnFields batchResults with
          | Some err => recordFailed m "IApplier" err
          | None =>
              r <- attempt
                     (meta.UpdateFullSyncMeta env (chunkQuery m)
                        (FullSyncMeta.mkPatch
                           (Some common.TaskStatusSuccess) None None)) ;;
              match r with
              | Err errf =>
                  fail ("get oracle schema table ["
                          ++ FullSyncMeta.String m
                          ++ "] Success failed: " ++ errf)
              | Ok _ => ret tt
              end
          end
      end
  end.

(** [g1]: the inner group over the WAITING chunks of a table. *)
Definition syncChunks (fullMetas : list FullSyncMeta.t) : M unit :=
  errgroup (map syncChunk fullMetas).

(** The function given to [g.Go]: one table. *)
Definition syncTable (t : string) : M unit :=
  meta.UpdateWaitSyncMeta env
    (waitQuery (OracleSchemaName cfg) (common.StringUPPER t) "" 0 0)
    (WaitSyncMeta.mkPatch (Some common.TaskStatusRunning)
       None None None None None) ;;;
  fullMetas <- meta.DetailFullSyncMeta env
                 (fullQuery schemaUPPER (common.StringUPPER t)
                    common.TaskStatusWaiting) ;;
  syncChunks fullMetas ;;;
  r <- attempt
         (meta.CountsErrorFullSyncMeta env
            (fullQuery schemaUPPER (common.StringUPPER t)
               common.TaskStatusFailed)) ;;
  match r with
  | Err err =>
      fail ("get meta table [full_sync_meta] counts failed, error: " ++ err)
  | Ok totalErrs =>
      if totalErrs =? 0 then
        meta.DeleteTableFullSyncMetaAndUpdateWaitSyncMeta env
          (fullQuery schemaUPPER (common.StringUPPER t) "")
          (WaitSyncMeta.mk (DBTypeS cfg) (DBTypeT cfg) schemaUPPER
             (common.StringUPPER t) (TaskMode cfg)
             common.TaskStatusSuccess 0 0
             (Z.of_nat (List.length fullMetas)) 0 "")
      else
        meta.UpdateWaitSyncMeta env
          (waitQuery schemaUPPER (common.StringUPPER t) "" 0 0)
          (WaitSyncMeta.mkPatch (Some common.TaskStatusFailed) None None
             (Some (Z.of_nat (List.length fullMetas) - totalErrs))
             (Some totalErrs) None)
  end.

Definition fullPartSyncTable (fullPartTables : list string) : M unit :=
  errgroup (map syncTable fullPartTables).

(** *** initWaitSyncTableRowID *)

Definition getTableNameRule : M (list (string * string)) :=
  tableNameRules <- meta.DetailTableNameRule env ;;
  ret (fold_left
         (fun m tr =>
            (common.StringUPPER (fst tr), common.StringUPPER (snd tr)) :: m)
         tableNameRules []).

Definition adjustTableSelectColumn (sourceTable : string)
    (oracleCollation : bool) : M string :=
  lift (Projection.adjustTableSelectColumn
          (GetOracleSchemaTableColumn env (OracleSchemaName cfg)
             sourceTable oracleCollation)).

(** The FullSync record of one chunk of table [t]. *)
Definition chunkMeta (t targetTableName : string) (globalSCN : Z)
    (sourceColumnInfo chunk isPartition : string) : FullSyncMeta.t :=
  FullSyncMeta.mk (DBTypeS cfg) (DBTypeT cfg) schemaUPPER
    (common.StringUPPER t)
    (common.StringUPPER (MySQLSchemaName cfg))
    (common.StringUPPER targetTableName)
    globalSCN sourceColumnInfo chunk (TaskMode cfg)
    common.TaskStatusWaiting "" "" isPartition.

(** The single-chunk registration [1 = 1], written twice in the source. *)
Definition createWholeTableChunk (t targetTableName : string)
    (globalSCN : Z) (sourceColumnInfo isPartition : string) : M unit :=
  meta.CreateFullSyncMetaAndUpdateWaitSyncMeta env
    (chunkMeta t targetTableName globalSCN sourceColumnInfo "1 = 1"
       isPartition)
    (WaitSyncMeta.mk (DBTypeS cfg) (DBTypeT cfg) schemaUPPER
       (common.StringUPPER t) (TaskMode cfg) "" globalSCN 1 0 0
       isPartition).

(** The function given to [g.Go]: the chunking of one fresh table. *)
Definition initTable (tableNameRule : list (string * string))
    (globalSCN : Z) (partitionTables : list string)
    (oracleCollation : bool) (workerID : Z) (t : string) : M unit :=
  let targetTableName :=
    match rule_lookup tableNameRule (common.StringUPPER t) with
    | Some val => val
    | None => common.StringUPPER t
    end in
  sourceColumnInfo <- adjustTableSelectColumn t oracleCollation ;;
  let isPartition :=
    if common.IsContainString partitionTables (common.StringUPPER t)
    then "YES" else "NO" in
  tableRowsByStatistics <-
    lift (GetOracleTableRowsByStatistics env (OracleSchemaName cfg) t) ;;
  if tableRowsByStatistics =? 0 then
    createWholeTableChunk t targetTableName globalSCN sourceColumnInfo
      isPartition
  else
    let taskName := common.StringsBuilder
      [schemaUPPER; "_"; common.StringUPPER t; "_"; "TASK";
       GoStrings.Itoa workerID] in
    oracle.StartOracleChunkCreateTask env taskName ;;;
    oracle.StartOracleCreateChunkByRowID env taskName schemaUPPER
      (common.StringUPPER t) (GoStrings.Itoa (CSVRows cfg)) ;;;
    chunkRes <- oracle.GetOracleTableChunksByRowID env taskName ;;
    if Nat.eqb (List.length chunkRes) 0 then
      createWholeTableChunk t targetTableName globalSCN sourceColumnInfo
        isPartition
    else
      let fullMetas :=
        map (fun res =>
               chunkMeta t targetTableName globalSCN sourceColumnInfo
                 (row_get res "CMD") isPartition)
            chunkRes in
      meta.BatchCreateFullSyncMeta env fullMetas (InsertBatchSize cfg) ;;;
      meta.UpdateWaitSyncMeta env
        (waitQuery schemaUPPER (common.StringUPPER t) "" 0 0)
        (WaitSyncMeta.mkPatch None (Some globalSCN)
           (Some (Z.of_nat (List.length chunkRes))) (Some 0) (Some 0)
           (Some isPartition)) ;;;
      oracle.CloseOracleChunkTask taskName.

(** [for idx, table := range csvWaitTables]. *)
Fixpoint indexed {A} (idx : Z) (l : list A) : list (Z * A) :=
  match l with
  | [] => []
  | x :: rest => (idx, x) :: indexed (idx + 1) rest
  end.

Definition initWaitSyncTableRowID (csvWaitTables : list string)
    (oracleCollation : bool) : M unit :=
  tableNameRule <- getTableNameRule ;;
  globalSCN <- oracle.GetOracleCurrentSnapshotSCN env ;;
  partitionTables <-
    lift (GetOracleSchemaPartitionTable env (OracleSchemaName cfg)) ;;
  errgroup
    (map (fun it =>
            initTable tableNameRule globalSCN partitionTables
              oracleCollation (fst it) (snd it))
         (indexed 0 csvWaitTables)).

Definition fullWaitSyncTable (fullWaitTables : list string)
    (oracleCollation : bool) : M unit :=
  initWaitSyncTableRowID fullWaitTables oracleCollation ;;;
  fullPartSyncTable fullWaitTables.

(** *** Full *)

Definition gateError (err : option error) : error :=
  "csv schema [" ++ GoStrings.ToUpper (OracleSchemaName cfg) ++ "] mode ["
    ++ TaskMode cfg ++ "] table task failed: " ++ fmt_err err
    ++ ", meta table [wait_sync_meta] exist failed error, please firstly check log and deal, secondly clear or update meta table [wait_sync_meta] column [task_status] table status WAITING (Need UPPER), thirdly clear meta table [full_sync_meta] error table record, fively clear target schema error table record, finally rerunning".

(** The record inserted for an exporter that has none yet. *)
Definition waitingRecord (tableName : string) : WaitSyncMeta.t :=
  WaitSyncMeta.mk (DBTypeS cfg) (DBTypeT cfg) schemaUPPER
    (common.StringUPPER tableName) (TaskMode cfg)
    common.TaskStatusWaiting
    (TaskTableDefaultSourceGlobalSCN env)
    (TaskTableDefaultSplitChunkNums env) 0 0 "".

(** The record the checkpoint-off block inserts: the composite literal
    names no [TaskStatus]. *)
Definition resetRecord (tableName : string) : WaitSyncMeta.t :=
  WaitSyncMeta.mk (DBTypeS cfg) (DBTypeT cfg) schemaUPPER
    (common.StringUPPER tableName) (TaskMode cfg)
    ""
    (TaskTableDefaultSourceGlobalSCN env)
    (TaskTableDefaultSplitChunkNums env) 0 0 "".

(** The loop body of the resumability check; [panicTblFullSlice] is
    threaded through. *)
Fixpoint checkPartSync (partSyncDetails : list WaitSyncMeta.t)
    (waitFullChunkTables panicTblFullSlice : list string)
  : M (list string) :=
  match partSyncDetails with
  | [] => ret panicTblFullSlice
  | partSyncTable :: rest =>
      if negb (common.IsContainString waitFullChunkTables
                 (WaitSyncMeta.TableNameS partSyncTable))
      then
        checkPartSync rest waitFullChunkTables
          (panicTblFullSlice ++ [WaitSyncMeta.TableNameS partSyncTable])%list
      else
        counts <- meta.CountsFullSyncMetaByTaskTable env
                    (fullQuery schemaUPPER
                       (WaitSyncMeta.TableNameS partSyncTable) "") ;;
        if negb (counts =? WaitSyncMeta.ChunkTotalNums partSyncTable) then
          checkPartSync rest waitFullChunkTables
            (panicTblFullSlice
               ++ [WaitSyncMeta.TableNameS partSyncTable])%list
        else checkPartSync rest waitFullChunkTables panicTblFullSlice
  end.

(** Everything after the gate. *)
Definition fullAfterGate (exporters : list string) (oracleCollation : bool)
  : M unit :=
  forM_ exporters
    (fun tableName =>
       waitSyncMetas <- meta.DetailWaitSyncMeta env
                          (waitQuery schemaUPPER tableName "" 0 0) ;;
       if Nat.eqb (List.length waitSyncMetas) 0
       then meta.CreateWaitSyncMeta env (waitingRecord tableName)
       else ret tt) ;;;
  (if negb (EnableCheckpoint cfg) then
     meta.DeleteFullSyncMetaBySchemaSyncMode env
       (fullQuery (OracleSchemaName cfg) "" "") ;;;
     forM_ exporters
       (fun tableName =>
          meta.DeleteWaitSyncMeta env
            (waitQuery (OracleSchemaName cfg) tableName "" 0 0) ;;;
          mysql.TruncateMySQLTable env (MySQLSchemaName cfg) tableName ;;;
          waitSyncMetas <- meta.DetailWaitSyncMeta env
                             (waitQuery schemaUPPER tableName "" 0 0) ;;
          if Nat.eqb (List.length waitSyncMetas) 0
          then meta.CreateWaitSyncMeta env (resetRecord tableName)
          else ret tt)
   else ret tt) ;;;
  waitSyncDetails <- meta.DetailWaitSyncMeta env
                       (waitQuery schemaUPPER "" common.TaskStatusWaiting
                          (TaskTableDefaultSourceGlobalSCN env)
                          (TaskTableDefaultSplitChunkNums env)) ;;
  let waitSyncTables :=
    map (fun table => common.StringUPPER (WaitSyncMeta.TableNameS table))
        waitSyncDetails in
  partSyncDetails <- meta.QueryWaitSyncMetaByPartTask env
                       (waitQuery schemaUPPER "" common.TaskStatusRunning
                          0 0) ;;
  let partSyncTables :=
    map (fun t => common.StringUPPER (WaitSyncMeta.TableNameS t))
        partSyncDetails in
  waitFullChunkTables <-
    meta.DistinctFullSyncMetaTableNameSByTaskStatus env
      (fullQuery schemaUPPER "" common.TaskStatusWaiting) ;;
  panicTblFullSlice <-
    checkPartSync partSyncDetails waitFullChunkTables [] ;;
  if negb (Nat.eqb (List.length panicTblFullSlice) 0)
     || negb (Nat.eqb (List.length partSyncTables)
                      (List.length waitFullChunkTables))
  then
    fail "checkpoint isn't consistent, can't be resume, please reruning [enable-checkpoint = fase]"
  else
    (if Nat.ltb 0 (List.length partSyncTables)
     then fullPartSyncTable partSyncTables else ret tt) ;;;
    (if Nat.ltb 0 (List.length waitSyncTables)
     then fullWaitSyncTable waitSyncTables oracleCollation else ret tt) ;;;
    succTotals <- meta.DetailWaitSyncMeta env
                    (waitQuery schemaUPPER "" common.TaskStatusSuccess 0 0) ;;
    failedTotals <- meta.DetailWaitSyncMeta env
                      (waitQuery schemaUPPER "" common.TaskStatusFailed 0 0) ;;
    ret tt.

Definition Full : M unit :=
  oracleDBVersion <- lift (GetOracleDBVersion env) ;;
  if VersionOrdinal env oracleDBVersion
       <? VersionOrdinal env (RequireOracleDBVersion env)
  then
    fail ("oracle db version [" ++ oracleDBVersion
            ++ "] is less than 11g, can't be using transferdb tools")
  else
    let oracleCollation :=
      VersionOrdinal env (OracleTableColumnCollationDBVersion env)
        <=? VersionOrdinal env oracleDBVersion in
    exporters <- lift (filterCFGTable env) ;;
    tablesByMeta <- meta.DetailWaitSyncMetaSuccessTables env
                      (waitQuery schemaUPPER "" common.TaskStatusSuccess
                         0 0) ;;
    let clearTables :=
      common.FilterDifferenceStringItems tablesByMeta exporters in
    (if Nat.ltb 0 (List.length clearTables)
     then meta.DeleteWaitSyncMetaSuccessTables env
            (waitQuery schemaUPPER "" common.TaskStatusSuccess 0 0)
            clearTables
     else ret tt) ;;;
    r <- attempt
           (meta.CountsErrWaitSyncMetaBySchema env
              (waitQuery schemaUPPER "" common.TaskStatusFailed 0 0)) ;;
    match r with
    | Err err => fail (gateError (Some err))
    | Ok errTotals =>
        if 0 <? errTotals then fail (gateError None)
        else fullAfterGate exporters oracleCollation
    end.

End Migrate.

End o2m.

(** ** Reasoning about outcomes *)

(** [post_or_crash m w QR QF]: run from [w], [m] ends in a world
    satisfying [QR] with its value or [QF] with its error, unless it
    panics. *)
Definition post_or_crash {A} (m : M A) (w : World)
    (QR : A -> World -> Prop) (QF : error -> World -> Prop) : Prop :=
  match m w with
  | Ret a w' => QR a w'
  | Fail e w' => QF e w'
  | Crash => True
  end.

Definition is_ret {A} (o : Outcome A) : bool :=
  match o with Ret _ _ => true | _ => false end.
Definition is_fail {A} (o : Outcome A) : bool :=
  match o with Fail _ _ => true | _ => false end.
Definition is_crash {A} (o : Outcome A) : bool :=
  match o with Crash => true | _ => false end.

(** [safe m]: [m] never panics. *)
Definition safe {A} (m : M A) : Prop :=
  forall w, is_crash (m w) = false.

(** ** Observations on the metadata store *)

(** The FullSync rows of source table [t]. *)
Definition table_rows (t : string) (l : list FullSyncMeta.t)
  : list FullSyncMeta.t :=
  filter (fun r => String.eqb (FullSyncMeta.TableNameS r) (common.StringUPPER t)) l.

(** The distinct snapshot ids carried by a list of FullSync rows. *)
Definition distinct_snapshots (l : list FullSyncMeta.t) : list Z :=
  nodup Z.eq_dec (map FullSyncMeta.GlobalScnS l).

(** The statements of a trace that touch the destination or run a chunk. *)
Definition is_truncate (s : Stmt) : bool :=
  match s with StTruncate _ _ => true | _ => false end.
Definition is_chunk_run (s : Stmt) : bool :=
  match s with StExtract _ | StApply _ => true | _ => false end.
Definition is_oracle_exec (s : Stmt) : bool :=
  match s with StOracleExec _ => true | _ => false end.
Definition is_failed_write (s : Stmt) : bool :=
  match s with
  | StUpdateFull _ p =>
      match FullSyncMeta.pTaskStatus p with
      | Some st => String.eqb st common.TaskStatusFailed
      | None => false
      end
  | _ => false
  end.

(** [only_success_cleanup w w']: between [w] and [w'] nothing happened but
    the deletion of SUCCESS records from [wait_sync_meta]: FullSync records
    and source tasks are the same, every WaitSync record of [w'] is one of
    [w], every record of [w] that is not SUCCESS is still there, and the
    trace grew by at most the statement of that deletion. *)
Definition only_success_cleanup (w w' : World) : Prop :=
  full_sync_meta w' = full_sync_meta w
  /\ parallel_tasks w' = parallel_tasks w
  /\ (forall r, In r (wait_sync_meta w') -> In r (wait_sync_meta w))
  /\ (forall r, In r (wait_sync_meta w) ->
        WaitSyncMeta.TaskStatus r <> common.TaskStatusSuccess ->
        In r (wait_sync_meta w'))
  /\ (trace w' = trace w
      \/ exists tables,
           trace w' = (trace w ++ [StDeleteWaitSuccessTables tables])%list).

(** [clearTables]: the tables the clean-up before the gate names, those
    with a SUCCESS record of the schema and task mode in [w] that are not
    among [exporters]. *)
Definition clearTables (cfg : Config) (exporters : list string) (w : World)
  : list string :=
  common.FilterDifferenceStringItems
    (map WaitSyncMeta.TableNameS
       (filter
          (meta.wait_matches
             (o2m.waitQuery cfg (o2m.schemaUPPER cfg) ""
                common.TaskStatusSuccess 0 0))
          (wait_sync_meta w)))
    exporters.

(** The records the clean-up of [tables] deletes: the SUCCESS records of
    the schema and task mode whose table is one of [tables]. *)
Definition cleared (cfg : Config) (tables : list string)
    (r : WaitSyncMeta.t) : bool :=
  meta.wait_matches
    (o2m.waitQuery cfg (o2m.schemaUPPER cfg) "" common.TaskStatusSuccess 0 0)
    r
  && common.IsContainString (map common.StringUPPER tables)
       (common.StringUPPER (WaitSyncMeta.TableNameS r)).

(** [gate_cleanup cfg exporters w w']: between [w] and [w'] nothing happened
    but the clean-up that precedes the gate, for the tables [exporters] the
    table filter answered.  FullSync records and source tasks are the same.
    Either nothing was issued and the WaitSync records are the same; or the
    one statement issued is the deletion for [clearTables cfg exporters w],
    which is not empty, and the WaitSync records are the same (the deletion
    failed) or are those of [w] without the [cleared] ones.  When the table
    filter gave no answer, nothing was issued. *)
Definition gate_cleanup (cfg : Config) (exporters : result (list string))
    (w w' : World) : Prop :=
  full_sync_meta w' = full_sync_meta w
  /\ parallel_tasks w' = parallel_tasks w
  /\ match exporters with
     | Err _ => wait_sync_meta w' = wait_sync_meta w /\ trace w' = trace w
     | Ok exporters =>
         let tables := clearTables cfg exporters w in
         (wait_sync_meta w' = wait_sync_meta w /\ trace w' = trace w)
         \/ (tables <> []
             /\ trace w'
                = (trace w ++ [StDeleteWaitSuccessTables tables])%list
             /\ (wait_sync_meta w' = wait_sync_meta w
                 \/ wait_sync_meta w'
                    = meta.delete_where (cleared cfg tables)
                        (wait_sync_meta w)))
     end.

(** The error of the first stage of a chunk that fails, if any: extract,
    then translate, then apply. *)
Definition stageError (cfg : Config) (env : Env) (m : FullSyncMeta.t)
  : option error :=
  match IExtractor env m (InsertBatchSize cfg) with
  | Err err => Some err
  | Ok (columnFields, batchResults) =>
      match ITranslator env m columnFields batchResults with
      | Some err => Some err
      | None => IApplier env m columnFields batchResults
      end
  end.

(** The step a chunk worker names in the error it returns when the write
    of its record fails: the first stage that failed, or [Success] when
    none did. *)
Definition recordStage (cfg : Config) (env : Env) (m : FullSyncMeta.t)
  : string :=
  match IExtractor env m (InsertBatchSize cfg) with
  | Err _ => "IExtractor"
  | Ok (columnFields, batchResults) =>
      match ITranslator env m columnFields batchResults with
      | Some _ => "ITranslator"
      | None =>
          match IApplier env m columnFields batchResults with
          | Some _ => "IApplier"
          | None => "Success"
          end
      end
  end.

(** The error a chunk worker returns when the write of its record fails
    with [errf]. *)
Definition workerError (cfg : Config) (env : Env) (m : FullSyncMeta.t)
    (errf : error) : error :=
  "get oracle schema table [" ++ FullSyncMeta.String m ++ "] "
    ++ recordStage cfg env m ++ " failed: " ++ errf.

(** The update a chunk worker writes to its own record. *)
Definition failedPatch (m : FullSyncMeta.t) (err : error)
  : FullSyncMeta.patch :=
  FullSyncMeta.mkPatch (Some common.TaskStatusFailed)
    (Some (FullSyncMeta.String m)) (Some err).
Definition successPatch : FullSyncMeta.patch :=
  FullSyncMeta.mkPatch (Some common.TaskStatusSuccess) None None.
Definition outcomePatch (m : FullSyncMeta.t) (se : option error)
  : FullSyncMeta.patch :=
  match se with
  | Some err => failedPatch m err
  | None => successPatch
  end.

(** ** What the chunker does to the metadata store *)

(** [same_meta w w']: both metadata tables are the same in [w] and [w']. *)
Definition same_meta (w w' : World) : Prop :=
  full_sync_meta w' = full_sync_meta w
  /\ wait_sync_meta w' = wait_sync_meta w.

(** [quiet m]: [m] leaves both metadata tables as they are. *)
Definition quiet {A} (m : M A) : Prop :=
  forall w,
    post_or_crash m w (fun _ w' => same_meta w w') (fun _ w' => same_meta w w').

Definition has_table_row (t : string) (new : list FullSyncMeta.t) : Prop :=
  exists r, In r new /\ FullSyncMeta.TableNameS r = common.StringUPPER t.

(** [answers_first_row env]: the source answers the snapshot query and
    every chunk-count query with at least one row, or with an error. *)
Definition answers_first_row (env : Env) : Prop :=
  (forall w,
     Query env "select min(current_scn) CURRENT_SCN from gv$database" w
     <> Ok [])
  /\ (forall taskName w,
        Query env
          (common.StringsBuilder
             ["SELECT COUNT(1) COUNT FROM user_parallel_execute_chunks WHERE TASK_NAME='";
              taskName; "'"]) w
        <> Ok []).

(** ** Batches as groups of tuples

    The batches of the reader are strings; [groupTuples] runs the same loop
    on the tuples and keeps each batch as the list of its tuples. *)
Fixpoint groupTuples (insertBatchSize : Z) (tuples : list string)
    (rowsTMP : list string) (groups : list (list string))
  : list (list string) :=
  match tuples with
  | [] =>
      if 0 <? Z.of_nat (List.length rowsTMP) then (groups ++ [rowsTMP])%list
      else groups
  | t :: rest =>
      let rowsTMP := (rowsTMP ++ [t])%list in
      if Z.of_nat (List.length rowsTMP) =? insertBatchSize then
        groupTuples insertBatchSize rest [] (groups ++ [rowsTMP])%list
      else groupTuples insertBatchSize rest rowsTMP groups
  end.

Definition joinBatch (g : list string) : string := GoStrings.Join g ",".

(** ** Scenarios: a concrete configuration and source *)

Module Scenario.

Definition cfg (checkpoint : bool) : Config :=
  mkConfig "ORACLE" "MYSQL" "FULL" "MARVIN" "MARVIN" checkpoint 100 100000.

Definition digits (s : string) : Z :=
  match GoStrings.parse_digits 0 s with
  | Some n => n
  | None => 0
  end.

Definition countSQL (taskName : string) : string :=
  common.StringsBuilder
    ["SELECT COUNT(1) COUNT FROM user_parallel_execute_chunks WHERE TASK_NAME='";
     taskName; "'"].

Definition chunksSQL (taskName : string) : string :=
  common.StringsBuilder
    ["SELECT 'ROWID BETWEEN ''' || start_rowid || ''' AND ''' || end_rowid || '''' CMD FROM user_parallel_execute_chunks WHERE  task_name = '";
     taskName; "' ORDER BY chunk_id"].

(** A source that answers the three queries of the engine from its state:
    the snapshot SCN, the number of chunk rows of a task (0 for a task
    without chunks or an unknown one), and the chunk predicates of a
    task. *)
Definition sourceQuery (scn : string) (sql : string) (w : World)
  : result (list row) :=
  if String.eqb sql "select min(current_scn) CURRENT_SCN from gv$database"
  then Ok [[("CURRENT_SCN", scn)]]
  else if String.prefix "SELECT COUNT(1)" sql then
    match find (fun t => String.eqb (countSQL (fst t)) sql) (parallel_tasks w) with
    | Some t => Ok [[("COUNT", GoStrings.Itoa (Z.of_nat (List.length (snd t))))]]
    | None => Ok [[("COUNT", "0")]]
    end
  else
    match find (fun t => String.eqb (chunksSQL (fst t)) sql) (parallel_tasks w) with
    | Some t => Ok (map (fun c => [("CMD", c)]) (snd t))
    | None => Ok []
    end.

Definition parseUint (s : string) (bitSize : Z) : result Z :=
  match s with
  | EmptyString => Err "invalid syntax"
  | _ =>
      match GoStrings.parse_digits 0 s with
      | Some n => if n <? 2 ^ bitSize then Ok n else Err "value out of range"
      | None => Err "invalid syntax"
      end
  end.

(** The source and the stages as parameters of a scenario: the exporter
    tables, the statistics row count, the row-id chunks the source
    generates, the outcome of the apply stage and the fault schedule of
    the metadata store. *)
Definition env (exporters : list string) (statRows : Z)
    (chunks : list string)
    (applier : FullSyncMeta.t -> option error)
    (faults : nat -> option error) : Env :=
  {| RequireOracleDBVersion := "11";
     OracleTableColumnCollationDBVersion := "12";
     VersionOrdinal := digits;
     TaskTableDefaultSourceGlobalSCN := 0;
     TaskTableDefaultSplitChunkNums := 0;
     StrconvUintBitSize := parseUint;
     GetOracleDBVersion := Ok "19";
     filterCFGTable := Ok exporters;
     table_name_rules := [];
     GetOracleSchemaPartitionTable := fun _ => Ok [];
     GetOracleTableRowsByStatistics := fun _ _ => Ok statRows;
     GetOracleSchemaTableColumn :=
       fun _ _ _ => Ok [[("COLUMN_NAME", "ID"); ("DATA_TYPE", "NUMBER")]];
     Query := sourceQuery "1000";
     rowid_chunks := fun _ _ _ => Ok chunks;
     IExtractor := fun _ _ => Ok (["`ID`"], ["(1),(2)"]);
     ITranslator := fun _ _ _ => None;
     IApplier := fun m _ _ => applier m;
     TruncateMySQLTable_fault := fun _ _ => None;
     meta_fault := faults |}.

(** A source as [e] whose queries answer no row at all. *)
Definition silent (e : Env) : Env :=
  {| RequireOracleDBVersion := RequireOracleDBVersion e;
     OracleTableColumnCollationDBVersion :=
       OracleTableColumnCollationDBVersion e;
     VersionOrdinal := VersionOrdinal e;
     TaskTableDefaultSourceGlobalSCN := TaskTableDefaultSourceGlobalSCN e;
     TaskTableDefaultSplitChunkNums := TaskTableDefaultSplitChunkNums e;
     StrconvUintBitSize := StrconvUintBitSize e;
     GetOracleDBVersion := GetOracleDBVersion e;
     filterCFGTable := filterCFGTable e;
     table_name_rules := table_name_rules e;
     GetOracleSchemaPartitionTable := GetOracleSchemaPartitionTable e;
     GetOracleTableRowsByStatistics := GetOracleTableRowsByStatistics e;
     GetOracleSchemaTableColumn := GetOracleSchemaTableColumn e;
     Query := fun _ _ => Ok [];
     rowid_chunks := rowid_chunks e;
     IExtractor := IExtractor e;
     ITranslator := ITranslator e;
     IApplier := IApplier e;
     TruncateMySQLTable_fault := TruncateMySQLTable_fault e;
     meta_fault := meta_fault e |}.

Definition noFault : nat -> option error := fun _ => None.
Definition applyOk : FullSyncMeta.t -> option error := fun _ => None.

Definition emptyWorld : World := mkWorld [] [] [] [] 0.

Definition waitRow (table status : string) (scn total success failed : Z)
  : WaitSyncMeta.t :=
  WaitSyncMeta.mk "ORACLE" "MYSQL" "MARVIN" table "FULL" status scn total
    success failed "NO".

Definition chunkRow (table chunk status : string) : FullSyncMeta.t :=
  FullSyncMeta.mk "ORACLE" "MYSQL" "MARVIN" table "MARVIN" table 1000 "ID"
    chunk "FULL" status "" "" "NO".

(** A table interrupted mid-run: three chunks, the first applied in the
    prior run, two still waiting. *)
Definition resumedWorld : World :=
  mkWorld
    [waitRow "T" "RUNNING" 1000 3 0 0]
    [chunkRow "T" "ROWID BETWEEN 'a' AND 'b'" "SUCCESS";
     chunkRow "T" "ROWID BETWEEN 'c' AND 'd'" "WAITING";
     chunkRow "T" "ROWID BETWEEN 'e' AND 'f'" "WAITING"]
    [] [] 0.

(** A table interrupted mid-run after two of its three chunks had failed:
    the table record is still RUNNING, one chunk still waits. *)
Definition resumedFailedWorld : World :=
  mkWorld
    [waitRow "T" "RUNNING" 1000 3 0 0]
    [chunkRow "T" "ROWID BETWEEN 'a' AND 'b'" "FAILED";
     chunkRow "T" "ROWID BETWEEN 'c' AND 'd'" "FAILED";
     chunkRow "T" "ROWID BETWEEN 'e' AND 'f'" "WAITING"]
    [] [] 0.

(** A prior run left table A done and table B failed; the configuration
    now names B only. *)
Definition failedWorld : World :=
  mkWorld
    [waitRow "A" "SUCCESS" 1000 1 1 0; waitRow "B" "FAILED" 1000 2 1 1]
    [chunkRow "B" "ROWID BETWEEN 'a' AND 'b'" "FAILED";
     chunkRow "B" "ROWID BETWEEN 'c' AND 'd'" "SUCCESS"]
    [] [] 0.

(** A prior run left tables A and C done and table B failed; the
    configuration now names B and C. *)
Definition staleWorld : World :=
  mkWorld
    [waitRow "A" "SUCCESS" 1000 1 1 0; waitRow "B" "FAILED" 1000 2 1 1;
     waitRow "C" "SUCCESS" 1000 1 1 0]
    [chunkRow "B" "ROWID BETWEEN 'a' AND 'b'" "FAILED";
     chunkRow "B" "ROWID BETWEEN 'c' AND 'd'" "SUCCESS"]
    [] [] 0.

(** Two waiting chunks of a running table. *)
Definition chunk1 : FullSyncMeta.t :=
  chunkRow "T" "ROWID BETWEEN 'a' AND 'b'" "WAITING".
Definition chunk2 : FullSyncMeta.t :=
  chunkRow "T" "ROWID BETWEEN 'c' AND 'd'" "WAITING".
Definition twoChunkWorld : World :=
  mkWorld [waitRow "T" "RUNNING" 1000 2 0 0] [chunk1; chunk2] [] [] 0.

(** The metadata store fails its first call only. *)
Definition firstCallFails : nat -> option error :=
  fun n => if Nat.eqb n 0 then Some "Error 2006: MySQL server has gone away" else None.

(** The metadata store fails every call, the first with another error than
    the later ones. *)
Definition everyCallFails : nat -> option error :=
  fun n =>
    if Nat.eqb n 0 then Some "Error 2006: MySQL server has gone away"
    else Some "Error 2013: Lost connection to MySQL server during query".

(** The numeric helpers of the reader, for a source with integer and text
    columns only. *)
Definition noFloat (s : string) (bitSize : Z) : result Z :=
  Err "strconv.ParseFloat: invalid syntax".
Definition noDecimal (s : string) : result Z :=
  Err "can't convert to decimal".

Definition encode : string -> option string -> result string :=
  Reader.encodeValue (fun s _ => GoStrings.parse_int64 "ParseInt" s) parseUint
    noFloat (fun s => GoStrings.parse_int64 "ParseInt" s) GoStrings.Itoa
    noDecimal (fun _ => true).

Definition getRows (q : Reader.QueryResult) (insertBatchSize : Z)
  : list string * list string * option error :=
  Reader.GetOracleTableRowsData
    (fun s _ => GoStrings.parse_int64 "ParseInt" s) parseUint
    noFloat (fun s => GoStrings.parse_int64 "ParseInt" s) GoStrings.Itoa
    noDecimal (fun _ => true) q insertBatchSize.

(** Five rows of a table [(ID NUMBER-as-int64, NAME VARCHAR2)]. *)
Definition fiveRows : Reader.QueryResult :=
  {| Reader.qr_query_err := None;
     Reader.qr_columns := Ok ["ID"; "NAME"];
     Reader.qr_column_types := Ok [("int64", "NUMBER"); ("string", "VARCHAR2")];
     Reader.qr_rows :=
       [ Ok [Some "1"; Some "a"]; Ok [Some "2"; None]; Ok [Some "3"; Some ""];
         Ok [Some "4"; Some "d'e"]; Ok [Some "5"; Some "f"] ];
     Reader.qr_rows_err := None |}.

End Scenario.

(** ** Observations on the projection and the reader *)

(** [aliased name f]: the SELECT fragment [f] yields a column called
    [name]: it is the bare column or an expression ending in [AS name]. *)
Definition aliased (name f : string) : Prop :=
  f = name \/ exists expr, f = expr ++ " AS " ++ name.

(** A column the projection treats as a timestamp: its type is none of the
    cases of the [switch], and its raw type text contains TIMESTAMP and not
    INTERVAL. *)
Definition timestamp_column (rowCol : row) : bool :=
  let ty := GoStrings.ToUpper (row_get rowCol "DATA_TYPE") in
  negb (common.IsContainString Projection.plain_types ty)
  && negb (String.eqb ty "XMLTYPE")
  && negb (String.eqb ty "DATE")
  && negb (GoStrings.Contains (row_get rowCol "DATA_TYPE") "INTERVAL")
  && GoStrings.Contains (row_get rowCol "DATA_TYPE") "TIMESTAMP".

Definition scale_parses (rowCol : row) : bool :=
  match GoStrings.Atoi (row_get rowCol "DATA_SCALE") with
  | Ok _ => true
  | Err _ => false
  end.

Section CleanRead.
Variable Float : Type.
Variable Decimal : Type.
Variable StrconvIntBitSize : string -> Z -> result Z.
Variable StrconvUintBitSize : string -> Z -> result Z.
Variable StrconvFloatBitSize : string -> Z -> result Float.
Variable StrconvRune : string -> result Z.
Variable fmt_float : Float -> string.
Variable decimal_NewFromString : string -> result Decimal.
Variable decimal_IsInteger : Decimal -> bool.

(** [reads_cleanly q colTypes tuples]: the query, its column names and
    types and the closing [rows.Err()] report no error, and every row scans
    and encodes, row [k] to the tuple [k] of [tuples]. *)
Definition reads_cleanly (q : Reader.QueryResult)
    (colTypes : list (string * string)) (tuples : list string) : Prop :=
  Reader.qr_query_err q = None
  /\ (exists tmpCols, Reader.qr_columns q = Ok tmpCols)
  /\ Reader.qr_column_types q = Ok colTypes
  /\ Reader.qr_rows_err q = None
  /\ map (Reader.scannedTuple StrconvIntBitSize StrconvUintBitSize
            StrconvFloatBitSize StrconvRune fmt_float
            decimal_NewFromString decimal_IsInteger (map fst colTypes))
         (Reader.qr_rows q)
     = map Some tuples.

End CleanRead.

(** ** Observations on the orchestrator *)

(** The work a FullSync row describes: the row without its status, its
    info detail and its error detail. *)
Definition chunk_work (r : FullSyncMeta.t) : FullSyncMeta.t :=
  FullSyncMeta.apply (FullSyncMeta.mkPatch (Some "") (Some "") (Some "")) r.

(** [settles r r']: [r'] describes the same work as [r], and is [r] itself
    or a row recorded SUCCESS or FAILED. *)
Definition settles (r r' : FullSyncMeta.t) : Prop :=
  chunk_work r' = chunk_work r
  /\ (r' = r
      \/ FullSyncMeta.TaskStatus r' = common.TaskStatusSuccess
      \/ FullSyncMeta.TaskStatus r' = common.TaskStatusFailed).

(** The update that marks a table RUNNING. *)
Definition runningPatch : WaitSyncMeta.patch :=
  WaitSyncMeta.mkPatch (Some common.TaskStatusRunning)
    None None None None None.

(** The WAITING chunks of table [t] in a store. *)
Definition waiting_chunks (cfg : Config) (t : string)
    (l : list FullSyncMeta.t) : list FullSyncMeta.t :=
  filter (meta.full_matches
            (o2m.fullQuery cfg (o2m.schemaUPPER cfg) (common.StringUPPER t)
               common.TaskStatusWaiting)) l.

(** The FullSync rows of table [t] in a store, whatever their status, and
    those recorded FAILED. *)
Definition chunks_of (cfg : Config) (t : string)
    (l : list FullSyncMeta.t) : list FullSyncMeta.t :=
  filter (meta.full_matches
            (o2m.fullQuery cfg (o2m.schemaUPPER cfg) (common.StringUPPER t)
               "")) l.
Definition failed_chunks (cfg : Config) (t : string)
    (l : list FullSyncMeta.t) : list FullSyncMeta.t :=
  filter (meta.full_matches
            (o2m.fullQuery cfg (o2m.schemaUPPER cfg) (common.StringUPPER t)
               common.TaskStatusFailed)) l.

(** The WaitSync records of table [t] in a store. *)
Definition table_record (cfg : Config) (t : string) (r : WaitSyncMeta.t)
  : bool :=
  meta.wait_matches
    (o2m.waitQuery cfg (o2m.schemaUPPER cfg) (common.StringUPPER t) "" 0 0) r.

(** ** What the chunker registers *)

(** The partition flag the chunker gives table [t]: [YES] when the source
    lists the table among its partitioned tables, [NO] otherwise. *)
Definition partitionFlag (partitionTables : list string) (t : string)
  : string :=
  if common.IsContainString partitionTables (common.StringUPPER t)
  then "YES" else "NO".

(** The destination table the chunker gives table [t]: the one the
    table-name rules map it to, its own name without a rule. *)
Definition targetName (tableNameRule : list (string * string)) (t : string)
  : string :=
  match o2m.rule_lookup tableNameRule (common.StringUPPER t) with
  | Some val => val
  | None => common.StringUPPER t
  end.

(** The columns the chunker writes on the WaitSync records of a table: the
    snapshot id, the number of chunks, both counters 0 and the partition
    flag.  The status is not among them. *)
Definition stamp (scn total : Z) (isPartition : string)
  : WaitSyncMeta.patch :=
  WaitSyncMeta.mkPatch None (Some scn) (Some total) (Some 0) (Some 0)
    (Some isPartition).

(** The rows the chunker creates for table [t] with the chunks [chunks]. *)
Definition chunkRows (cfg : Config) (tableNameRule : list (string * string))
    (partitionTables : list string) (scn : Z) (t sourceColumnInfo : string)
    (chunks : list string) : list FullSyncMeta.t :=
  map (fun chunk =>
         o2m.chunkMeta cfg t (targetName tableNameRule t) scn
           sourceColumnInfo chunk (partitionFlag partitionTables t))
      chunks.

(** [of_run cfg tables r]: [r] is a WaitSync record of one of [tables]. *)
Definition of_run (cfg : Config) (tables : list string)
    (r : WaitSyncMeta.t) : bool :=
  existsb (fun t => table_record cfg t r) tables.

(** [restamped scn r r']: [r'] is [r] with the snapshot id [scn], some
    chunk total, both counters 0 and some partition flag; the key and the
    status are those of [r]. *)
Definition restamped (scn : Z) (r r' : WaitSyncMeta.t) : Prop :=
  exists total isPartition,
    r' = WaitSyncMeta.apply (stamp scn total isPartition) r.

(** [stamped_all cfg tables scn l l']: record by record, [l'] is [l] with
    every record of [tables] restamped with [scn] and every other record
    as it was. *)
Definition stamped_all (cfg : Config) (tables : list string) (scn : Z)
    (l l' : list WaitSyncMeta.t) : Prop :=
  Forall2
    (fun r r' =>
       if of_run cfg tables r then restamped scn r r' else r' = r)
    l l'.

(** [stamped_some cfg tables scn l l']: record by record, [l'] is [l] with
    some records of [tables] restamped with [scn] and every other record
    as it was. *)
Definition stamped_some (cfg : Config) (tables : list string) (scn : Z)
    (l l' : list WaitSyncMeta.t) : Prop :=
  Forall2
    (fun r r' =>
       r' = r \/ (of_run cfg tables r = true /\ restamped scn r r'))
    l l'.

(** The key of the whole-table chunk [1 = 1] of table [t]. *)
Definition wholeKey (cfg : Config) (t : string) : FullSyncMeta.t :=
  meta.full_key (o2m.chunkMeta cfg t "" 0 "" "1 = 1" "").

(** [unregistered cfg tables keys]: registering the whole-table chunk of
    each of [tables] in turn, in a store whose rows have the keys [keys],
    never meets a row with the key of the chunk to insert. *)
Fixpoint unregistered (cfg : Config) (tables : list string)
    (keys : list FullSyncMeta.t) : bool :=
  match tables with
  | [] => true
  | t :: rest =>
      negb (existsb (meta.full_matches (wholeKey cfg t)) keys)
      && unregistered cfg rest (keys ++ [wholeKey cfg t])
  end.

(** [counted_empty cfg env coll t]: the source answers for table [t] with
    columns the projection accepts and with 0 rows by statistics, the case
    in which the table is registered as the one chunk [1 = 1]. *)
Definition counted_empty (cfg : Config) (env : Env) (oracleCollation : bool)
    (t : string) : bool :=
  match Projection.adjustTableSelectColumn
          (GetOracleSchemaTableColumn env (OracleSchemaName cfg) t
             oracleCollation),
        GetOracleTableRowsByStatistics env (OracleSchemaName cfg) t with
  | Ok _, Ok rows => rows =? 0
  | _, _ => false
  end.

(** ** What a run may issue *)

(** [adds Q m]: whatever its outcome, [m] only appends statements to the
    trace, and every statement it appends satisfies [Q]. *)
Definition extends_by (Q : Stmt -> Prop) (w w' : World) : Prop :=
  exists l, trace w' = (trace w ++ l)%list /\ Forall Q l.

Definition adds {A} (Q : Stmt -> Prop) (m : M A) : Prop :=
  forall w,
    post_or_crash m w (fun _ w' => extends_by Q w w')
      (fun _ w' => extends_by Q w w').

(** The statements on the metadata store and the PL/SQL blocks on the
    source: everything but a truncation and the stages of a chunk. *)
Definition bookkeeping (s : Stmt) : bool :=
  negb (is_truncate s) && negb (is_chunk_run s).

(** What a full-load run may issue: bookkeeping; the extract and apply
    stages of chunks whose row is WAITING; and, with the checkpoint
    disabled, the truncation of a configured table in the destination
    schema. *)
Inductive allowed (cfg : Config) (env : Env) : Stmt -> Prop :=
| allowed_bookkeeping s :
    bookkeeping s = true -> allowed cfg env s
| allowed_extract m :
    FullSyncMeta.TaskStatus m = common.TaskStatusWaiting ->
    allowed cfg env (StExtract m)
| allowed_apply m :
    FullSyncMeta.TaskStatus m = common.TaskStatusWaiting ->
    allowed cfg env (StApply m)
| allowed_truncate exporters t :
    EnableCheckpoint cfg = false ->
    filterCFGTable env = Ok exporters ->
    In t exporters ->
    allowed cfg env (StTruncate (MySQLSchemaName cfg) t).

(** ** The resume check *)

(** [ends m w QR QF]: run from [w], [m] returns in a world satisfying [QR]
    with its value or fails in a world satisfying [QF]; it does not
    panic. *)
Definition ends {A} (m : M A) (w : World)
    (QR : A -> World -> Prop) (QF : World -> Prop) : Prop :=
  match m w with
  | Ret a w' => QR a w'
  | Fail _ w' => QF w'
  | Crash => False
  end.

(** Statements on the metadata store only: no truncation, no stage of a
    chunk, no PL/SQL block on the source. *)
Definition metadata_only (s : Stmt) : bool :=
  negb (is_truncate s) && negb (is_chunk_run s) && negb (is_oracle_exec s).

(** The records the lookup of unfinished tables answers with: those of the
    schema and task mode with status RUNNING. *)
Definition running_record (cfg : Config) (p : WaitSyncMeta.t) : bool :=
  meta.wait_matches
    (o2m.waitQuery cfg (o2m.schemaUPPER cfg) "" common.TaskStatusRunning 0 0)
    p.

(** The tables of the schema that have a WAITING chunk row. *)
Definition waiting_tables (cfg : Config) (fs : list FullSyncMeta.t)
  : list string :=
  meta.dedup
    (map FullSyncMeta.TableNameS
       (filter (meta.full_matches
                  (o2m.fullQuery cfg (o2m.schemaUPPER cfg) ""
                     common.TaskStatusWaiting)) fs)).

(** The test of the resume check on one RUNNING record [p]: its table has
    no WAITING chunk row, or the number of its chunk rows differs from its
    [chunk_total]. *)
Definition blocks_resume (cfg : Config) (fs : list FullSyncMeta.t)
    (p : WaitSyncMeta.t) : bool :=
  negb (common.IsContainString (waiting_tables cfg fs)
          (WaitSyncMeta.TableNameS p))
  || negb (meta.count_where
             (meta.full_matches
                (o2m.fullQuery cfg (o2m.schemaUPPER cfg)
                   (WaitSyncMeta.TableNameS p) ""))
             fs
           =? WaitSyncMeta.ChunkTotalNums p).

(** The condition under which the run refuses to resume: a RUNNING record
    fails the test, or the RUNNING records and the tables with WAITING
    chunks differ in number. *)
Definition resume_blocked (cfg : Config) (w : World) : bool :=
  negb (Nat.eqb
          (List.length
             (filter (blocks_resume cfg (full_sync_meta w))
                (filter (running_record cfg) (wait_sync_meta w))))
          0)
  || negb (Nat.eqb
             (List.length (filter (running_record cfg) (wait_sync_meta w)))
             (List.length (waiting_tables cfg (full_sync_meta w)))).

(** [kept cfg w0 w1]: from [w0] to [w1] the FullSync table and the RUNNING
    records are the same, and only statements on the metadata store were
    issued. *)
Definition kept (cfg : Config) (w0 w1 : World) : Prop :=
  full_sync_meta w1 = full_sync_meta w0
  /\ filter (running_record cfg) (wait_sync_meta w1)
     = filter (running_record cfg) (wait_sync_meta w0)
  /\ extends_by (fun s => metadata_only s = true) w0 w1.

(** ** The outcome of a table *)

(** What the chunk workers of [ms] leave in [full_sync_meta] when each of
    their writes succeeds: every chunk, in the order of the loop, writes
    its outcome on the rows of its key. *)
Definition settle (cfg : Config) (env : Env) (ms : list FullSyncMeta.t)
    (fs : list FullSyncMeta.t) : list FullSyncMeta.t :=
  fold_left
    (fun acc m =>
       meta.update_where (meta.full_matches (o2m.chunkQuery m))
         (FullSyncMeta.apply (outcomePatch m (stageError cfg env m))) acc)
    ms fs.

(** The update that closes a table task. *)
Definition finalPatch (status : string) (success failed : Z)
  : WaitSyncMeta.patch :=
  WaitSyncMeta.mkPatch (Some status) None None (Some success) (Some failed)
    None.

(** The records as the first write of a table task leaves them. *)
Definition marked_running (cfg : Config) (t : string)
    (ws : list WaitSyncMeta.t) : list WaitSyncMeta.t :=
  meta.update_where
    (meta.wait_matches
       (o2m.waitQuery cfg (OracleSchemaName cfg) (common.StringUPPER t) ""
          0 0))
    (WaitSyncMeta.apply runningPatch) ws.

(** [own_key ms m]: among the chunks [ms], the lookup of a chunk's own
    record finds the row [m] for [m] only. *)
Definition own_key (ms : list FullSyncMeta.t) (m : FullSyncMeta.t) : Prop :=
  forall m', In m' ms ->
    meta.full_matches (o2m.chunkQuery m') m = true -> m' = m.

(** An apply stage that fails on the chunk with predicate [chunk] only. *)
Definition applyFailsOn (chunk : string) : FullSyncMeta.t -> option error :=
  fun m =>
    if String.eqb (FullSyncMeta.ChunkDetailS m) chunk
    then Some "Error 1062: Duplicate entry '1' for key 'PRIMARY'"
    else None.

(** * The reverse run (package m2o): MySQL tables to Oracle DDL

    [Reverse] drives collaborators that are outside the sources (the table
    filter, the compatibility check, the rule changer, the task generator,
    the file writer and the error log); they are parameters here.  What the
    run does to the outside is kept as a trace of events: what was written
    through the writer and what was logged to [error_log_detail]. *)

Module ErrorLogDetail.
(** The fields of [meta.ErrorLogDetail] the run fills in. *)
Record t : Type := mk {
  DBTypeS : string;
  DBTypeT : string;
  SchemaNameS : string;
  TableNameS : string;
  SchemaNameT : string;
  TableNameT : string;
  TaskMode : string;
  TaskStatus : string;
  InfoDetail : string;
  ErrorDetail : string
}.
End ErrorLogDetail.

Module m2o.

(** The fields of a reverse table task the run reads. *)
Record Table : Type := mkTable {
  SourceSchemaName : string;
  SourceTableName : string;
  TargetSchemaName : string;
  TargetTableName : string
}.

(** The fields of [config.Config] the run reads. *)
Record Config : Type := mkConfig {
  DBTypeS : string;
  DBTypeT : string;
  TaskMode : string;
  MySQLSchemaName : string;
  OracleSchemaName : string;
  DirectWrite : bool
}.

Section Run.
Variable Rule : Type.
Variable DDL : Type.
Variable Compatibility : Type.
Variable CharSetMap : Type.
Variable CollationMap : Type.
Variable RuleMaps : Type.

(** What a run does to the outside, in order: the calls that answered
    nil.  [EvDDL ddl] is a call of the writer that accepted [ddl];
    what a writer that answers an error has written before is not
    recorded. *)
Inductive Event : Type :=
| EvNewWriter
| EvCreateSchema (sourceSchema targetSchema : string) (directWrite : bool)
| EvCompatibilityTable (sourceSchema : string)
    (errCompatibility : Compatibility) (viewTables : list string)
| EvErrorLog (r : ErrorLogDetail.t)
| EvDDL (ddl : DDL)
| EvClose.

(** The collaborators.  The error log answers by what has happened so far:
    [CountsErrorLogBySchema] and [CreateErrorLog] take the trace. *)
Record Env : Type := mkEnv {
  filterCFGTable : result (list string * list string);
  CountsErrorLogBySchema : list Event -> ErrorLogDetail.t -> Z * option error;
  CreateErrorLog : list Event -> ErrorLogDetail.t -> option error;
  GetOracleDBVersion : result string;
  VersionOrdinal : string -> Z;
  OracleTableColumnCollationDBVersion : string;
  GetOracleExtendedMode : result bool;
  PreCheckCompatibility :
    list string -> string -> bool ->
    result (list string * Compatibility * CharSetMap * CollationMap);
  IChanger : string -> string -> list string -> result RuleMaps;
  GenReverseTableTask :
    RuleMaps -> list string -> string -> bool -> CharSetMap -> CollationMap ->
    result (list Table);
  NewWriter : option error;
  GenCreateSchema : string -> string -> bool -> option error;
  GenCompatibilityTable :
    string -> Compatibility -> list string -> option error;
  IReader : Table -> result Rule;
  IReverse : Rule -> result DDL;
  IWriter : DDL -> option error;
  Close : option error;
  Table_String : Table -> string
}.

(** A step of the run: from the trace so far to a value or an error, and
    the trace after it. *)
Definition Run (A : Type) : Type := list Event -> result A * list Event.

Definition rret {A} (a : A) : Run A := fun tr => (Ok a, tr).
Definition rfail {A} (e : error) : Run A := fun tr => (Err e, tr).
Definition rbind {A B} (m : Run A) (k : A -> Run B) : Run B :=
  fun tr =>
    match m tr with
    | (Ok a, tr') => k a tr'
    | (Err e, tr') => (Err e, tr')
    end.
Definition rlift {A} (r : result A) : Run A :=
  match r with
  | Ok a => rret a
  | Err e => rfail e
  end.

(** A call with an effect: on success the event is appended. *)
Definition effect (ev : Event) (outcome : option error) : Run unit :=
  fun tr =>
    match outcome with
    | Some e => (Err e, tr)
    | None => (Ok tt, (tr ++ [ev])%list)
    end.

(** [errgroup.Group{}] with [SetLimit]: every task runs, [Wait] reports
    the first error returned.  The tasks are run one after the other in
    the order of the loop: the schedule the group has with a limit of 1,
    and one of those it has with a larger limit, where the calls of the
    tasks can interleave in another order. *)
Fixpoint group_run (tasks : list (Run unit)) (first : option error)
  : Run unit :=
  fun tr =>
    match tasks with
    | [] =>
        match first with
        | None => (Ok tt, tr)
        | Some e => (Err e, tr)
        end
    | t :: rest =>
        match t tr with
        | (Ok _, tr') => group_run rest first tr'
        | (Err e, tr') =>
            group_run rest
              (match first with None => Some e | Some _ => first end) tr'
        end
    end.

Variable cfg : Config.
Variable env : Env.

(** The lookup of the gate and of the final count. *)
Definition errorLogQuery : ErrorLogDetail.t :=
  ErrorLogDetail.mk (DBTypeS cfg) (DBTypeT cfg)
    (common.StringUPPER (MySQLSchemaName cfg)) "" "" "" (TaskMode cfg)
    "" "" "".

Definition gateError (err : option error) : error :=
  "reverse schema [" ++ MySQLSchemaName cfg ++ "] table mode ["
    ++ TaskMode cfg ++ "] task failed: " ++ fmt_err err
    ++ ", table [error_log_detail] exist failed error, please clear and rerunning".

(** The record written for a table that failed a stage; the literal is
    the same at the three places of the source. *)
Definition errorLog (t : Table) (err : error) : ErrorLogDetail.t :=
  ErrorLogDetail.mk (DBTypeS cfg) (DBTypeT cfg)
    (SourceSchemaName t) (SourceTableName t)
    (TargetSchemaName t) (TargetTableName t)
    (TaskMode cfg) "Failed" (Table_String env t) err.

(** The [CreateErrorLog ... ; err != nil] block of a stage. *)
Definition logFailure (stage : string) (t : Table) (err : error)
  : Run unit :=
  fun tr =>
    match CreateErrorLog env tr (errorLog t err) with
    | Some e =>
        (Err (stage
                ++ " table task failed, detail see [error_log_detail], please rerunning, error: "
                ++ e), tr)
    | None => (Ok tt, (tr ++ [EvErrorLog (errorLog t err)])%list)
    end.

(** The function given to [g.Go]: one table. *)
Definition reverseTable (t : Table) : Run unit :=
  match IReader env t with
  | Err err => logFailure "reader" t err
  | Ok rule =>
      match IReverse env rule with
      | Err err => logFailure "reverse" t err
      | Ok ddl =>
          match IWriter env ddl with
          | Some err => logFailure "writer" t err
          | None => fun tr => (Ok tt, (tr ++ [EvDDL ddl])%list)
          end
      end
  end.

Definition Reverse : Run unit :=
  rbind (rlift (filterCFGTable env)) (fun tabs =>
  let exporters := fst tabs in
  let viewTables := snd tabs in
  if Nat.eqb (List.length exporters + List.length viewTables) 0 then rret tt
  else
    fun tr0 =>
    let (errTotals, err) := CountsErrorLogBySchema env tr0 errorLogQuery in
    if (0 <? errTotals)
       || match err with Some _ => true | None => false end
    then (Err (gateError err), tr0)
    else
      rbind
        (match GetOracleDBVersion env with
         | Err err => rfail ("get oracle db version falied: " ++ err)
         | Ok v => rret v
         end) (fun oracleDBVersion =>
      rbind
        (if VersionOrdinal env (OracleTableColumnCollationDBVersion env)
              <=? VersionOrdinal env oracleDBVersion
         then
           match GetOracleExtendedMode env with
           | Err err =>
               rfail ("get oracle version [" ++ oracleDBVersion
                        ++ "] extended mode failed: " ++ err)
           | Ok b => rret b
           end
         else rret false) (fun isExtended =>
      rbind (rlift (PreCheckCompatibility env exporters oracleDBVersion
                      isExtended)) (fun pre =>
      let reverseTaskTables := fst (fst (fst pre)) in
      let errCompatibility := snd (fst (fst pre)) in
      let tableCharSetMap := snd (fst pre) in
      let tableCollationMap := snd pre in
      rbind (rlift (IChanger env
                      (common.StringUPPER (MySQLSchemaName cfg))
                      (common.StringUPPER (OracleSchemaName cfg))
                      reverseTaskTables)) (fun rules =>
      rbind (rlift (GenReverseTableTask env rules reverseTaskTables
                      oracleDBVersion isExtended tableCharSetMap
                      tableCollationMap)) (fun tables =>
      rbind (effect EvNewWriter (NewWriter env)) (fun _ =>
      rbind (effect
               (EvCreateSchema (common.StringUPPER (MySQLSchemaName cfg))
                  (common.StringUPPER (OracleSchemaName cfg))
                  (DirectWrite cfg))
               (GenCreateSchema env
                  (common.StringUPPER (MySQLSchemaName cfg))
                  (common.StringUPPER (OracleSchemaName cfg))
                  (DirectWrite cfg))) (fun _ =>
      rbind (effect
               (EvCompatibilityTable
                  (common.StringUPPER (MySQLSchemaName cfg))
                  errCompatibility viewTables)
               (GenCompatibilityTable env
                  (common.StringUPPER (MySQLSchemaName cfg))
                  errCompatibility viewTables)) (fun _ =>
      rbind (group_run (map reverseTable tables) None) (fun _ =>
      rbind (effect EvClose (Close env)) (fun _ =>
      fun tr1 =>
        match snd (CountsErrorLogBySchema env tr1 errorLogQuery) with
        | Some err => (Err err, tr1)
        | None => (Ok tt, tr1)
        end)))))))))) tr0).

(** ** Observations on the reverse run *)

(** The DDL a table yields, or the error of its first failing stage:
    reader, then reverse, then writer. *)
Definition stageOutcome (t : Table) : result DDL :=
  match IReader env t with
  | Err err => Err err
  | Ok rule =>
      match IReverse env rule with
      | Err err => Err err
      | Ok ddl =>
          match IWriter env ddl with
          | Some err => Err err
          | None => Ok ddl
          end
      end
  end.

(** The event a table leaves when its failure, if any, is logged. *)
Definition tableEvent (t : Table) : Event :=
  match stageOutcome t with
  | Ok ddl => EvDDL ddl
  | Err err => EvErrorLog (errorLog t err)
  end.

(** The DDL written for the tables that pass every stage. *)
Definition writtenDDL (tables : list Table) : list Event :=
  flat_map
    (fun t =>
       match stageOutcome t with
       | Ok ddl => [EvDDL ddl]
       | Err _ => []
       end) tables.

(** [prepared tr viewTables errCompatibility tables]: from the trace [tr]
    the run passes the gate, and every step before the table group
    succeeds; the group is given [tables]. *)
Definition prepared (tr : list Event) (viewTables : list string)
    (errCompatibility : Compatibility) (tables : list Table) : Prop :=
  exists exporters errTotals oracleDBVersion isExtended reverseTaskTables
         tableCharSetMap tableCollationMap rules,
    filterCFGTable env = Ok (exporters, viewTables)
    /\ (List.length exporters + List.length viewTables)%nat <> 0%nat
    /\ CountsErrorLogBySchema env tr errorLogQuery = (errTotals, None)
    /\ errTotals <= 0
    /\ GetOracleDBVersion env = Ok oracleDBVersion
    /\ (if VersionOrdinal env (OracleTableColumnCollationDBVersion env)
             <=? VersionOrdinal env oracleDBVersion
        then GetOracleExtendedMode env = Ok isExtended
        else isExtended = false)
    /\ PreCheckCompatibility env exporters oracleDBVersion isExtended
       = Ok (reverseTaskTables, errCompatibility, tableCharSetMap,
             tableCollationMap)
    /\ IChanger env (common.StringUPPER (MySQLSchemaName cfg))
         (common.StringUPPER (OracleSchemaName cfg)) reverseTaskTables
       = Ok rules
    /\ GenReverseTableTask env rules reverseTaskTables oracleDBVersion
         isExtended tableCharSetMap tableCollationMap
       = Ok tables
    /\ NewWriter env = None
    /\ GenCreateSchema env (common.StringUPPER (MySQLSchemaName cfg))
         (common.StringUPPER (OracleSchemaName cfg)) (DirectWrite cfg)
       = None
    /\ GenCompatibilityTable env (common.StringUPPER (MySQLSchemaName cfg))
         errCompatibility viewTables
       = None.

(** What the steps before the table group write. *)
Definition preamble (viewTables : list string)
    (errCompatibility : Compatibility) : list Event :=
  [ EvNewWriter;
    EvCreateSchema (common.StringUPPER (MySQLSchemaName cfg))
      (common.StringUPPER (OracleSchemaName cfg)) (DirectWrite cfg);
    EvCompatibilityTable (common.StringUPPER (MySQLSchemaName cfg))
      errCompatibility viewTables ].

End Run.

(** A scenario: tables [a], [b] and [c]; the reader fails on [b]. *)
Definition table (name : string) : Table :=
  mkTable "MARVIN" name "MARVIN" name.

Definition scenarioCfg : Config :=
  mkConfig "MYSQL" "ORACLE" "REVERSE" "marvin" "marvin" false.

Definition scenarioEnv (errTotals : Z)
    (createErrorLog : option error)
  : Env string string (list string) unit unit unit :=
  {| filterCFGTable := Ok (["a"; "b"; "c"], []);
     CountsErrorLogBySchema := fun _ _ => (errTotals, None);
     CreateErrorLog := fun _ _ => createErrorLog;
     GetOracleDBVersion := Ok "11";
     VersionOrdinal := fun v => if String.eqb v "11" then 11 else 12;
     OracleTableColumnCollationDBVersion := "12.2";
     GetOracleExtendedMode := Ok true;
     PreCheckCompatibility := fun exporters _ _ => Ok (exporters, [], tt, tt);
     IChanger := fun _ _ _ => Ok tt;
     GenReverseTableTask := fun _ tables _ _ _ _ => Ok (map table tables);
     NewWriter := None;
     GenCreateSchema := fun _ _ _ => None;
     GenCompatibilityTable := fun _ _ _ => None;
     IReader :=
       fun t =>
         if String.eqb (SourceTableName t) "b"
         then Err "unsupported column type"
         else Ok (SourceTableName t);
     IReverse := fun rule => Ok ("CREATE TABLE " ++ rule);
     IWriter := fun _ => None;
     Close := None;
     Table_String := fun t => SourceTableName t |}.

End m2o.

(** * Theorems *)

(** ** The monad: panics *)

Create HintDb safe_db.

Lemma safe_ret {A} (a : A) : safe (ret a).
Proof. intros w. reflexivity. Qed.

Lemma safe_fail {A} (e : error) : safe (@fail A e).
Proof. intros w. reflexivity. Qed.

Lemma safe_bind {A B} (m : M A) (k : A -> M B) :
  safe m -> (forall a, safe (k a)) -> safe (bind m k).
Proof.
  intros Hm Hk w. unfold bind.
  specialize (Hm w). destruct (m w) as [a w'|e w'|]; try discriminate.
  - apply Hk.
  - reflexivity.
Qed.

Lemma safe_attempt {A} (m : M A) : safe m -> safe (attempt m).
Proof.
  intros Hm w. unfold attempt.
  specialize (Hm w). destruct (m w); try discriminate; reflexivity.
Qed.

Lemma safe_lift {A} (r : result A) : safe (lift r).
Proof. destruct r; intros w; reflexivity. Qed.

Lemma safe_modify (f : World -> World) : safe (modify f).
Proof. intros w. reflexivity. Qed.

Lemma safe_if {A} (b : bool) (m1 m2 : M A) :
  safe m1 -> safe m2 -> safe (if b then m1 else m2).
Proof. destruct b; auto. Qed.

Lemma safe_result_match {A B} (r : result A) (f : A -> M B) (g : error -> M B) :
  (forall a, safe (f a)) -> (forall e, safe (g e)) ->
  safe (match r with Ok a => f a | Err e => g e end).
Proof. destruct r; auto. Qed.

Lemma safe_call {A} env (issued : list Stmt)
    (body : World -> result (A * World)) : safe (meta.call env issued body).
Proof.
  intros w. unfold meta.call.
  destruct (meta_fault env (meta_calls w)); [reflexivity |].
  destruct (body _) as [[a w2]|e]; reflexivity.
Qed.

Lemma safe_ExecContext sql effect : safe (oracle.ExecContext sql effect).
Proof.
  intros w. unfold oracle.ExecContext.
  destruct (effect _); reflexivity.
Qed.

Lemma safe_forM {A} (l : list A) (f : A -> M unit) :
  (forall x, safe (f x)) -> safe (forM_ l f).
Proof.
  intros Hf. induction l as [|x l IH]; simpl.
  - apply safe_ret.
  - apply safe_bind; auto.
Qed.

Lemma safe_errgroup_run (tasks : list (M unit)) :
  Forall safe tasks -> forall first, safe (errgroup_run tasks first).
Proof.
  induction 1 as [|t tasks Ht _ IH]; intros first w; simpl.
  - destruct first; reflexivity.
  - specialize (Ht w). destruct (t w); try discriminate; apply IH.
Qed.

Lemma safe_errgroup (tasks : list (M unit)) :
  Forall safe tasks -> safe (errgroup tasks).
Proof. intros H. apply safe_errgroup_run; assumption. Qed.

#[export] Hint Resolve safe_ret safe_fail safe_attempt safe_lift safe_modify
  safe_call safe_ExecContext : safe_db.

Lemma safe_CloseOracleChunkTask taskName :
  safe (oracle.CloseOracleChunkTask taskName).
Proof.
  unfold oracle.CloseOracleChunkTask.
  apply safe_bind; [auto with safe_db |].
  intros r. apply safe_result_match; auto with safe_db.
Qed.

(** ** The SELECT projection *)

(** The TIMESTAMP branch, as the code decides it: a scale of 0 gives the
    second-precision format, a negative scale the [.ff] format with the
    scale text, and every positive scale the [.ff6] format. *)
Lemma timestamp_fragment_by_scale (rowCol : row) (dataScale : Z) :
  let name := row_get rowCol "COLUMN_NAME" in
  let ty := GoStrings.ToUpper (row_get rowCol "DATA_TYPE") in
  common.IsContainString Projection.plain_types ty = false ->
  String.eqb ty "XMLTYPE" = false ->
  String.eqb ty "DATE" = false ->
  GoStrings.Contains (row_get rowCol "DATA_TYPE") "INTERVAL" = false ->
  GoStrings.Contains (row_get rowCol "DATA_TYPE") "TIMESTAMP" = true ->
  GoStrings.Atoi (row_get rowCol "DATA_SCALE") = Ok dataScale ->
  Projection.columnFragment rowCol
  = Ok (if dataScale =? 0 then
          common.StringsBuilder
            ["TO_CHAR("; name; ",'yyyy-mm-dd hh24:mi:ss') AS "; name]
        else if dataScale <? 0 then
          common.StringsBuilder
            ["TO_CHAR("; name; ",'yyyy-mm-dd hh24:mi:ss.ff";
             row_get rowCol "DATA_SCALE"; "') AS "; name]
        else
          common.StringsBuilder
            ["TO_CHAR("; name; ",'yyyy-mm-dd hh24:mi:ss.ff6') AS "; name]).
Proof.
  intros name ty Hplain Hxml Hdate Hint Hts Hscale.
  unfold Projection.columnFragment. fold name. fold ty.
  rewrite Hplain, Hxml, Hdate, Hint, Hts, Hscale.
  destruct (dataScale =? 0); [reflexivity |].
  destruct (Z.ltb_spec dataScale 0) as [Hneg | Hpos].
  - destruct (Z.leb_spec dataScale 6); [reflexivity | lia].
  - reflexivity.
Qed.

(** Every scale from 1 to 6 is projected with [.ff6]. *)
Lemma timestamp_scale_1_to_6_uses_ff6 (rowCol : row) (dataScale : Z) :
  let name := row_get rowCol "COLUMN_NAME" in
  let ty := GoStrings.ToUpper (row_get rowCol "DATA_TYPE") in
  common.IsContainString Projection.plain_types ty = false ->
  String.eqb ty "XMLTYPE" = false ->
  String.eqb ty "DATE" = false ->
  GoStrings.Contains (row_get rowCol "DATA_TYPE") "INTERVAL" = false ->
  GoStrings.Contains (row_get rowCol "DATA_TYPE") "TIMESTAMP" = true ->
  GoStrings.Atoi (row_get rowCol "DATA_SCALE") = Ok dataScale ->
  1 <= dataScale <= 6 ->
  Projection.columnFragment rowCol
  = Ok (common.StringsBuilder
          ["TO_CHAR("; name; ",'yyyy-mm-dd hh24:mi:ss.ff6') AS "; name]).
Proof.
  intros name ty Hplain Hxml Hdate Hint Hts Hscale Hrange.
  rewrite (timestamp_fragment_by_scale rowCol Hplain Hxml Hdate Hint Hts Hscale).
  fold name.
  destruct (Z.eqb_spec dataScale 0); [lia |].
  destruct (Z.ltb_spec dataScale 0); [lia | reflexivity].
Qed.

(** C5 (the code departs from the claim).  A TIMESTAMP(3) column [ts] should
    project to the [.ff3] format; the guard of the middle branch reads
    [dataScale < 0 && dataScale <= 6], so every positive scale falls through
    to the last branch and the column is projected with [.ff6]. *)
Theorem timestamp_scale3_projects_ff6 :
  Projection.adjustTableSelectColumn (Ok [Projection.ts_timestamp3])
    = Ok "TO_CHAR(ts,'yyyy-mm-dd hh24:mi:ss.ff6') AS ts"
  /\ Projection.adjustTableSelectColumn (Ok [Projection.ts_timestamp3])
    <> Ok "TO_CHAR(ts,'yyyy-mm-dd hh24:mi:ss.ff3') AS ts".
Proof.
  split.
  - reflexivity.
  - vm_compute. discriminate.
Qed.

(** ** Table completion *)

(** C1 (the code departs from the claim).  On completion of a table the
    SUCCESS branch should record [chunk_success = chunk_total] and the
    FAILED branch [chunk_success = chunk_total - chunk_failed].  The code
    uses the number of WAITING chunks it loaded in this run in place of the
    table's total.  A resumed table of three chunks, one applied in the
    prior run, ends SUCCESS with [chunk_success = 2]; a resumed table of
    three chunks, two failed in the prior run and the third applied now,
    ends FAILED with [chunk_failed = 2] and [chunk_success = -1]. *)
Theorem resumed_table_counts_only_this_run :
  (exists w',
     o2m.Full (Scenario.cfg true)
       (Scenario.env ["T"] 5 [] Scenario.applyOk Scenario.noFault)
       Scenario.resumedWorld = Ret tt w'
     /\ full_sync_meta w' = []
     /\ wait_sync_meta w' = [Scenario.waitRow "T" "SUCCESS" 1000 3 2 0])
  /\
  (exists w',
     o2m.Full (Scenario.cfg true)
       (Scenario.env ["T"] 5 [] Scenario.applyOk Scenario.noFault)
       Scenario.resumedFailedWorld = Ret tt w'
     /\ map FullSyncMeta.TaskStatus (full_sync_meta w')
        = ["FAILED"; "FAILED"; "SUCCESS"]
     /\ wait_sync_meta w' = [Scenario.waitRow "T" "FAILED" 1000 3 (-1) 2]).
Proof.
  split; eexists; (split; [vm_compute; reflexivity | split; reflexivity]).
Qed.

(** ** Checkpoint-off wipe *)

(** C4 (the code departs from the claim).  With [enable_checkpoint = false]
    the record re-inserted for an exporter should be WAITING.  The composite
    literal of the checkpoint-off block names no [TaskStatus], so the record
    is stored with the empty status; the lookup of WAITING tables that
    follows finds nothing, and the run returns without chunking or applying
    table [T].  The same run with the checkpoint enabled inserts the WAITING
    record and migrates the table. *)
Theorem checkpoint_off_reinserts_empty_status :
  (exists w',
     o2m.Full (Scenario.cfg false)
       (Scenario.env ["T"] 5 ["ROWID BETWEEN 'a' AND 'b'"]
          Scenario.applyOk Scenario.noFault)
       Scenario.emptyWorld = Ret tt w'
     /\ wait_sync_meta w'
        = [WaitSyncMeta.mk "ORACLE" "MYSQL" "MARVIN" "T" "FULL" "" 0 0 0 0 ""]
     /\ filter is_truncate (trace w') = [StTruncate "MARVIN" "T"]
     /\ filter is_chunk_run (trace w') = []
     /\ full_sync_meta w' = [])
  /\
  (exists w',
     o2m.Full (Scenario.cfg true)
       (Scenario.env ["T"] 5 ["ROWID BETWEEN 'a' AND 'b'"]
          Scenario.applyOk Scenario.noFault)
       Scenario.emptyWorld = Ret tt w'
     /\ wait_sync_meta w' = [Scenario.waitRow "T" "SUCCESS" 1000 1 1 0]
     /\ List.length (filter is_chunk_run (trace w')) = 2%nat).
Proof.
  split; eexists; (split; [vm_compute; reflexivity | repeat split; reflexivity]).
Qed.

(** ** Row-id chunk tasks *)

(** C8 (the code departs from the claim).  The chunk task should be dropped
    on every successful chunking run.  When the generated chunk list is
    empty the worker registers the single chunk [1 = 1] and returns before
    [CloseOracleChunkTask]: the run succeeds and the task stays on the
    source.  Such a task has no chunk rows, so the existence check of
    [StartOracleChunkCreateTask] (a count of chunk rows) reads 0, nothing is
    dropped, and creating the task again fails.  With a non-empty chunk list
    the task is dropped. *)
Theorem empty_chunk_list_leaves_task_behind :
  (exists w',
     o2m.Full (Scenario.cfg true)
       (Scenario.env ["T"] 5 [] Scenario.applyOk Scenario.noFault)
       Scenario.emptyWorld = Ret tt w'
     /\ wait_sync_meta w' = [Scenario.waitRow "T" "SUCCESS" 1000 1 1 0]
     /\ parallel_tasks w' = [("MARVIN_T_TASK0", [])]
     /\ exists e w'',
          oracle.StartOracleChunkCreateTask
            (Scenario.env ["T"] 5 [] Scenario.applyOk Scenario.noFault)
            "MARVIN_T_TASK0" w' = Fail e w''
          /\ List.length (filter is_oracle_exec (trace w''))
             = S (List.length (filter is_oracle_exec (trace w'))))
  /\
  (exists w',
     o2m.Full (Scenario.cfg true)
       (Scenario.env ["T"] 5 ["ROWID BETWEEN 'a' AND 'b'"]
          Scenario.applyOk Scenario.noFault)
       Scenario.emptyWorld = Ret tt w'
     /\ parallel_tasks w' = []).
Proof.
  split.
  - eexists. split; [vm_compute; reflexivity |].
    split; [reflexivity |]. split; [reflexivity |].
    eexists. eexists. split; [vm_compute; reflexivity | reflexivity].
  - eexists. split; [vm_compute; reflexivity | reflexivity].
Qed.

(** ** Snapshot SCN and task creation: the first row of a result *)

(** C9.  [GetOracleCurrentSnapshotSCN] and [StartOracleChunkCreateTask] read
    [res[0]] unchecked.  Each of them panics exactly when its query answers
    with no row and no error; with at least one row neither panics, and a
    query error is returned as the error value. *)
Theorem first_row_is_read_unchecked :
  forall (env : Env) (taskName : string) (w : World),
    let scnSQL := "select min(current_scn) CURRENT_SCN from gv$database" in
    let countSQL := common.StringsBuilder
      ["SELECT COUNT(1) COUNT FROM user_parallel_execute_chunks WHERE TASK_NAME='";
       taskName; "'"] in
    (is_crash (oracle.GetOracleCurrentSnapshotSCN env w) = true
       <-> Query env scnSQL w = Ok [])
    /\ (forall e, Query env scnSQL w = Err e ->
          oracle.GetOracleCurrentSnapshotSCN env w = Fail e w)
    /\ (is_crash (oracle.StartOracleChunkCreateTask env taskName w) = true
          <-> Query env countSQL w = Ok [])
    /\ (forall e, Query env countSQL w = Err e ->
          oracle.StartOracleChunkCreateTask env taskName w = Fail e w).
Proof.
  intros env taskName w scnSQL countSQL.
  repeat split.
  - unfold oracle.GetOracleCurrentSnapshotSCN, bind, oracle.RunQuery.
    fold scnSQL.
    destruct (Query env scnSQL w) as [[|r0 rs]|e]; cbn; try discriminate.
    + reflexivity.
    + destruct (StrconvUintBitSize env (row_get r0 "CURRENT_SCN") 64);
        cbn; discriminate.
  - intros H.
    unfold oracle.GetOracleCurrentSnapshotSCN, bind, oracle.RunQuery.
    fold scnSQL. rewrite H. reflexivity.
  - intros e H.
    unfold oracle.GetOracleCurrentSnapshotSCN, bind, oracle.RunQuery.
    fold scnSQL. rewrite H. reflexivity.
  - unfold oracle.StartOracleChunkCreateTask. unfold bind at 1.
    unfold oracle.RunQuery. fold countSQL.
    destruct (Query env countSQL w) as [[|r0 rs]|e]; try (cbn; discriminate).
    + reflexivity.
    + intros H. exfalso. revert H. cbv beta iota.
      match goal with
      | |- is_crash (?m ?x) = true -> False =>
          assert (Hs : safe m); [| rewrite (Hs x); discriminate]
      end.
      apply safe_bind.
      * apply safe_if; [apply safe_CloseOracleChunkTask | apply safe_ret].
      * intros _. apply safe_bind; [auto with safe_db |].
        intros r. apply safe_result_match; auto with safe_db.
  - intros H.
    unfold oracle.StartOracleChunkCreateTask, bind, oracle.RunQuery.
    fold countSQL. rewrite H. reflexivity.
  - intros e H.
    unfold oracle.StartOracleChunkCreateTask, bind, oracle.RunQuery.
    fold countSQL. rewrite H. reflexivity.
Qed.

(** ** The value codec *)

Lemma Itoa_first_char (z : Z) :
  exists c r, GoStrings.Itoa z = String c r
              /\ (c = "-"%char \/ GoStrings.is_digit c = true).
Proof.
  unfold GoStrings.Itoa.
  destruct (Z.to_int z) as [d|d]; simpl.
  - destruct d; simpl; eexists; eexists; (split; [reflexivity |]);
      right; reflexivity.
  - eexists; eexists; split; [reflexivity | left; reflexivity].
Qed.

Lemma Itoa_not_NULL (z : Z) : GoStrings.Itoa z <> "NULL".
Proof.
  destruct (Itoa_first_char z) as (c & r & -> & [-> | Hc]).
  - discriminate.
  - intros H. injection H as -> _. discriminate.
Qed.

Lemma escape_char_nonempty (c : ascii) : Reader.escape_char c <> "".
Proof.
  unfold Reader.escape_char.
  repeat match goal with
         | |- context [if ?b then _ else _] => destruct b
         end; discriminate.
Qed.

Lemma numeric_scan_type_false (ct : string) :
  common.IsContainString Reader.numeric_scan_types ct = false ->
  String.eqb ct "int64" = false /\ String.eqb ct "uint64" = false
  /\ String.eqb ct "float32" = false /\ String.eqb ct "float64" = false
  /\ String.eqb ct "rune" = false /\ String.eqb ct "godror.Number" = false.
Proof.
  unfold common.IsContainString, Reader.numeric_scan_types. simpl existsb.
  intros H.
  repeat (apply orb_false_elim in H; destruct H as [? H]).
  repeat split; assumption.
Qed.

Section CodecFacts.
Variable Float : Type.
Variable Decimal : Type.
Variable StrconvIntBitSize : string -> Z -> result Z.
Variable StrconvUintBitSize : string -> Z -> result Z.
Variable StrconvFloatBitSize : string -> Z -> result Float.
Variable StrconvRune : string -> result Z.
Variable fmt_float : Float -> string.
Variable decimal_NewFromString : string -> result Decimal.
Variable decimal_IsInteger : Decimal -> bool.

Local Abbreviation enc :=
  (Reader.encodeValue StrconvIntBitSize StrconvUintBitSize
             StrconvFloatBitSize StrconvRune fmt_float
             decimal_NewFromString decimal_IsInteger).
Local Abbreviation encNE :=
  (Reader.encodeNonEmpty StrconvIntBitSize StrconvUintBitSize
               StrconvFloatBitSize StrconvRune fmt_float
               decimal_NewFromString decimal_IsInteger).

(** A raw value that is neither nil nor empty is never rendered as NULL,
    as long as the float rendering never reads NULL. *)
Lemma encodeNonEmpty_not_NULL (columnType s : string) :
  (forall f, fmt_float f <> "NULL") -> encNE columnType s <> Ok "NULL".
Proof.
  intros Hf. unfold encNE, Reader.encodeNonEmpty.
  repeat match goal with
         | |- context [if ?b then _ else _] => destruct b
         | |- context [match ?r with Ok _ => _ | Err _ => _ end] => destruct r
         end;
    try discriminate;
    intros H; injection H as H;
    solve [ eapply Itoa_not_NULL; eassumption
          | eapply Hf; eassumption
          | discriminate ].
Qed.

Lemma encodeValue_text (columnType s : string) :
  s <> "" ->
  common.IsContainString Reader.numeric_scan_types columnType = false ->
  enc columnType (Some s)
  = Ok ("'" ++ Reader.SpecialLettersUsingMySQL s ++ "'").
Proof.
  intros Hs Hct. unfold enc, Reader.encodeValue.
  destruct (String.eqb_spec s ""); [contradiction |].
  apply numeric_scan_type_false in Hct.
  destruct Hct as (H1 & H2 & H3 & H4 & H5 & H6).
  unfold Reader.encodeNonEmpty.
  rewrite H1, H2, H3, H4, H5, H6. reflexivity.
Qed.

End CodecFacts.

(** C7.  The codec emits the literal NULL for a raw value that is nil or
    empty, whatever the column; a raw value that is neither is never
    rendered as NULL (the float rendering of the driver's values never
    reads NULL); on a column whose scan type is not numeric such a value is
    emitted as its escaped text between single quotes; so the empty string
    is emitted as NULL and never as the empty quoted literal. *)
Theorem null_literal_iff_nil_or_empty :
  forall (Float Decimal : Type)
         (StrconvIntBitSize StrconvUintBitSize : string -> Z -> result Z)
         (StrconvFloatBitSize : string -> Z -> result Float)
         (StrconvRune : string -> result Z)
         (fmt_float : Float -> string)
         (decimal_NewFromString : string -> result Decimal)
         (decimal_IsInteger : Decimal -> bool),
    (forall f, fmt_float f <> "NULL") ->
    forall (columnType : string) (raw : option string),
      let enc := Reader.encodeValue StrconvIntBitSize StrconvUintBitSize
                   StrconvFloatBitSize StrconvRune fmt_float
                   decimal_NewFromString decimal_IsInteger in
      (raw = None \/ raw = Some "" -> enc columnType raw = Ok "NULL")
      /\ (forall out, enc columnType raw = Ok out ->
            (out = "NULL" <-> raw = None \/ raw = Some ""))
      /\ (forall s, raw = Some s -> s <> "" ->
            common.IsContainString Reader.numeric_scan_types columnType = false ->
            enc columnType raw
            = Ok ("'" ++ Reader.SpecialLettersUsingMySQL s ++ "'"))
      /\ enc columnType (Some "") = Ok "NULL"
      /\ enc columnType (Some "") <> Ok "''".
Proof.
  intros Float Decimal SI SU SF SR fmt_float DN DI Hf columnType raw enc.
  repeat split.
  - intros [-> | ->]; reflexivity.
  - intros ->. destruct raw as [s|]; [| left; reflexivity].
    right. destruct (String.eqb_spec s "") as [-> | Hne]; [reflexivity |].
    exfalso. revert H. unfold enc, Reader.encodeValue.
    destruct (String.eqb_spec s ""); [contradiction |].
    apply encodeNonEmpty_not_NULL. exact Hf.
  - intros [-> | ->]; unfold enc in H; simpl in H; congruence.
  - intros s -> Hs Hct. apply encodeValue_text; assumption.
  - discriminate.
Qed.

(** The theorem at the text column of the scenario, for a value with a
    quote in it. *)
Lemma null_literal_iff_nil_or_empty_witness :
  (forall f : Z, GoStrings.Itoa f <> "NULL")
  /\ Scenario.encode "string" (Some "d'e") = Ok "'d\'e'"
  /\ Scenario.encode "string" (Some "") = Ok "NULL"
  /\ Scenario.encode "string" None = Ok "NULL".
Proof.
  pose proof (@null_literal_iff_nil_or_empty Z Z
                (fun s _ => GoStrings.parse_int64 "ParseInt" s)
                Scenario.parseUint Scenario.noFloat
                (fun s => GoStrings.parse_int64 "ParseInt" s) GoStrings.Itoa
                Scenario.noDecimal (fun _ => true) Itoa_not_NULL) as T.
  split; [exact Itoa_not_NULL |].
  split.
  - destruct (T "string" (Some "d'e")) as (_ & _ & H & _).
    apply (H "d'e"); [reflexivity | discriminate | reflexivity].
  - split.
    + destruct (T "string" (Some "")) as (H & _). apply H. right. reflexivity.
    + destruct (T "string" None) as (H & _). apply H. left. reflexivity.
Defined.

(** ** Batching *)

Lemma groupTuples_concat (n : Z) (tuples : list string) :
  forall rowsTMP groups,
    List.concat (groupTuples n tuples rowsTMP groups)
    = (List.concat groups ++ rowsTMP ++ tuples)%list.
Proof.
  induction tuples as [|t rest IH]; intros rowsTMP groups; simpl.
  - destruct rowsTMP as [|x tmp]; simpl.
    + rewrite app_nil_r. reflexivity.
    + rewrite concat_app. simpl. rewrite !app_nil_r. reflexivity.
  - destruct (Z.of_nat (List.length (rowsTMP ++ [t])) =? n).
    + rewrite IH, concat_app. simpl.
      rewrite app_nil_r, <- !app_assoc. reflexivity.
    + rewrite IH, <- !app_assoc. reflexivity.
Qed.

(** With a positive batch size the loop keeps fewer than [n] tuples pending
    and closes a batch the moment it holds [n]. *)
Lemma groupTuples_sizes (n : Z) (tuples : list string) :
  1 <= n ->
  forall rowsTMP groups,
    Z.of_nat (List.length rowsTMP) < n ->
    Forall (fun g => Z.of_nat (List.length g) = n) groups ->
    let out := groupTuples n tuples rowsTMP groups in
    Forall (fun g => 1 <= Z.of_nat (List.length g) <= n) out
    /\ Forall (fun g => Z.of_nat (List.length g) = n) (removelast out).
Proof.
  intros Hn. induction tuples as [|t rest IH]; intros rowsTMP groups Htmp Hg;
    simpl.
  - destruct (Z.ltb_spec 0 (Z.of_nat (List.length rowsTMP))) as [Hpos | Hz].
    + split.
      * apply Forall_app. split.
        -- eapply Forall_impl; [| exact Hg]. simpl. intros g Hgn. lia.
        -- constructor; [lia | constructor].
      * rewrite removelast_last. exact Hg.
    + split.
      * eapply Forall_impl; [| exact Hg]. simpl. intros g Hgn. lia.
      * clear - Hg. induction Hg as [|g gs Hgn Hgs IHg]; simpl.
        -- constructor.
        -- destruct gs; [constructor |]. constructor; assumption.
  - assert (Hlen : Z.of_nat (List.length (rowsTMP ++ [t]))
                   = Z.of_nat (List.length rowsTMP) + 1).
    { rewrite length_app. simpl. lia. }
    destruct (Z.eqb_spec (Z.of_nat (List.length (rowsTMP ++ [t]))) n) as [E | E].
    + apply IH.
      * simpl. lia.
      * apply Forall_app. split; [exact Hg |]. constructor; [exact E | constructor].
    + apply IH; [lia | exact Hg].
Qed.

(** With a batch size of zero or less no batch is ever closed early. *)
Lemma groupTuples_nonpositive (n : Z) (tuples : list string) :
  n <= 0 ->
  forall rowsTMP,
    groupTuples n tuples rowsTMP []
    = match (rowsTMP ++ tuples)%list with
      | [] => []
      | _ => [(rowsTMP ++ tuples)%list]
      end.
Proof.
  intros Hn. induction tuples as [|t rest IH]; intros rowsTMP; simpl.
  - rewrite app_nil_r. destruct rowsTMP; reflexivity.
  - destruct (Z.eqb_spec (Z.of_nat (List.length (rowsTMP ++ [t]))) n) as [E | E].
    + rewrite length_app in E. simpl in E. lia.
    + rewrite IH, <- app_assoc. reflexivity.
Qed.

Section BatchFacts.
Variable Float : Type.
Variable Decimal : Type.
Variable StrconvIntBitSize : string -> Z -> result Z.
Variable StrconvUintBitSize : string -> Z -> result Z.
Variable StrconvFloatBitSize : string -> Z -> result Float.
Variable StrconvRune : string -> result Z.
Variable fmt_float : Float -> string.
Variable decimal_NewFromString : string -> result Decimal.
Variable decimal_IsInteger : Decimal -> bool.

Local Abbreviation scan :=
  (Reader.scanRows StrconvIntBitSize StrconvUintBitSize
              StrconvFloatBitSize StrconvRune fmt_float
              decimal_NewFromString decimal_IsInteger).
Local Abbreviation tupleOf :=
  (Reader.scannedTuple StrconvIntBitSize StrconvUintBitSize
                 StrconvFloatBitSize StrconvRune fmt_float
                 decimal_NewFromString decimal_IsInteger).

(** When every row scans and encodes, the loop of the reader is the
    grouping loop followed by the join of each group. *)
Lemma scanRows_groups (n : Z) (columnTypes : list string) :
  forall rows tuples rowsTMP groups,
    map (tupleOf columnTypes) rows = map Some tuples ->
    scan n columnTypes rows None rowsTMP (map joinBatch groups)
    = (map joinBatch (groupTuples n tuples rowsTMP groups), None).
Proof.
  induction rows as [|r rows IH]; intros tuples rowsTMP groups Hmap.
  - destruct tuples; [| discriminate]. simpl.
    destruct (0 <? Z.of_nat (List.length rowsTMP)).
    + rewrite map_app. reflexivity.
    + reflexivity.
  - destruct tuples as [|t tuples]; [discriminate |].
    simpl in Hmap. injection Hmap as Ht Hrest.
    unfold tupleOf, Reader.scannedTuple in Ht.
    destruct r as [raws | e]; [| discriminate].
    simpl.
    destruct (Reader.encodeRow _ _ _ _ _ _ _ columnTypes 0 raws [])
      as [rowsResult [[ct e]|]]; [discriminate |].
    injection Ht as <-.
    destruct (Z.of_nat (List.length (rowsTMP ++ [Reader.rowTuple rowsResult]))
              =? n).
    + specialize (IH tuples [] (groups ++ [rowsTMP ++ [Reader.rowTuple rowsResult]])%list Hrest).
      rewrite map_app in IH. exact IH.
    + apply IH. exact Hrest.
Qed.

End BatchFacts.

(** C10.  When the query and every row of it scan and encode, the batches
    returned are the joins of consecutive groups of the row tuples, in
    order.  For a batch size of at least 1 every group holds between 1 and
    [insertBatchSize] tuples and every group but the last holds exactly
    [insertBatchSize]; an empty result set gives no batch; for a batch size
    of 0 or less the size check never fires and all the rows of a non-empty
    result set come back as one batch. *)
Theorem batches_partition_the_rows :
  forall (Float Decimal : Type)
         (StrconvIntBitSize StrconvUintBitSize : string -> Z -> result Z)
         (StrconvFloatBitSize : string -> Z -> result Float)
         (StrconvRune : string -> result Z)
         (fmt_float : Float -> string)
         (decimal_NewFromString : string -> result Decimal)
         (decimal_IsInteger : Decimal -> bool)
         (q : Reader.QueryResult) (insertBatchSize : Z)
         (tmpCols : list string) (colTypes : list (string * string))
         (tuples : list string),
    Reader.qr_query_err q = None ->
    Reader.qr_columns q = Ok tmpCols ->
    Reader.qr_column_types q = Ok colTypes ->
    Reader.qr_rows_err q = None ->
    map (Reader.scannedTuple StrconvIntBitSize StrconvUintBitSize
           StrconvFloatBitSize StrconvRune fmt_float
           decimal_NewFromString decimal_IsInteger (map fst colTypes))
        (Reader.qr_rows q)
    = map Some tuples ->
    let groups := groupTuples insertBatchSize tuples [] [] in
    Reader.GetOracleTableRowsData StrconvIntBitSize StrconvUintBitSize
      StrconvFloatBitSize StrconvRune fmt_float
      decimal_NewFromString decimal_IsInteger q insertBatchSize
    = (map (fun col => common.StringsBuilder ["`"; col; "`"]) tmpCols,
       map joinBatch groups, None)
    /\ List.concat groups = tuples
    /\ (1 <= insertBatchSize ->
        Forall (fun g => 1 <= Z.of_nat (List.length g) <= insertBatchSize) groups
        /\ Forall (fun g => Z.of_nat (List.length g) = insertBatchSize)
                  (removelast groups))
    /\ (tuples = [] -> groups = [])
    /\ (insertBatchSize <= 0 ->
        groups = match tuples with [] => [] | _ => [tuples] end).
Proof.
  intros Float Decimal SI SU SF SR fmt_float DN DI q n tmpCols colTypes tuples
    Hq Hc Ht He Hrows groups.
  repeat split.
  - unfold Reader.GetOracleTableRowsData. rewrite Hq, Hc, Ht, He.
    pose proof (@scanRows_groups _ _ SI SU SF SR fmt_float DN DI n
                  (map fst colTypes) (Reader.qr_rows q) tuples [] [] Hrows)
      as Hs.
    change (map joinBatch []) with (@nil string) in Hs.
    rewrite Hs. reflexivity.
  - unfold groups. rewrite groupTuples_concat. reflexivity.
  - apply groupTuples_sizes; [assumption | simpl; lia | constructor].
  - apply groupTuples_sizes; [assumption | simpl; lia | constructor].
  - intros ->. reflexivity.
  - intros Hn. unfold groups. rewrite groupTuples_nonpositive by assumption.
    reflexivity.
Qed.

(** The theorem at the five rows of the scenario with a batch size of 2:
    three batches of 2, 2 and 1 tuples. *)
Lemma batches_partition_the_rows_witness :
  Scenario.getRows Scenario.fiveRows 2
  = (["`ID`"; "`NAME`"],
     ["(1,'a'),(2,NULL)"; "(3,NULL),(4,'d\'e')"; "(5,'f')"], None)
  /\ Scenario.getRows Scenario.fiveRows 0
     = (["`ID`"; "`NAME`"],
        ["(1,'a'),(2,NULL),(3,NULL),(4,'d\'e'),(5,'f')"], None).
Proof.
  split.
  - exact (proj1 (@batches_partition_the_rows Z Z
             (fun s _ => GoStrings.parse_int64 "ParseInt" s)
             Scenario.parseUint Scenario.noFloat
             (fun s => GoStrings.parse_int64 "ParseInt" s) GoStrings.Itoa
             Scenario.noDecimal (fun _ => true)
             Scenario.fiveRows 2 ["ID"; "NAME"]
             [("int64", "NUMBER"); ("string", "VARCHAR2")]
             ["(1,'a')"; "(2,NULL)"; "(3,NULL)"; "(4,'d\'e')"; "(5,'f')"]
             eq_refl eq_refl eq_refl eq_refl eq_refl)).
  - exact (proj1 (@batches_partition_the_rows Z Z
             (fun s _ => GoStrings.parse_int64 "ParseInt" s)
             Scenario.parseUint Scenario.noFloat
             (fun s => GoStrings.parse_int64 "ParseInt" s) GoStrings.Itoa
             Scenario.noDecimal (fun _ => true)
             Scenario.fiveRows 0 ["ID"; "NAME"]
             [("int64", "NUMBER"); ("string", "VARCHAR2")]
             ["(1,'a')"; "(2,NULL)"; "(3,NULL)"; "(4,'d\'e')"; "(5,'f')"]
             eq_refl eq_refl eq_refl eq_refl eq_refl)).
Defined.

(** ** The monad: running calls *)

Lemma bind_ret_eq {A B} (m : M A) (k : A -> M B) w a w' :
  m w = Ret a w' -> bind m k w = k a w'.
Proof. intros H. unfold bind. rewrite H. reflexivity. Qed.

Lemma bind_fail_eq {A B} (m : M A) (k : A -> M B) w e w' :
  m w = Fail e w' -> bind m k w = Fail e w'.
Proof. intros H. unfold bind. rewrite H. reflexivity. Qed.

Lemma read_run {A} env (f : World -> A) w :
  meta.read env f w
  = match meta_fault env (meta_calls w) with
    | Some e => Fail e (count_call w)
    | None => Ret (f (count_call w)) (count_call w)
    end.
Proof. unfold meta.read, meta.call. simpl. destruct (meta_fault _ _); reflexivity. Qed.

Lemma write_run env (s : Stmt) (f : World -> World) w :
  meta.write env s f w
  = match meta_fault env (meta_calls w) with
    | Some e => Fail e (issue s (count_call w))
    | None => Ret tt (f (issue s (count_call w)))
    end.
Proof. unfold meta.write, meta.call. simpl. destruct (meta_fault _ _); reflexivity. Qed.

(** ** The gate *)

Lemma str_cond_status_clash (a b v : string) :
  a <> "" -> b <> "" -> a <> b ->
  meta.str_cond a v = true -> meta.str_cond b v = false.
Proof.
  unfold meta.str_cond. intros Ha Hb Hab H.
  destruct (String.eqb_spec a ""); [contradiction |].
  destruct (String.eqb_spec b ""); [contradiction |].
  simpl in *. apply String.eqb_eq in H. subst v.
  apply String.eqb_neq. congruence.
Qed.

Lemma str_cond_eq (q v : string) :
  q <> "" -> meta.str_cond q v = true -> q = v.
Proof.
  unfold meta.str_cond. intros Hq H.
  destruct (String.eqb_spec q ""); [contradiction |].
  apply String.eqb_eq. exact H.
Qed.

Lemma wait_matches_status (q r : WaitSyncMeta.t) :
  meta.wait_matches q r = true ->
  meta.str_cond (WaitSyncMeta.TaskStatus q) (WaitSyncMeta.TaskStatus r) = true.
Proof.
  unfold meta.wait_matches. intros H.
  repeat (apply andb_prop in H; destruct H as [H ?]).
  assumption.
Qed.

(** Deleting SUCCESS records leaves the FAILED ones in place. *)
Lemma failed_rows_survive_cleanup cfg (tables : list string) (l : list WaitSyncMeta.t) :
  let failedQ := o2m.waitQuery cfg (o2m.schemaUPPER cfg) "" common.TaskStatusFailed 0 0 in
  let successQ := o2m.waitQuery cfg (o2m.schemaUPPER cfg) "" common.TaskStatusSuccess 0 0 in
  filter (meta.wait_matches failedQ)
    (meta.delete_where
       (fun r => meta.wait_matches successQ r
                 && common.IsContainString (map common.StringUPPER tables)
                      (common.StringUPPER (WaitSyncMeta.TableNameS r))) l)
  = filter (meta.wait_matches failedQ) l.
Proof.
  intros failedQ successQ. unfold meta.delete_where.
  induction l as [|r l IH]; simpl; [reflexivity |].
  destruct (meta.wait_matches failedQ r) eqn:Hf.
  - assert (Hs : meta.wait_matches successQ r = false).
    { destruct (meta.wait_matches successQ r) eqn:Hs; [| reflexivity].
      apply wait_matches_status in Hf. apply wait_matches_status in Hs.
      simpl in Hf, Hs.
      rewrite (@str_cond_status_clash common.TaskStatusFailed
                 common.TaskStatusSuccess (WaitSyncMeta.TaskStatus r)) in Hs;
        try discriminate; assumption. }
    rewrite Hs. simpl. rewrite Hf, IH. reflexivity.
  - destruct (negb _); simpl; [rewrite Hf |]; exact IH.
Qed.

Lemma delete_where_subset {A} (c : A -> bool) (l : list A) (r : A) :
  In r (meta.delete_where c l) -> In r l.
Proof. unfold meta.delete_where. intros H. apply filter_In in H. tauto. Qed.

Lemma delete_where_keeps {A} (c : A -> bool) (l : list A) (r : A) :
  In r l -> c r = false -> In r (meta.delete_where c l).
Proof.
  unfold meta.delete_where. intros H Hc. apply filter_In. rewrite Hc. tauto.
Qed.

Lemma cleanup_refl (w : World) : only_success_cleanup w w.
Proof. unfold only_success_cleanup. repeat split; auto. Qed.

Lemma cleanup_count_call (w w' : World) :
  only_success_cleanup w w' -> only_success_cleanup w (count_call w').
Proof. intros H. exact H. Qed.

Lemma cleanup_issued (w w1 : World) (tables : list string) :
  only_success_cleanup w w1 -> trace w1 = trace w ->
  only_success_cleanup w (issue (StDeleteWaitSuccessTables tables) w1).
Proof.
  unfold only_success_cleanup. intros (Hf & Ht & Hsub & Hkeep & _) Htr.
  simpl. repeat split; auto.
  right. exists tables. rewrite Htr. reflexivity.
Qed.

Lemma cleanup_deleted cfg (w w1 : World) (names : list string) :
  only_success_cleanup w w1 ->
  only_success_cleanup w
    (set_wait
       (meta.delete_where
          (fun r => meta.wait_matches
                      (o2m.waitQuery cfg (o2m.schemaUPPER cfg) ""
                         common.TaskStatusSuccess 0 0) r
                    && common.IsContainString names
                         (common.StringUPPER (WaitSyncMeta.TableNameS r)))
          (wait_sync_meta w1))
       w1).
Proof.
  unfold only_success_cleanup. intros (Hf & Ht & Hsub & Hkeep & Htr).
  simpl. repeat split; auto.
  - intros r Hin. apply Hsub. eapply delete_where_subset. exact Hin.
  - intros r Hin Hst. apply delete_where_keeps; [auto |].
    destruct (meta.wait_matches _ r) eqn:Hm; [| reflexivity].
    exfalso. apply wait_matches_status in Hm.
    apply str_cond_eq in Hm; [| discriminate].
    apply Hst. symmetry. exact Hm.
Qed.

Lemma gate_cleanup_refl cfg (exporters : result (list string)) (w : World) :
  gate_cleanup cfg exporters w (count_call w)
  /\ gate_cleanup cfg exporters w (count_call (count_call w))
  /\ gate_cleanup cfg exporters w w.
Proof.
  unfold gate_cleanup.
  repeat split; destruct exporters; simpl; auto.
Qed.

Lemma delete_where_none {A} (c : A -> bool) (l : list A) :
  (forall r, c r = false) -> meta.delete_where c l = l.
Proof.
  intros Hc. unfold meta.delete_where.
  induction l as [| r l IH]; simpl; [reflexivity |].
  rewrite Hc. simpl. rewrite IH. reflexivity.
Qed.

(** The gate proper: the count of FAILED records and the abort. *)
Lemma gate_step cfg env (k : M unit) (w2 : World) :
  0 < meta.count_where
        (meta.wait_matches
           (o2m.waitQuery cfg (o2m.schemaUPPER cfg) ""
              common.TaskStatusFailed 0 0))
        (wait_sync_meta w2) ->
  exists e,
    bind (attempt
            (meta.CountsErrWaitSyncMetaBySchema env
               (o2m.waitQuery cfg (o2m.schemaUPPER cfg) ""
                  common.TaskStatusFailed 0 0)))
         (fun r => match r with
                   | Err err => fail (o2m.gateError cfg (Some err))
                   | Ok errTotals =>
                       if 0 <? errTotals then fail (o2m.gateError cfg None)
                       else k
                   end) w2
    = Fail e (count_call w2)
    /\ (meta_fault env (meta_calls w2) = None -> e = o2m.gateError cfg None).
Proof.
  intros Hfailed.
  unfold meta.CountsErrWaitSyncMetaBySchema, bind, attempt.
  rewrite read_run.
  destruct (meta_fault env (meta_calls w2)) as [f2 |] eqn:F2.
  - eexists. split; [reflexivity | discriminate].
  - change (wait_sync_meta (count_call w2)) with (wait_sync_meta w2).
    destruct (Z.ltb_spec 0
                (meta.count_where
                   (meta.wait_matches
                      (o2m.waitQuery cfg (o2m.schemaUPPER cfg) ""
                         common.TaskStatusFailed 0 0))
                   (wait_sync_meta w2))); [| lia].
    eexists. split; reflexivity.
Qed.

(** C3, counterexample.  A prior run left table A SUCCESS and table B
    FAILED; the configuration names B only.  The run aborts at the gate with
    the remediation error, but the WaitSync record of A has already been
    deleted by the clean-up of success records that precedes the gate. *)
Lemma gate_abort_follows_success_cleanup :
  exists e w',
    o2m.Full (Scenario.cfg true)
      (Scenario.env ["B"] 5 [] Scenario.applyOk Scenario.noFault)
      Scenario.failedWorld = Fail e w'
    /\ e = o2m.gateError (Scenario.cfg true) None
    /\ map WaitSyncMeta.TableNameS (wait_sync_meta Scenario.failedWorld)
       = ["A"; "B"]
    /\ map WaitSyncMeta.TableNameS (wait_sync_meta w') = ["B"]
    /\ trace w' = [StDeleteWaitSuccessTables ["A"]].
Proof.
  eexists. eexists. split; [vm_compute; reflexivity | repeat split; reflexivity].
Qed.

(** C3, amended.  With at least one FAILED WaitSync record in the
    schema/task-mode the run aborts, whatever the source and the metadata
    store answer.  Before the abort the only statement that can have been
    issued is the clean-up of the SUCCESS records of tables no longer
    configured: FullSync records and source tasks are untouched, no
    WaitSync record is created or updated, nothing is truncated and no
    chunk runs; the statement issued, if any, names the tables with a
    SUCCESS record that the table filter did not answer, and the records
    deleted, if any, are the SUCCESS records of the tables so named, the
    names compared upper-cased.  When the version check, the table filter
    and the store answer normally, the WaitSync records left are exactly
    those of the start without these records, the deletion is issued
    exactly when there is a table to name, and the error is the
    remediation error (its text, for a schema name of ASCII characters). *)
Theorem gate_aborts_after_success_cleanup_only :
  forall (cfg : Config) (env : Env) (w : World),
    0 < meta.count_where
          (meta.wait_matches
             (o2m.waitQuery cfg (o2m.schemaUPPER cfg) ""
                common.TaskStatusFailed 0 0))
          (wait_sync_meta w) ->
    exists e w',
      o2m.Full cfg env w = Fail e w'
      /\ only_success_cleanup w w'
      /\ gate_cleanup cfg (filterCFGTable env) w w'
      /\ (forall v exporters,
            GetOracleDBVersion env = Ok v ->
            VersionOrdinal env (RequireOracleDBVersion env)
              <= VersionOrdinal env v ->
            filterCFGTable env = Ok exporters ->
            (forall n, meta_fault env n = None) ->
            wait_sync_meta w'
            = meta.delete_where
                (cleared cfg (clearTables cfg exporters w))
                (wait_sync_meta w)
            /\ trace w'
               = (trace w
                    ++ match clearTables cfg exporters w with
                       | [] => []
                       | tables => [StDeleteWaitSuccessTables tables]
                       end)%list
            /\ (GoStrings.is_ascii (OracleSchemaName cfg) = true ->
                e = o2m.gateError cfg None)).
Proof.
  intros cfg env w Hfailed.
  unfold o2m.Full.
  destruct (GetOracleDBVersion env) as [v | e0] eqn:Hv.
  2:{ exists e0, w. split; [reflexivity |].
      split; [apply cleanup_refl |].
      split; [apply gate_cleanup_refl | intros; discriminate]. }
  rewrite (@bind_ret_eq _ _ (lift (Ok v)) _ w v w eq_refl).
  destruct (Z.ltb_spec (VersionOrdinal env v)
              (VersionOrdinal env (RequireOracleDBVersion env))) as [Hlt | Hge].
  { eexists. exists w. split; [reflexivity |].
    split; [apply cleanup_refl |].
    split; [apply gate_cleanup_refl |].
    intros v' ex Hv' Hle. injection Hv' as <-. lia. }
  destruct (filterCFGTable env) as [exporters | e0] eqn:Hex.
  2:{ exists e0, w. split; [reflexivity |].
      split; [apply cleanup_refl |].
      split; [apply gate_cleanup_refl | intros; discriminate]. }
  rewrite (@bind_ret_eq _ _ (lift (Ok exporters)) _ w exporters w eq_refl).
  (* the lookup of SUCCESS tables *)
  unfold meta.DetailWaitSyncMetaSuccessTables.
  unfold bind at 1. rewrite read_run.
  destruct (meta_fault env (meta_calls w)) as [f1 |] eqn:F1.
  { eexists. eexists. split; [reflexivity |].
    split; [apply cleanup_count_call, cleanup_refl |].
    split; [apply (gate_cleanup_refl cfg (Ok exporters) w) |].
    intros v' ex _ _ _ Hnf. rewrite Hnf in F1. discriminate. }
  (* the clean-up *)
  match goal with
  | |- context [Nat.ltb 0 (List.length ?c)] =>
      change c with (clearTables cfg exporters w)
  end.
  destruct (clearTables cfg exporters w) as [| t ts] eqn:Hclear.
  - change (Nat.ltb 0 (List.length (@nil string))) with false. cbv iota.
    rewrite (@bind_ret_eq _ _ (ret tt) _ (count_call w) tt _ eq_refl).
    destruct (@gate_step cfg env
                (o2m.fullAfterGate cfg env exporters
                   (VersionOrdinal env
                      (OracleTableColumnCollationDBVersion env)
                    <=? VersionOrdinal env v)) (count_call w)) as (e & He & Hn).
    { exact Hfailed. }
    exists e. eexists. split; [exact He |].
    split; [apply cleanup_count_call, cleanup_count_call, cleanup_refl |].
    split; [apply (gate_cleanup_refl cfg (Ok exporters) w) |].
    intros v' ex _ _ Hex' Hnf. injection Hex' as <-. rewrite Hclear.
    split; [symmetry; apply delete_where_none; intros r; unfold cleared;
            rewrite Bool.andb_comm; reflexivity |].
    split; [simpl; rewrite app_nil_r; reflexivity |].
    intros _. apply Hn, Hnf.
  - change (Nat.ltb 0 (List.length (t :: ts))) with true. cbv iota.
    unfold meta.DeleteWaitSyncMetaSuccessTables.
    unfold bind at 1. rewrite write_run.
    destruct (meta_fault env (meta_calls (count_call w))) as [f2 |] eqn:F2.
    { eexists. eexists. split; [reflexivity |].
      split; [apply cleanup_issued; [exact (cleanup_refl w) | reflexivity] |].
      split.
      { split; [reflexivity |]. split; [reflexivity |].
        cbv zeta. rewrite Hclear. right.
        split; [discriminate |]. split; [reflexivity | left; reflexivity]. }
      intros v' ex _ _ _ Hnf. rewrite Hnf in F2. discriminate. }
    match goal with
    | |- exists e w', bind _ _ ?w2 = _ /\ _ =>
        destruct (@gate_step cfg env
                    (o2m.fullAfterGate cfg env exporters
                       (VersionOrdinal env
                          (OracleTableColumnCollationDBVersion env)
                        <=? VersionOrdinal env v)) w2) as (e & He & Hn)
    end.
    { unfold meta.count_where in *.
      cbn [wait_sync_meta set_wait issue count_call].
      rewrite (failed_rows_survive_cleanup cfg (t :: ts)). exact Hfailed. }
    exists e. eexists. split; [exact He |].
    split.
    { apply cleanup_count_call, cleanup_deleted, cleanup_issued;
        [exact (cleanup_refl w) | reflexivity]. }
    split.
    { split; [reflexivity |]. split; [reflexivity |].
      cbv zeta. rewrite Hclear. right.
      split; [discriminate |]. split; [reflexivity | right; reflexivity]. }
    intros v' ex _ _ Hex' Hnf. injection Hex' as <-. rewrite Hclear.
    split; [reflexivity |]. split; [reflexivity |].
    intros _. apply Hn, Hnf.
Qed.

(** The theorem where a prior run left A and C done and B failed and the
    configuration names B and C: the record of A is deleted, that of C is
    kept, and the run aborts with the remediation error. *)
Lemma gate_aborts_after_success_cleanup_only_witness :
  0 < meta.count_where
        (meta.wait_matches
           (o2m.waitQuery (Scenario.cfg true)
              (o2m.schemaUPPER (Scenario.cfg true)) ""
              common.TaskStatusFailed 0 0))
        (wait_sync_meta Scenario.staleWorld)
  /\ exists w',
       o2m.Full (Scenario.cfg true)
         (Scenario.env ["B"; "C"] 5 [] Scenario.applyOk Scenario.noFault)
         Scenario.staleWorld
       = Fail (o2m.gateError (Scenario.cfg true) None) w'
       /\ map WaitSyncMeta.TableNameS (wait_sync_meta w') = ["B"; "C"]
       /\ trace w' = [StDeleteWaitSuccessTables ["A"]].
Proof.
  assert (H : 0 < meta.count_where
                    (meta.wait_matches
                       (o2m.waitQuery (Scenario.cfg true)
                          (o2m.schemaUPPER (Scenario.cfg true)) ""
                          common.TaskStatusFailed 0 0))
                    (wait_sync_meta Scenario.staleWorld)).
  { vm_compute. reflexivity. }
  split; [exact H |].
  destruct (@gate_aborts_after_success_cleanup_only (Scenario.cfg true)
              (Scenario.env ["B"; "C"] 5 [] Scenario.applyOk Scenario.noFault)
              Scenario.staleWorld H) as (e & w' & Hrun & _ & _ & Hnormal).
  destruct (Hnormal "19" ["B"; "C"]) as (Hwait & Htrace & He).
  - reflexivity.
  - vm_compute. discriminate.
  - reflexivity.
  - reflexivity.
  - exists w'. rewrite <- (He eq_refl). split; [exact Hrun |].
    rewrite Hwait, Htrace. split; vm_compute; reflexivity.
Defined.

(** ** Chunk workers *)

Lemma str_cond_refl (v : string) : meta.str_cond v v = true.
Proof. unfold meta.str_cond. rewrite String.eqb_refl. apply orb_true_r. Qed.

Lemma name_cond_refl (v : string) : meta.name_cond v v = true.
Proof. unfold meta.name_cond. rewrite String.eqb_refl. apply orb_true_r. Qed.

Lemma chunkQuery_matches_own (m : FullSyncMeta.t) :
  meta.full_matches (o2m.chunkQuery m) m = true.
Proof.
  unfold meta.full_matches, o2m.chunkQuery.
  cbn [FullSyncMeta.DBTypeS FullSyncMeta.DBTypeT FullSyncMeta.SchemaNameS
       FullSyncMeta.TableNameS FullSyncMeta.TaskMode FullSyncMeta.ChunkDetailS
       FullSyncMeta.TaskStatus].
  rewrite !str_cond_refl, !name_cond_refl. reflexivity.
Qed.

(** The write that records the outcome of a chunk. *)
Lemma record_run env (m : FullSyncMeta.t) (p : FullSyncMeta.patch)
    (msg : error -> error) (w : World) :
  bind (attempt (meta.UpdateFullSyncMeta env (o2m.chunkQuery m) p))
       (fun r => match r with
                 | Err errf => fail (msg errf)
                 | Ok _ => ret tt
                 end) w
  = match meta_fault env (meta_calls w) with
    | Some errf =>
        Fail (msg errf)
          (issue (StUpdateFull (o2m.chunkQuery m) p) (count_call w))
    | None =>
        Ret tt
          (set_full
             (meta.update_where (meta.full_matches (o2m.chunkQuery m))
                (FullSyncMeta.apply p) (full_sync_meta w))
             (issue (StUpdateFull (o2m.chunkQuery m) p) (count_call w)))
    end.
Proof.
  unfold bind, attempt, meta.UpdateFullSyncMeta. rewrite write_run.
  destruct (meta_fault env (meta_calls w)); reflexivity.
Qed.

(** What a chunk worker does, by the fault schedule of the store: one
    call, which records the outcome of the stages or fails the worker. *)
Lemma syncChunk_run cfg env (m : FullSyncMeta.t) (w : World) :
  exists w',
    match meta_fault env (meta_calls w) with
    | Some errf =>
        (exists msg, o2m.syncChunk cfg env m w = Fail msg w')
        /\ full_sync_meta w' = full_sync_meta w
    | None =>
        o2m.syncChunk cfg env m w = Ret tt w'
        /\ full_sync_meta w'
           = meta.update_where (meta.full_matches (o2m.chunkQuery m))
               (FullSyncMeta.apply (outcomePatch m (stageError cfg env m)))
               (full_sync_meta w)
    end
    /\ meta_calls w' = S (meta_calls w)
    /\ wait_sync_meta w' = wait_sync_meta w
    /\ (forall s, In s (trace w) -> In s (trace w'))
    /\ In (StExtract m) (trace w').
Proof.
  unfold o2m.syncChunk, stageError.
  rewrite (@bind_ret_eq _ _ (modify (issue (StExtract m))) _ w tt
             (issue (StExtract m) w) eq_refl).
  destruct (IExtractor env m (InsertBatchSize cfg)) as [[c b] | err];
    [destruct (ITranslator env m c b) as [err |];
     [| rewrite (@bind_ret_eq _ _ (modify (issue (StApply m))) _ _ tt
                  (issue (StApply m) (issue (StExtract m) w)) eq_refl);
        destruct (IApplier env m c b) as [err |]] |];
    unfold o2m.recordFailed; rewrite record_run;
    change (meta_calls (issue (StApply m) (issue (StExtract m) w)))
      with (meta_calls w);
    change (meta_calls (issue (StExtract m) w)) with (meta_calls w);
    destruct (meta_fault env (meta_calls w)); eexists;
    (split; [split; [eauto | reflexivity] |]);
    (split; [reflexivity |]); (split; [reflexivity |]);
    (split; [intros s Hs | ]); simpl;
    rewrite ?in_app_iff; simpl; auto 8.
Qed.

(** The inner group: every worker runs, each makes one call to the store,
    and the group fails exactly when one of these calls fails. *)
Lemma syncChunks_run cfg env (ms : list FullSyncMeta.t) :
  forall (first : option error) (w : World),
  exists w',
    ((first = None
      /\ (forall i, (i < List.length ms)%nat ->
            meta_fault env (meta_calls w + i)%nat = None)
      /\ errgroup_run (map (o2m.syncChunk cfg env) ms) first w = Ret tt w')
     \/
     ((first <> None
       \/ exists i, (i < List.length ms)%nat
                    /\ meta_fault env (meta_calls w + i)%nat <> None)
      /\ exists e,
           errgroup_run (map (o2m.syncChunk cfg env) ms) first w = Fail e w'))
    /\ meta_calls w' = (meta_calls w + List.length ms)%nat
    /\ wait_sync_meta w' = wait_sync_meta w
    /\ (forall s, In s (trace w) -> In s (trace w'))
    /\ (forall m, In m ms -> In (StExtract m) (trace w')).
Proof.
  induction ms as [|m ms IH]; intros first w.
  - exists w. simpl. split; [| repeat split; auto; try lia; contradiction].
    destruct first as [e |].
    + right. split; [left; discriminate | eauto].
    + left. repeat split. intros i Hi. lia.
  - destruct (syncChunk_run cfg env m w) as (w1 & Hrun & Hc1 & Hw1 & Ht1 & He1).
    simpl map. simpl errgroup_run.
    destruct (meta_fault env (meta_calls w)) as [errf |] eqn:F.
    + destruct Hrun as ((msg & Hrun) & _). rewrite Hrun.
      destruct (IH (match first with None => Some msg | Some _ => first end) w1)
        as (w' & Hcase & Hc & Hw & Ht & He).
      exists w'. split.
      * right. split.
        -- right. exists 0%nat. simpl. rewrite Nat.add_0_r, F.
           split; [lia | discriminate].
        -- destruct Hcase as [(Hnone & _) | (_ & Hfail)]; [| exact Hfail].
           destruct first; discriminate.
      * split; [rewrite Hc, Hc1; simpl; lia |].
        split; [congruence |].
        split; [auto |].
        intros m' [<- | Hm']; auto.
    + destruct Hrun as (Hrun & _). rewrite Hrun.
      destruct (IH first w1) as (w' & Hcase & Hc & Hw & Ht & He).
      exists w'. split.
      * destruct Hcase as [(Hnone & Hnf & Hret) | (Hwhy & Hfail)].
        -- left. split; [exact Hnone |]. split; [| exact Hret].
           intros i Hi. destruct i as [|i].
           ++ rewrite Nat.add_0_r. exact F.
           ++ specialize (Hnf i). rewrite Hc1 in Hnf.
              replace (meta_calls w + S i)%nat with (S (meta_calls w) + i)%nat
                by lia.
              apply Hnf. simpl in Hi. lia.
        -- right. split; [| exact Hfail].
           destruct Hwhy as [Hf | (i & Hi & Hfi)]; [left; exact Hf |].
           right. exists (S i). split; [simpl; lia |].
           rewrite Hc1 in Hfi.
           replace (meta_calls w + S i)%nat with (S (meta_calls w) + i)%nat
             by lia.
           exact Hfi.
      * split; [rewrite Hc, Hc1; simpl; lia |].
        split; [congruence |].
        split; [auto |].
        intros m' [<- | Hm']; auto.
Qed.

(** The error of a worker whose recording write fails: the stage it was at
    and the error of the store; its record is left as it was. *)
Lemma syncChunk_fails cfg env (m : FullSyncMeta.t) (w : World) errf :
  meta_fault env (meta_calls w) = Some errf ->
  exists w',
    o2m.syncChunk cfg env m w = Fail (workerError cfg env m errf) w'
    /\ full_sync_meta w' = full_sync_meta w.
Proof.
  intros F. unfold o2m.syncChunk, workerError, recordStage.
  rewrite (@bind_ret_eq _ _ (modify (issue (StExtract m))) _ w tt
             (issue (StExtract m) w) eq_refl).
  destruct (IExtractor env m (InsertBatchSize cfg)) as [[c b] | err];
    [destruct (ITranslator env m c b) as [err |];
     [| rewrite (@bind_ret_eq _ _ (modify (issue (StApply m))) _ _ tt
                  (issue (StApply m) (issue (StExtract m) w)) eq_refl);
        destruct (IApplier env m c b) as [err |]] |];
    unfold o2m.recordFailed; rewrite record_run;
    change (meta_calls (issue (StApply m) (issue (StExtract m) w)))
      with (meta_calls w);
    change (meta_calls (issue (StExtract m) w)) with (meta_calls w);
    rewrite F; eexists; split; reflexivity.
Qed.

(** Once the group holds an error, that is the error it reports. *)
Lemma errgroup_keeps_first cfg env (ms : list FullSyncMeta.t) :
  forall (e0 : error) (w : World),
  exists w',
    errgroup_run (map (o2m.syncChunk cfg env) ms) (Some e0) w = Fail e0 w'.
Proof.
  induction ms as [|m ms IH]; intros e0 w; simpl.
  - eauto.
  - destruct (syncChunk_run cfg env m w) as (w1 & Hrun & _).
    destruct (meta_fault env (meta_calls w)).
    + destruct Hrun as ((msg & ->) & _). apply IH.
    + destruct Hrun as (-> & _). apply IH.
Qed.

(** The error the inner group reports: that of the first chunk, in the
    order of the loop, whose recording write fails. *)
Lemma syncChunks_first_error cfg env (ms : list FullSyncMeta.t) :
  forall (w : World) (i : nat) (m : FullSyncMeta.t) (errf : error),
    nth_error ms i = Some m ->
    meta_fault env (meta_calls w + i)%nat = Some errf ->
    (forall j, (j < i)%nat -> meta_fault env (meta_calls w + j)%nat = None) ->
    exists w',
      errgroup_run (map (o2m.syncChunk cfg env) ms) None w
      = Fail (workerError cfg env m errf) w'.
Proof.
  induction ms as [|m0 ms IH]; intros w i m errf Hnth F Hbefore.
  - destruct i; discriminate.
  - simpl map. simpl errgroup_run. destruct i as [|i].
    + injection Hnth as ->. rewrite Nat.add_0_r in F.
      destruct (@syncChunk_fails cfg env m w errf F) as (w1 & -> & _).
      apply errgroup_keeps_first.
    + simpl in Hnth.
      destruct (syncChunk_run cfg env m0 w) as (w1 & Hrun & Hc1 & _).
      assert (F0 : meta_fault env (meta_calls w) = None).
      { rewrite <- (Nat.add_0_r (meta_calls w)). apply Hbefore. lia. }
      rewrite F0 in Hrun. destruct Hrun as (-> & _).
      apply (@IH w1 i m errf Hnth).
      * rewrite Hc1.
        replace (S (meta_calls w) + i)%nat with (meta_calls w + S i)%nat
          by lia.
        exact F.
      * intros j Hj. rewrite Hc1.
        replace (S (meta_calls w) + j)%nat with (meta_calls w + S j)%nat
          by lia.
        apply Hbefore. lia.
Qed.

(** C6, counterexample.  Two waiting chunks; every stage of both succeeds,
    and the metadata store fails its first call, which is the write that
    records the first chunk as SUCCESS.  The inner group fails although no
    FAILED-recording write was issued, and the second chunk has run and is
    recorded SUCCESS all the same. *)
Lemma success_write_failure_fails_group :
  exists e w',
    o2m.syncChunks (Scenario.cfg true)
      (Scenario.env ["T"] 5 [] Scenario.applyOk Scenario.firstCallFails)
      [Scenario.chunk1; Scenario.chunk2] Scenario.twoChunkWorld = Fail e w'
    /\ filter is_failed_write (trace w') = []
    /\ In (StApply Scenario.chunk2) (trace w')
    /\ map FullSyncMeta.TaskStatus (full_sync_meta w') = ["WAITING"; "SUCCESS"].
Proof.
  eexists. eexists. split; [vm_compute; reflexivity |].
  split; [reflexivity |]. split; [| reflexivity].
  simpl. right. right. right. right. left. reflexivity.
Qed.

(** C6, amended.  A chunk worker makes one call to the metadata store, the
    write that records the outcome of the chunk.  When a stage of the chunk
    fails and that write succeeds, the chunk's own record is FAILED with
    [info_detail] the stringified chunk and [error_detail] the error, and
    the worker returns success.  The worker fails exactly when its
    recording write fails, be it the FAILED-recording or the
    SUCCESS-recording one, and then its error names the stage it was at
    and carries the error of the store, and its record is left as it was.
    The inner group fails exactly when the recording write of one of its
    chunks fails; it never panics, cancels nothing, and every chunk of the
    table is run.  The error of the group is the first one returned: with
    the workers run one at a time in the order of the loop, that of the
    first chunk whose recording write fails, whatever the chunks after it
    do. *)
Theorem chunk_failure_recorded_and_swallowed :
  forall (cfg : Config) (env : Env),
    (forall m w err,
       stageError cfg env m = Some err ->
       meta_fault env (meta_calls w) = None ->
       exists w',
         o2m.syncChunk cfg env m w = Ret tt w'
         /\ full_sync_meta w'
            = meta.update_where (meta.full_matches (o2m.chunkQuery m))
                (FullSyncMeta.apply (failedPatch m err)) (full_sync_meta w)
         /\ (In m (full_sync_meta w) ->
             In (FullSyncMeta.apply (failedPatch m err) m) (full_sync_meta w')))
    /\ (forall m w,
          is_crash (o2m.syncChunk cfg env m w) = false
          /\ (is_fail (o2m.syncChunk cfg env m w) = true
              <-> meta_fault env (meta_calls w) <> None))
    /\ (forall ms w,
          is_crash (o2m.syncChunks cfg env ms w) = false
          /\ (is_fail (o2m.syncChunks cfg env ms w) = true
              <-> exists i, (i < List.length ms)%nat
                            /\ meta_fault env (meta_calls w + i)%nat <> None)
          /\ (forall m, In m ms ->
                In (StExtract m)
                   (trace (world_of (o2m.syncChunks cfg env ms w) w))))
    /\ (forall m w errf,
          meta_fault env (meta_calls w) = Some errf ->
          exists w',
            o2m.syncChunk cfg env m w = Fail (workerError cfg env m errf) w'
            /\ full_sync_meta w' = full_sync_meta w)
    /\ (forall ms w i m errf,
          nth_error ms i = Some m ->
          meta_fault env (meta_calls w + i)%nat = Some errf ->
          (forall j, (j < i)%nat ->
             meta_fault env (meta_calls w + j)%nat = None) ->
          exists w',
            o2m.syncChunks cfg env ms w
            = Fail (workerError cfg env m errf) w').
Proof.
  intros cfg env. split; [| split; [| split; [| split]]];
    [| | | intros m w errf F; exact (@syncChunk_fails cfg env m w errf F)
         | intros ms w i m errf Hnth F Hbefore;
           exact (@syncChunks_first_error cfg env ms w i m errf Hnth F Hbefore)].
  - intros m w err Hse Hnf.
    destruct (syncChunk_run cfg env m w) as (w' & Hrun & _).
    rewrite Hnf, Hse in Hrun. destruct Hrun as (Hrun & Hfull).
    exists w'. split; [exact Hrun |]. split; [exact Hfull |].
    intros Hin. rewrite Hfull. unfold meta.update_where.
    apply in_map_iff. exists m. split; [| exact Hin].
    rewrite chunkQuery_matches_own. reflexivity.
  - intros m w.
    destruct (syncChunk_run cfg env m w) as (w' & Hrun & _).
    destruct (meta_fault env (meta_calls w)) as [errf |].
    + destruct Hrun as ((msg & ->) & _). simpl.
      split; [reflexivity |]. split; [discriminate | reflexivity].
    + destruct Hrun as (-> & _). simpl.
      split; [reflexivity |]. split; [discriminate | congruence].
  - intros ms w. unfold o2m.syncChunks, errgroup.
    destruct (syncChunks_run cfg env ms None w)
      as (w' & Hcase & _ & _ & _ & He).
    destruct Hcase as [(_ & Hnf & ->) | (Hwhy & e & ->)]; simpl.
    + split; [reflexivity |]. split; [| exact He].
      split; [discriminate |].
      intros (i & Hi & Hfi). exfalso. apply Hfi, Hnf, Hi.
    + split; [reflexivity |]. split; [| exact He].
      split; [| reflexivity].
      intros _. destruct Hwhy as [Hf | Hex]; [congruence | exact Hex].
Qed.

(** The theorem where the store fails every call: both chunks run, both
    recording writes fail, and the group reports the error of the first
    chunk, whose stages had all succeeded. *)
Lemma chunk_failure_recorded_and_swallowed_witness :
  exists w',
    o2m.syncChunks (Scenario.cfg true)
      (Scenario.env ["T"] 5 [] Scenario.applyOk Scenario.everyCallFails)
      [Scenario.chunk1; Scenario.chunk2] Scenario.twoChunkWorld
    = Fail
        "get oracle schema table [MARVIN.T -> MARVIN.T scn 1000 where ROWID BETWEEN 'a' AND 'b'] Success failed: Error 2006: MySQL server has gone away"
        w'
    /\ In (StExtract Scenario.chunk2) (trace w').
Proof.
  destruct (chunk_failure_recorded_and_swallowed (Scenario.cfg true)
              (Scenario.env ["T"] 5 [] Scenario.applyOk
                 Scenario.everyCallFails))
    as (_ & _ & Hgroup & _ & Hfirst).
  destruct (Hfirst [Scenario.chunk1; Scenario.chunk2] Scenario.twoChunkWorld
              0%nat Scenario.chunk1 "Error 2006: MySQL server has gone away"
              eq_refl eq_refl
              (fun j Hj => False_ind _ (Nat.nlt_0_r j Hj)))
    as (w' & Hrun).
  exists w'. split; [exact Hrun |].
  destruct (Hgroup [Scenario.chunk1; Scenario.chunk2] Scenario.twoChunkWorld)
    as (_ & _ & Hall).
  rewrite Hrun in Hall. apply Hall. right. left. reflexivity.
Defined.

(** ** The chunker: which calls touch the metadata store *)

Lemma poc_bind {A B} (m : M A) (k : A -> M B) w
    (QR : B -> World -> Prop) (QF : error -> World -> Prop) :
  post_or_crash m w (fun a w1 => post_or_crash (k a) w1 QR QF) QF ->
  post_or_crash (bind m k) w QR QF.
Proof.
  unfold post_or_crash, bind. destruct (m w); auto.
Qed.

Lemma poc_conseq {A} (m : M A) w
    (QR QR' : A -> World -> Prop) (QF QF' : error -> World -> Prop) :
  post_or_crash m w QR QF ->
  (forall a w', QR a w' -> QR' a w') ->
  (forall e w', QF e w' -> QF' e w') ->
  post_or_crash m w QR' QF'.
Proof.
  unfold post_or_crash. destruct (m w); auto.
Qed.

Lemma same_meta_refl w : same_meta w w.
Proof. split; reflexivity. Qed.

Lemma same_meta_trans w w1 w2 :
  same_meta w w1 -> same_meta w1 w2 -> same_meta w w2.
Proof. unfold same_meta. intros [? ?] [? ?]. split; congruence. Qed.

Create HintDb quiet_db.

Lemma quiet_ret {A} (a : A) : quiet (ret a).
Proof. intros w. apply same_meta_refl. Qed.

Lemma quiet_fail {A} (e : error) : quiet (@fail A e).
Proof. intros w. apply same_meta_refl. Qed.

Lemma quiet_crash {A} : quiet (@crash A).
Proof. intros w. exact I. Qed.

Lemma quiet_lift {A} (r : result A) : quiet (lift r).
Proof. destruct r; intros w; apply same_meta_refl. Qed.

Lemma quiet_bind {A B} (m : M A) (k : A -> M B) :
  quiet m -> (forall a, quiet (k a)) -> quiet (bind m k).
Proof.
  intros Hm Hk w. apply poc_bind.
  eapply poc_conseq; [apply Hm | | auto].
  intros a w1 H1. simpl.
  eapply poc_conseq; [apply Hk | |]; simpl.
  - intros b w2 H2. exact (same_meta_trans H1 H2).
  - intros e w2 H2. exact (same_meta_trans H1 H2).
Qed.

Lemma quiet_attempt {A} (m : M A) : quiet m -> quiet (attempt m).
Proof.
  intros Hm w. specialize (Hm w). unfold post_or_crash, attempt in *.
  destruct (m w); auto.
Qed.

Lemma quiet_if {A} (b : bool) (m1 m2 : M A) :
  quiet m1 -> quiet m2 -> quiet (if b then m1 else m2).
Proof. destruct b; auto. Qed.

Lemma quiet_result_match {A B} (r : result A) (f : A -> M B) (g : error -> M B) :
  (forall a, quiet (f a)) -> (forall e, quiet (g e)) ->
  quiet (match r with Ok a => f a | Err e => g e end).
Proof. destruct r; auto. Qed.

Lemma quiet_read {A} env (f : World -> A) : quiet (meta.read env f).
Proof.
  intros w. unfold post_or_crash. rewrite read_run.
  destruct (meta_fault env (meta_calls w)); split; reflexivity.
Qed.

Lemma quiet_RunQuery env sql : quiet (oracle.RunQuery env sql).
Proof.
  intros w. unfold post_or_crash, oracle.RunQuery.
  destruct (Query env sql w); apply same_meta_refl.
Qed.

Lemma quiet_ExecContext sql effect : quiet (oracle.ExecContext sql effect).
Proof.
  intros w. unfold post_or_crash, oracle.ExecContext.
  destruct (effect _); split; reflexivity.
Qed.

#[export] Hint Resolve quiet_ret quiet_fail quiet_crash quiet_lift
  quiet_attempt quiet_read quiet_RunQuery quiet_ExecContext : quiet_db.

Lemma quiet_CloseOracleChunkTask taskName :
  quiet (oracle.CloseOracleChunkTask taskName).
Proof.
  unfold oracle.CloseOracleChunkTask.
  apply quiet_bind; [auto with quiet_db |].
  intros r. apply quiet_result_match; auto with quiet_db.
Qed.

Lemma quiet_StartOracleChunkCreateTask env taskName :
  quiet (oracle.StartOracleChunkCreateTask env taskName).
Proof.
  unfold oracle.StartOracleChunkCreateTask.
  apply quiet_bind; [auto with quiet_db |].
  intros [|r0 rs]; [apply quiet_crash |].
  apply quiet_bind.
  - apply quiet_if; [apply quiet_CloseOracleChunkTask | apply quiet_ret].
  - intros _. apply quiet_bind; [auto with quiet_db |].
    intros r. apply quiet_result_match; auto with quiet_db.
Qed.

Lemma quiet_StartOracleCreateChunkByRowID env taskName schemaName tableName
    chunkSize :
  quiet (oracle.StartOracleCreateChunkByRowID env taskName schemaName
           tableName chunkSize).
Proof.
  unfold oracle.StartOracleCreateChunkByRowID.
  apply quiet_bind; [auto with quiet_db |].
  intros r. apply quiet_result_match; auto with quiet_db.
Qed.

Lemma quiet_GetOracleTableChunksByRowID env taskName :
  quiet (oracle.GetOracleTableChunksByRowID env taskName).
Proof. unfold oracle.GetOracleTableChunksByRowID. auto with quiet_db. Qed.

Lemma quiet_GetOracleCurrentSnapshotSCN env :
  quiet (oracle.GetOracleCurrentSnapshotSCN env).
Proof.
  unfold oracle.GetOracleCurrentSnapshotSCN.
  apply quiet_bind; [auto with quiet_db |].
  intros [|r0 rs]; [apply quiet_crash |].
  apply quiet_result_match; auto with quiet_db.
Qed.

Lemma quiet_getTableNameRule env : quiet (o2m.getTableNameRule env).
Proof.
  unfold o2m.getTableNameRule, meta.DetailTableNameRule.
  apply quiet_bind; auto with quiet_db.
Qed.

Lemma quiet_adjustTableSelectColumn cfg env t coll :
  quiet (o2m.adjustTableSelectColumn cfg env t coll).
Proof. unfold o2m.adjustTableSelectColumn. auto with quiet_db. Qed.

(** ** The chunker: the rows it creates *)

Lemma has_table_row_app_l t n1 n2 :
  has_table_row t n1 -> has_table_row t (n1 ++ n2)%list.
Proof.
  intros (r & Hr & Ht). exists r. split; [apply in_or_app; auto | exact Ht].
Qed.

Lemma has_table_row_app_r t n1 n2 :
  has_table_row t n2 -> has_table_row t (n1 ++ n2)%list.
Proof.
  intros (r & Hr & Ht). exists r. split; [apply in_or_app; auto | exact Ht].
Qed.

Lemma call_run {A} env (issued : list Stmt)
    (body : World -> result (A * World)) w :
  meta.call env issued body w
  = let w1 := fold_left (fun acc s => issue s acc) issued (count_call w) in
    match meta_fault env (meta_calls w) with
    | Some e => Fail e w1
    | None =>
        match body w1 with
        | Ok (a, w2) => Ret a w2
        | Err e => Fail e w1
        end
    end.
Proof. reflexivity. Qed.

Lemma errgroup_some_never_returns (tasks : list (M unit)) :
  forall e w, is_ret (errgroup_run tasks (Some e) w) = false.
Proof.
  induction tasks as [|t tasks IH]; intros e w; simpl; [reflexivity |].
  destruct (t w); auto.
Qed.

Lemma indexed_In {A} (l : list A) :
  forall idx x, In x l -> exists i, In (i, x) (o2m.indexed idx l).
Proof.
  induction l as [|y l IH]; intros idx x; simpl; [intros [] |].
  intros [-> | Hin].
  - exists idx. left. reflexivity.
  - destruct (IH (idx + 1) x Hin) as (i & Hi). exists i. right. exact Hi.
Qed.

Lemma distinct_snapshots_uniform scn (l : list FullSyncMeta.t) :
  l <> [] ->
  Forall (fun r => FullSyncMeta.GlobalScnS r = scn) l ->
  distinct_snapshots l = [scn].
Proof.
  unfold distinct_snapshots.
  induction l as [|r l IH]; intros Hne Hall; [contradiction |].
  inversion Hall as [|? ? Hr Hl]; subst. simpl.
  destruct l as [|r' l].
  - simpl. reflexivity.
  - specialize (IH ltac:(discriminate) Hl).
    destruct (in_dec Z.eq_dec (FullSyncMeta.GlobalScnS r)
                (map FullSyncMeta.GlobalScnS (r' :: l))) as [_ | Hnot];
      [exact IH |].
    exfalso. apply Hnot. simpl. left.
    inversion Hl; subst. assumption.
Qed.

Lemma table_rows_of_created scn t (created : list FullSyncMeta.t) :
  Forall (fun r => FullSyncMeta.GlobalScnS r = scn) created ->
  has_table_row t created ->
  distinct_snapshots (table_rows t created) = [scn].
Proof.
  intros Hall (r & Hin & Ht).
  apply distinct_snapshots_uniform.
  - intros Hnil.
    assert (Hr : In r (table_rows t created)).
    { unfold table_rows. apply filter_In. split; [exact Hin |].
      apply String.eqb_eq. exact Ht. }
    rewrite Hnil in Hr. contradiction.
  - unfold table_rows. apply Forall_forall. intros x Hx.
    apply filter_In in Hx. destruct Hx as (Hx & _).
    rewrite Forall_forall in Hall. apply Hall, Hx.
Qed.

(** ** The chunker: panics *)

Lemma safe_RunQuery env sql : safe (oracle.RunQuery env sql).
Proof.
  intros w. unfold oracle.RunQuery. destruct (Query env sql w); reflexivity.
Qed.

Lemma safe_GetOracleCurrentSnapshotSCN env :
  answers_first_row env -> safe (oracle.GetOracleCurrentSnapshotSCN env).
Proof.
  intros (Hscn & _) w.
  unfold oracle.GetOracleCurrentSnapshotSCN. unfold bind at 1.
  unfold oracle.RunQuery. specialize (Hscn w).
  destruct (Query env _ w) as [[|r0 rs] | e]; [congruence | | reflexivity].
  cbv beta iota.
  destruct (StrconvUintBitSize env (row_get r0 "CURRENT_SCN") 64); reflexivity.
Qed.

Lemma safe_StartOracleChunkCreateTask env taskName :
  answers_first_row env -> safe (oracle.StartOracleChunkCreateTask env taskName).
Proof.
  intros (_ & Hcount) w.
  unfold oracle.StartOracleChunkCreateTask. unfold bind at 1.
  unfold oracle.RunQuery. specialize (Hcount taskName w).
  destruct (Query env _ w) as [[|r0 rs] | e]; [congruence | | reflexivity].
  cbv beta iota.
  match goal with
  | |- is_crash (?m ?x) = false => assert (Hs : safe m); [| apply Hs]
  end.
  apply safe_bind.
  - apply safe_if; [apply safe_CloseOracleChunkTask | apply safe_ret].
  - intros _. apply safe_bind; [auto with safe_db |].
    intros r. apply safe_result_match; auto with safe_db.
Qed.

Lemma safe_StartOracleCreateChunkByRowID env taskName schemaName tableName
    chunkSize :
  safe (oracle.StartOracleCreateChunkByRowID env taskName schemaName
          tableName chunkSize).
Proof.
  unfold oracle.StartOracleCreateChunkByRowID.
  apply safe_bind; [auto with safe_db |].
  intros r. apply safe_result_match; auto with safe_db.
Qed.

Lemma safe_initTable cfg env rules scn parts coll workerID t :
  answers_first_row env ->
  safe (o2m.initTable cfg env rules scn parts coll workerID t).
Proof.
  intros Hsrc. unfold o2m.initTable.
  apply safe_bind; [apply safe_lift |]. intros col.
  apply safe_bind; [apply safe_lift |]. intros rows.
  apply safe_if; [apply safe_call |].
  apply safe_bind; [apply safe_StartOracleChunkCreateTask, Hsrc |]. intros _.
  apply safe_bind; [apply safe_StartOracleCreateChunkByRowID |]. intros _.
  apply safe_bind; [apply safe_RunQuery |]. intros chunkRes.
  apply safe_if; [apply safe_call |].
  apply safe_bind; [apply safe_call |]. intros _.
  apply safe_bind; [apply safe_call |]. intros _.
  apply safe_CloseOracleChunkTask.
Qed.

(** On a source that answers its first-row queries the chunker never
    panics: it returns or fails with an error value. *)
Lemma safe_initWaitSyncTableRowID cfg env tables coll :
  answers_first_row env ->
  safe (o2m.initWaitSyncTableRowID cfg env tables coll).
Proof.
  intros Hsrc. unfold o2m.initWaitSyncTableRowID.
  apply safe_bind.
  { unfold o2m.getTableNameRule. apply safe_bind; [apply safe_call |].
    intros rules. apply safe_ret. }
  intros rules.
  apply safe_bind; [apply safe_GetOracleCurrentSnapshotSCN, Hsrc |].
  intros scn.
  apply safe_bind; [apply safe_lift |]. intros parts.
  apply safe_errgroup. apply Forall_forall. intros task Htask.
  apply in_map_iff in Htask. destruct Htask as (it & <- & _).
  apply safe_initTable, Hsrc.
Qed.

(** The chunker on the scenario source: table [T] with two row-id chunks.
    It returns, and both chunk rows and the table record carry SCN 1000. *)
Example chunker_stamps_two_chunks :
  exists w',
    o2m.initWaitSyncTableRowID (Scenario.cfg true)
      (Scenario.env ["T"] 5
         ["ROWID BETWEEN 'a' AND 'b'"; "ROWID BETWEEN 'c' AND 'd'"]
         Scenario.applyOk Scenario.noFault)
      ["T"] true
      (mkWorld [Scenario.waitRow "T" "WAITING" 0 0 0 0] [] [] [] 0)
    = Ret tt w'
    /\ map FullSyncMeta.GlobalScnS (full_sync_meta w') = [1000; 1000]
    /\ map FullSyncMeta.ChunkDetailS (full_sync_meta w')
       = ["ROWID BETWEEN 'a' AND 'b'"; "ROWID BETWEEN 'c' AND 'd'"]
    /\ wait_sync_meta w' = [Scenario.waitRow "T" "WAITING" 1000 2 0 0].
Proof.
  eexists. split; [vm_compute; reflexivity | repeat split; reflexivity].
Qed.

(** ** Table completion: what the per-table task writes *)

(** What the per-table task writes when the metadata store answers every
    call.  [fullMetas] are the WAITING chunks it loads; after they have run
    (in [w3]) it counts the FAILED chunks of the table.  With none it
    deletes the table's FullSync rows and records SUCCESS with
    [chunk_success = len(fullMetas)]; otherwise it keeps the rows and
    records FAILED with [chunk_failed] the count and
    [chunk_success = len(fullMetas) - chunk_failed]. *)
Lemma syncTable_completion cfg env (t : string) (w : World) :
  (forall n, meta_fault env n = None) ->
  let table := common.StringUPPER t in
  let schema := o2m.schemaUPPER cfg in
  let running :=
    meta.update_where
      (meta.wait_matches (o2m.waitQuery cfg (OracleSchemaName cfg) table "" 0 0))
      (WaitSyncMeta.apply
         (WaitSyncMeta.mkPatch (Some common.TaskStatusRunning)
            None None None None None))
      (wait_sync_meta w) in
  let fullMetas :=
    filter (meta.full_matches
              (o2m.fullQuery cfg schema table common.TaskStatusWaiting))
           (full_sync_meta w) in
  exists w2 w3 w',
    full_sync_meta w2 = full_sync_meta w
    /\ wait_sync_meta w2 = running
    /\ o2m.syncChunks cfg env fullMetas w2 = Ret tt w3
    /\ wait_sync_meta w3 = running
    /\ o2m.syncTable cfg env t w = Ret tt w'
    /\ let totalErrs :=
         meta.count_where
           (meta.full_matches
              (o2m.fullQuery cfg schema table common.TaskStatusFailed))
           (full_sync_meta w3) in
       if totalErrs =? 0 then
         full_sync_meta w'
         = meta.delete_where
             (meta.full_matches (o2m.fullQuery cfg schema table ""))
             (full_sync_meta w3)
         /\ wait_sync_meta w'
            = meta.update_where
                (meta.wait_matches (o2m.waitQuery cfg schema table "" 0 0))
                (WaitSyncMeta.apply
                   (WaitSyncMeta.mkPatch (Some common.TaskStatusSuccess)
                      None None
                      (Some (Z.of_nat (List.length fullMetas))) (Some 0) None))
                running
       else
         full_sync_meta w' = full_sync_meta w3
         /\ wait_sync_meta w'
            = meta.update_where
                (meta.wait_matches (o2m.waitQuery cfg schema table "" 0 0))
                (WaitSyncMeta.apply
                   (WaitSyncMeta.mkPatch (Some common.TaskStatusFailed)
                      None None
                      (Some (Z.of_nat (List.length fullMetas) - totalErrs))
                      (Some totalErrs) None))
                running.
Proof.
  intros Hnf table schema running fullMetas.
  unfold o2m.syncTable. fold table. fold schema.
  (* the table is marked RUNNING *)
  unfold meta.UpdateWaitSyncMeta at 1.
  unfold bind at 1. rewrite write_run, Hnf.
  (* its WAITING chunks are loaded *)
  unfold meta.DetailFullSyncMeta.
  unfold bind at 1. rewrite read_run, Hnf.
  cbv beta iota.
  match goal with
  | |- context [bind (o2m.syncChunks cfg env ?ms) _ ?x] =>
      change ms with fullMetas; set (w2 := x)
  end.
  (* the inner group *)
  destruct (syncChunks_run cfg env fullMetas None w2)
    as (w3 & Hcase & _ & Hw3 & _ & _).
  destruct Hcase as [(_ & _ & Hrun) | (Hwhy & _)].
  2:{ exfalso. destruct Hwhy as [Hf | (i & _ & Hfi)]; [congruence |].
      apply Hfi, Hnf. }
  assert (Hchunks : o2m.syncChunks cfg env fullMetas w2 = Ret tt w3) by exact Hrun.
  exists w2, w3.
  unfold bind at 1. rewrite Hchunks.
  (* the count of FAILED chunks *)
  unfold meta.CountsErrorFullSyncMeta.
  unfold bind at 1. unfold attempt. rewrite read_run, Hnf.
  change (full_sync_meta (count_call w3)) with (full_sync_meta w3).
  set (totalErrs := meta.count_where _ (full_sync_meta w3)).
  destruct (totalErrs =? 0).
  - unfold meta.DeleteTableFullSyncMetaAndUpdateWaitSyncMeta.
    rewrite write_run, Hnf.
    eexists. split; [reflexivity |]. split; [reflexivity |].
    split; [reflexivity |]. split; [exact Hw3 |]. split; [reflexivity |].
    simpl. rewrite Hw3. split; reflexivity.
  - unfold meta.UpdateWaitSyncMeta. rewrite write_run, Hnf.
    eexists. split; [reflexivity |]. split; [reflexivity |].
    split; [reflexivity |]. split; [exact Hw3 |]. split; [reflexivity |].
    simpl. rewrite Hw3. split; reflexivity.
Qed.

(** * Further properties of the code *)

(** ** Strings *)

Lemma append_assoc (a b c : string) : ((a ++ b) ++ c = a ++ (b ++ c))%string.
Proof.
  induction a as [|ch a IH]; simpl; [reflexivity | rewrite IH; reflexivity].
Qed.

Lemma append_nil_r (a : string) : (a ++ "")%string = a.
Proof.
  induction a as [|ch a IH]; simpl; [reflexivity | rewrite IH; reflexivity].
Qed.

(** ** The SELECT projection *)

Lemma columnFragment_aliased (rowCol : row) (f : string) :
  Projection.columnFragment rowCol = Ok f ->
  aliased (row_get rowCol "COLUMN_NAME") f.
Proof.
  unfold Projection.columnFragment, aliased, common.StringsBuilder.
  set (name := row_get rowCol "COLUMN_NAME").
  repeat match goal with
         | |- context [if ?b then _ else _] => destruct b
         | |- context [match ?r with Ok _ => _ | Err _ => _ end] => destruct r
         end;
    intros H; try discriminate; injection H as <-;
    try (left; reflexivity); right.
  - exists (" XMLSERIALIZE(CONTENT " ++ name ++ " AS CLOB)").
    rewrite !append_assoc. reflexivity.
  - exists ("TO_CHAR(" ++ name ++ ",'yyyy-MM-dd HH24:mi:ss')").
    cbn [String.concat]. rewrite !append_assoc. reflexivity.
  - exists ("TO_CHAR(" ++ name ++ ")").
    cbn [String.concat]. rewrite !append_assoc. reflexivity.
  - exists ("TO_CHAR(" ++ name ++ ",'yyyy-mm-dd hh24:mi:ss')").
    cbn [String.concat]. rewrite !append_assoc. reflexivity.
  - exists ("TO_CHAR(" ++ name ++ ",'yyyy-mm-dd hh24:mi:ss.ff"
              ++ row_get rowCol "DATA_SCALE" ++ "')").
    cbn [String.concat]. rewrite !append_assoc. reflexivity.
  - exists ("TO_CHAR(" ++ name ++ ",'yyyy-mm-dd hh24:mi:ss.ff6')").
    cbn [String.concat]. rewrite !append_assoc. reflexivity.
Qed.

Lemma columnFragments_aliased (cols : list row) :
  forall frags,
    Projection.columnFragments cols = Ok frags ->
    Forall2 (fun rowCol f => aliased (row_get rowCol "COLUMN_NAME") f)
            cols frags.
Proof.
  induction cols as [|c cols IH]; intros frags; simpl.
  - intros H. injection H as <-. constructor.
  - destruct (Projection.columnFragment c) as [f | e] eqn:Hf; [| discriminate].
    destruct (Projection.columnFragments cols) as [fs | e]; [| discriminate].
    intros H. injection H as <-.
    constructor; [apply columnFragment_aliased, Hf | apply IH; reflexivity].
Qed.

(** X1.  When the projection succeeds it is the comma-join of one fragment
    per column, in column order, and every fragment yields a column with
    the name of its source column: the bare column, or an expression
    ending in [AS] that name. *)
Theorem projection_keeps_column_names :
  forall (columnsINFO : list row) (projection : string),
    Projection.adjustTableSelectColumn (Ok columnsINFO) = Ok projection ->
    exists frags,
      projection = GoStrings.Join frags ","
      /\ Forall2 (fun rowCol f => aliased (row_get rowCol "COLUMN_NAME") f)
                 columnsINFO frags.
Proof.
  intros cols s. unfold Projection.adjustTableSelectColumn.
  destruct (Projection.columnFragments cols) as [frags | e] eqn:Hf;
    [| discriminate].
  intros H. injection H as <-. exists frags.
  split; [reflexivity | apply columnFragments_aliased, Hf].
Qed.

(** The theorem on a table with a plain, a DATE and an XMLTYPE column. *)
Lemma projection_keeps_column_names_witness :
  exists frags,
    "ID,TO_CHAR(D,'yyyy-MM-dd HH24:mi:ss') AS D, XMLSERIALIZE(CONTENT X AS CLOB) AS X"
    = GoStrings.Join frags ","
    /\ Forall2 (fun rowCol f => aliased (row_get rowCol "COLUMN_NAME") f)
         [ [("COLUMN_NAME", "ID"); ("DATA_TYPE", "NUMBER")];
           [("COLUMN_NAME", "D"); ("DATA_TYPE", "date")];
           [("COLUMN_NAME", "X"); ("DATA_TYPE", "XMLTYPE")] ]
         frags.
Proof.
  apply (@projection_keeps_column_names
           [ [("COLUMN_NAME", "ID"); ("DATA_TYPE", "NUMBER")];
             [("COLUMN_NAME", "D"); ("DATA_TYPE", "date")];
             [("COLUMN_NAME", "X"); ("DATA_TYPE", "XMLTYPE")] ]).
  reflexivity.
Defined.

Lemma columnFragment_error (rowCol : row) (e : error) :
  Projection.columnFragment rowCol = Err e ->
  timestamp_column rowCol = true /\ scale_parses rowCol = false.
Proof.
  unfold Projection.columnFragment, timestamp_column, scale_parses.
  destruct (common.IsContainString _ _); [discriminate |].
  destruct (String.eqb _ "XMLTYPE"); [discriminate |].
  destruct (String.eqb _ "DATE"); [discriminate |].
  destruct (GoStrings.Contains _ "INTERVAL"); [discriminate |].
  destruct (GoStrings.Contains _ "TIMESTAMP"); [| discriminate].
  destruct (GoStrings.Atoi _) as [sc | e'].
  - repeat match goal with
           | |- context [if ?b then _ else _] => destruct b
           end; discriminate.
  - intros _. split; reflexivity.
Qed.

Lemma columnFragment_ok (rowCol : row) :
  timestamp_column rowCol && negb (scale_parses rowCol) = false ->
  exists f, Projection.columnFragment rowCol = Ok f.
Proof.
  intros H.
  destruct (Projection.columnFragment rowCol) as [f | e] eqn:Hf; [eauto |].
  apply columnFragment_error in Hf. destruct Hf as (Ht & Hs).
  rewrite Ht, Hs in H. discriminate.
Qed.

(** X2.  The projection of a table fails exactly when one of its columns
    is treated as a timestamp and has a DATA_SCALE that is no integer (an
    empty one, for instance); columns of every other type never make it
    fail, whatever their metadata. *)
Theorem projection_fails_only_on_timestamp_scale :
  forall (columnsINFO : list row),
    (exists e, Projection.adjustTableSelectColumn (Ok columnsINFO) = Err e)
    <-> existsb (fun rowCol => timestamp_column rowCol
                               && negb (scale_parses rowCol)) columnsINFO
        = true.
Proof.
  intros cols. unfold Projection.adjustTableSelectColumn.
  induction cols as [|c cols IH]; simpl.
  - split; [intros (e & H); discriminate | discriminate].
  - destruct (timestamp_column c && negb (scale_parses c)) eqn:Hc; simpl.
    + split; [reflexivity | intros _].
      destruct (Projection.columnFragment c) as [f | e] eqn:Hf; [| eauto].
      exfalso. apply andb_prop in Hc. destruct Hc as (Ht & Hs).
      unfold scale_parses in Hs. unfold Projection.columnFragment in Hf.
      unfold timestamp_column in Ht.
      repeat (apply andb_prop in Ht; destruct Ht as [Ht ?]).
      repeat match goal with
             | H : negb ?b = true |- _ =>
                 apply negb_true_iff in H; rewrite H in Hf
             end.
      match goal with
      | H : GoStrings.Contains _ "TIMESTAMP" = true |- _ => rewrite H in Hf
      end.
      destruct (GoStrings.Atoi _); discriminate.
    + destruct (columnFragment_ok c Hc) as (f & Hf). rewrite Hf.
      destruct (Projection.columnFragments cols) as [fs | e].
      * split; [intros (e & H); discriminate |].
        intros H. apply IH in H. destruct H as (e & H). discriminate.
      * split; [intros _; apply IH; eauto | eauto].
Qed.

Lemma timestamp_column_tests (rowCol : row) :
  timestamp_column rowCol = true ->
  common.IsContainString Projection.plain_types
    (GoStrings.ToUpper (row_get rowCol "DATA_TYPE")) = false
  /\ String.eqb (GoStrings.ToUpper (row_get rowCol "DATA_TYPE")) "XMLTYPE"
     = false
  /\ String.eqb (GoStrings.ToUpper (row_get rowCol "DATA_TYPE")) "DATE" = false
  /\ GoStrings.Contains (row_get rowCol "DATA_TYPE") "INTERVAL" = false
  /\ GoStrings.Contains (row_get rowCol "DATA_TYPE") "TIMESTAMP" = true.
Proof.
  unfold timestamp_column. intros H.
  apply andb_prop in H. destruct H as (H & Hts).
  apply andb_prop in H. destruct H as (H & Hint).
  apply andb_prop in H. destruct H as (H & Hdate).
  apply andb_prop in H. destruct H as (Hplain & Hxml).
  apply negb_true_iff in Hplain, Hxml, Hdate, Hint. auto.
Qed.

(** X3.  A TIMESTAMP column is projected by the sign of its scale, not by
    its size: scale 0 gives the second-precision format, every positive
    scale (1 to 6 and above alike) the [.ff6] format, and only a negative
    scale reaches the branch that writes the scale text after [.ff]. *)
Theorem timestamp_projection_by_scale_sign :
  forall (rowCol : row) (dataScale : Z),
    timestamp_column rowCol = true ->
    GoStrings.Atoi (row_get rowCol "DATA_SCALE") = Ok dataScale ->
    Projection.columnFragment rowCol
    = Ok ("TO_CHAR(" ++ row_get rowCol "COLUMN_NAME"
            ++ ",'yyyy-mm-dd hh24:mi:ss"
            ++ (if dataScale =? 0 then ""
                else if 0 <? dataScale then ".ff6"
                else ".ff" ++ row_get rowCol "DATA_SCALE")
            ++ "') AS " ++ row_get rowCol "COLUMN_NAME").
Proof.
  intros rowCol dataScale Hts Hscale.
  destruct (timestamp_column_tests rowCol Hts)
    as (Hplain & Hxml & Hdate & Hint & Hcont).
  rewrite (timestamp_fragment_by_scale rowCol Hplain Hxml Hdate Hint Hcont
             Hscale).
  unfold common.StringsBuilder.
  destruct (Z.eqb_spec dataScale 0) as [E | E].
  - simpl. rewrite ?append_assoc. reflexivity.
  - destruct (Z.ltb_spec dataScale 0) as [Hneg | Hpos];
      destruct (Z.ltb_spec 0 dataScale) as [Hp | Hn]; try lia;
      simpl; rewrite ?append_assoc; reflexivity.
Qed.

(** The theorem at the column [ts TIMESTAMP(3)]. *)
Lemma timestamp_projection_by_scale_sign_witness :
  Projection.columnFragment Projection.ts_timestamp3
  = Ok "TO_CHAR(ts,'yyyy-mm-dd hh24:mi:ss.ff6') AS ts".
Proof.
  exact (@timestamp_projection_by_scale_sign Projection.ts_timestamp3 3
           eq_refl eq_refl).
Defined.

(** ** The row reader *)

Lemma concat_app_nonempty (sep : string) (l1 l2 : list string) :
  l1 <> [] -> l2 <> [] ->
  String.concat sep (l1 ++ l2)%list
  = (String.concat sep l1 ++ sep ++ String.concat sep l2)%string.
Proof.
  intros H1 H2. induction l1 as [|x l1 IH]; [contradiction |].
  destruct l1 as [|y l1].
  - simpl. destruct l2; [contradiction | reflexivity].
  - change (String.concat sep ((x :: y :: l1) ++ l2)%list)
      with (x ++ sep ++ String.concat sep ((y :: l1) ++ l2)%list)%string.
    rewrite IH by discriminate.
    change (String.concat sep (x :: y :: l1))
      with (x ++ sep ++ String.concat sep (y :: l1))%string.
    rewrite !append_assoc. reflexivity.
Qed.

(** Joining the joins of non-empty groups is joining their concatenation. *)
Lemma concat_joined_groups (sep : string) (groups : list (list string)) :
  Forall (fun g => g <> []) groups ->
  String.concat sep (map (String.concat sep) groups)
  = String.concat sep (List.concat groups).
Proof.
  induction 1 as [|g gs Hg Hgs IH]; [reflexivity |].
  destruct gs as [|g' gs].
  - simpl. rewrite app_nil_r. reflexivity.
  - change (String.concat sep (map (String.concat sep) (g :: g' :: gs)))
      with (String.concat sep g ++ sep
              ++ String.concat sep (map (String.concat sep) (g' :: gs)))%string.
    rewrite IH.
    change (List.concat (g :: g' :: gs))
      with (g ++ List.concat (g' :: gs))%list.
    rewrite concat_app_nonempty; [reflexivity | exact Hg |].
    inversion Hgs as [|? ? Hg' _]; subst.
    simpl. destruct g'; [contradiction | discriminate].
Qed.

Lemma groupTuples_nonempty (n : Z) (tuples : list string) :
  forall rowsTMP groups,
    Forall (fun g => g <> []) groups ->
    Forall (fun g => g <> []) (groupTuples n tuples rowsTMP groups).
Proof.
  induction tuples as [|t rest IH]; intros rowsTMP groups Hg; simpl.
  - destruct rowsTMP as [|x tmp]; simpl; [exact Hg |].
    apply Forall_app. split; [exact Hg |].
    constructor; [discriminate | constructor].
  - destruct (Z.of_nat (List.length (rowsTMP ++ [t])) =? n).
    + apply IH. apply Forall_app. split; [exact Hg |].
      constructor; [| constructor]. destruct rowsTMP; discriminate.
    + apply IH, Hg.
Qed.

(** The number of batches for a positive batch size. *)
Lemma groupTuples_count (n : Z) (tuples : list string) :
  1 <= n ->
  forall rowsTMP groups,
    Z.of_nat (List.length rowsTMP) < n ->
    Z.of_nat (List.length (groupTuples n tuples rowsTMP groups))
    = Z.of_nat (List.length groups)
      + (Z.of_nat (List.length rowsTMP) + Z.of_nat (List.length tuples)
         + n - 1) / n.
Proof.
  intros Hn. induction tuples as [|t rest IH]; intros rowsTMP groups Htmp.
  - change (List.length (@nil string)) with 0%nat.
    change (groupTuples n [] rowsTMP groups)
      with (if 0 <? Z.of_nat (List.length rowsTMP)
            then (groups ++ [rowsTMP])%list else groups).
    destruct rowsTMP as [|x tmp].
    + simpl. rewrite Z.div_small by lia. lia.
    + replace (0 <? Z.of_nat (List.length (x :: tmp))) with true
        by (symmetry; apply Z.ltb_lt; simpl List.length; lia).
      rewrite length_app. change (List.length [x :: tmp]) with 1%nat.
      set (k := Z.of_nat (List.length (x :: tmp))) in *.
      assert (Hk : 0 < k) by (unfold k; simpl List.length; lia).
      assert (Hd : (k + Z.of_nat 0 + n - 1) / n = 1).
      { symmetry. apply Z.div_unique with (r := k - 1); lia. }
      rewrite Hd. lia.
  - assert (Hlen : Z.of_nat (List.length (rowsTMP ++ [t]))
                   = Z.of_nat (List.length rowsTMP) + 1).
    { rewrite length_app. simpl. lia. }
    assert (Hcons : Z.of_nat (List.length (t :: rest))
                    = Z.of_nat (List.length rest) + 1).
    { simpl List.length. lia. }
    rewrite Hcons.
    change (groupTuples n (t :: rest) rowsTMP groups)
      with (if Z.of_nat (List.length (rowsTMP ++ [t])) =? n
            then groupTuples n rest [] (groups ++ [(rowsTMP ++ [t])%list])%list
            else groupTuples n rest (rowsTMP ++ [t])%list groups).
    destruct (Z.eqb_spec (Z.of_nat (List.length (rowsTMP ++ [t]))) n) as [E | E].
    + rewrite IH by (simpl; lia).
      rewrite length_app. change (List.length [(rowsTMP ++ [t])%list]) with 1%nat.
      change (List.length (@nil string)) with 0%nat.
      replace (Z.of_nat (List.length rowsTMP)
               + (Z.of_nat (List.length rest) + 1) + n - 1)
        with ((Z.of_nat 0 + Z.of_nat (List.length rest) + n - 1) + 1 * n) by lia.
      rewrite Z.div_add by lia. lia.
    + rewrite IH by lia. rewrite Hlen.
      replace (Z.of_nat (List.length rowsTMP) + 1
               + Z.of_nat (List.length rest) + n - 1)
        with (Z.of_nat (List.length rowsTMP)
              + (Z.of_nat (List.length rest) + 1) + n - 1) by lia.
      reflexivity.
Qed.

Section ReaderFacts.
Variable Float : Type.
Variable Decimal : Type.
Variable StrconvIntBitSize : string -> Z -> result Z.
Variable StrconvUintBitSize : string -> Z -> result Z.
Variable StrconvFloatBitSize : string -> Z -> result Float.
Variable StrconvRune : string -> result Z.
Variable fmt_float : Float -> string.
Variable decimal_NewFromString : string -> result Decimal.
Variable decimal_IsInteger : Decimal -> bool.

Local Abbreviation encodeValue' :=
  (Reader.encodeValue StrconvIntBitSize StrconvUintBitSize
     StrconvFloatBitSize StrconvRune fmt_float
     decimal_NewFromString decimal_IsInteger).
Local Abbreviation encodeRow' :=
  (Reader.encodeRow StrconvIntBitSize StrconvUintBitSize
     StrconvFloatBitSize StrconvRune fmt_float
     decimal_NewFromString decimal_IsInteger).
Local Abbreviation scannedTuple' :=
  (Reader.scannedTuple StrconvIntBitSize StrconvUintBitSize
     StrconvFloatBitSize StrconvRune fmt_float
     decimal_NewFromString decimal_IsInteger).
Local Abbreviation scanRows' :=
  (Reader.scanRows StrconvIntBitSize StrconvUintBitSize
     StrconvFloatBitSize StrconvRune fmt_float
     decimal_NewFromString decimal_IsInteger).
Local Abbreviation getRows' :=
  (Reader.GetOracleTableRowsData StrconvIntBitSize StrconvUintBitSize
     StrconvFloatBitSize StrconvRune fmt_float
     decimal_NewFromString decimal_IsInteger).
Local Abbreviation clean :=
  (reads_cleanly StrconvIntBitSize StrconvUintBitSize
     StrconvFloatBitSize StrconvRune fmt_float
     decimal_NewFromString decimal_IsInteger).

Lemma encodeRow_literals (columnTypes : list string) :
  forall raws i rowsResult res,
    encodeRow' columnTypes i raws rowsResult = (res, None) ->
    exists lits,
      res = (rowsResult ++ lits)%list
      /\ List.length lits = List.length raws
      /\ forall k raw lit,
           nth_error raws k = Some raw -> nth_error lits k = Some lit ->
           encodeValue' (nth (i + k) columnTypes "") raw = Ok lit.
Proof.
  induction raws as [|raw raws IH]; intros i acc res; simpl.
  - intros H. injection H as <-. exists []. rewrite app_nil_r.
    split; [reflexivity |]. split; [reflexivity |].
    intros k r l Hk. destruct k; discriminate.
  - destruct (encodeValue' (nth i columnTypes "") raw) as [lit | e] eqn:He;
      [| discriminate].
    intros H. apply IH in H. destruct H as (lits & -> & Hlen & Hnth).
    exists (lit :: lits). rewrite <- app_assoc.
    split; [reflexivity |]. split; [simpl; congruence |].
    intros k r l Hr Hl. destruct k as [|k]; simpl in Hr, Hl.
    + injection Hr as <-. injection Hl as <-.
      rewrite Nat.add_0_r. exact He.
    + replace (i + S k)%nat with (S i + k)%nat by lia.
      apply (Hnth k r l Hr Hl).
Qed.

(** X4.  The tuple of a scanned row holds one literal per scanned value,
    in column order, between parentheses and separated by commas; literal
    [k] is the encoding of value [k] under the scan type of column [k]. *)
Theorem tuple_has_one_literal_per_column :
  forall (columnTypes : list string) (raws : list (option string))
         (tuple : string),
    scannedTuple' columnTypes (Ok raws) = Some tuple ->
    exists lits,
      tuple = ("(" ++ GoStrings.Join lits "," ++ ")")%string
      /\ List.length lits = List.length raws
      /\ forall k raw lit,
           nth_error raws k = Some raw -> nth_error lits k = Some lit ->
           encodeValue' (nth k columnTypes "") raw = Ok lit.
Proof.
  intros cts raws tuple. unfold Reader.scannedTuple.
  destruct (encodeRow' cts 0%nat raws []) as [res [[ct e] |]] eqn:Hrow;
    [discriminate |].
  intros H. injection H as <-.
  apply encodeRow_literals in Hrow. destruct Hrow as (lits & -> & Hlen & Hnth).
  exists lits. split; [reflexivity |]. split; [exact Hlen | exact Hnth].
Qed.

Lemma scanRows_no_error (n : Z) (columnTypes : list string) :
  forall rows rows_err rowsTMP batchResults out,
    scanRows' n columnTypes rows rows_err rowsTMP batchResults = (out, None) ->
    rows_err = None
    /\ exists tuples, map (scannedTuple' columnTypes) rows = map Some tuples.
Proof.
  induction rows as [|r rows IH]; intros rerr tmp b out; simpl.
  - destruct rerr; [discriminate |]. intros _.
    split; [reflexivity | exists []; reflexivity].
  - destruct r as [raws | e]; [| discriminate].
    destruct (encodeRow' columnTypes 0%nat raws []) as [res [[ct e] |]] eqn:Hrow.
    { destruct (String.eqb ct "godror.Number"); discriminate. }
    destruct (Z.of_nat (List.length (tmp ++ [Reader.rowTuple res])) =? n);
      intros H; apply IH in H; destruct H as (-> & tuples & Ht);
      (split; [reflexivity |]); exists (Reader.rowTuple res :: tuples);
      simpl; rewrite Hrow, Ht; reflexivity.
Qed.

(** What a clean read returns: the back-quoted column names and the joins
    of the groups the batching loop forms. *)
Lemma rows_data_of_clean_read (q : Reader.QueryResult) (n : Z)
    (colTypes : list (string * string)) (tuples : list string) :
  clean q colTypes tuples ->
  exists cols,
    getRows' q n = (cols, map joinBatch (groupTuples n tuples [] []), None).
Proof.
  intros (Hq & (tmpCols & Hc) & Ht & He & Hrows).
  unfold Reader.GetOracleTableRowsData. rewrite Hq, Hc, Ht, He.
  pose proof (@scanRows_groups _ _ StrconvIntBitSize StrconvUintBitSize
                StrconvFloatBitSize StrconvRune fmt_float
                decimal_NewFromString decimal_IsInteger n
                (map fst colTypes) (Reader.qr_rows q) tuples [] [] Hrows) as Hs.
  change (map joinBatch []) with (@nil string) in Hs.
  rewrite Hs. eauto.
Qed.

(** X5.  The reader returns a nil error exactly when the read is clean:
    no error from the query, its columns, its column types or the closing
    [rows.Err()], and every row scanned and encoded.  It never returns
    without error after skipping a row. *)
Theorem reader_succeeds_iff_every_row_encodes :
  forall (q : Reader.QueryResult) (insertBatchSize : Z),
    snd (getRows' q insertBatchSize) = None
    <-> exists colTypes tuples, clean q colTypes tuples.
Proof.
  intros q n. split.
  - unfold Reader.GetOracleTableRowsData, reads_cleanly.
    destruct (Reader.qr_query_err q); [discriminate |].
    destruct (Reader.qr_columns q) as [tmpCols | e]; [| discriminate].
    destruct (Reader.qr_column_types q) as [colTypes | e]; [| discriminate].
    destruct (scanRows' n (map fst colTypes) (Reader.qr_rows q)
                (Reader.qr_rows_err q) [] []) as [b err] eqn:Hs.
    simpl. intros ->. apply scanRows_no_error in Hs.
    destruct Hs as (He & tuples & Ht).
    exists colTypes, tuples. repeat split; eauto.
  - intros (colTypes & tuples & Hclean).
    destruct (rows_data_of_clean_read n Hclean) as (cols & ->). reflexivity.
Qed.

(** X6.  Batching loses and adds nothing: joined with commas, the batches
    of a clean read are the tuples of all its rows in order, joined with
    commas, whatever the batch size. *)
Theorem batches_join_to_all_tuples :
  forall (q : Reader.QueryResult) (insertBatchSize : Z)
         (colTypes : list (string * string)) (tuples : list string),
    clean q colTypes tuples ->
    GoStrings.Join (snd (fst (getRows' q insertBatchSize))) ","
    = GoStrings.Join tuples ",".
Proof.
  intros q n colTypes tuples Hclean.
  destruct (rows_data_of_clean_read n Hclean) as (cols & ->). simpl.
  unfold GoStrings.Join, joinBatch, GoStrings.Join.
  rewrite concat_joined_groups.
  - rewrite groupTuples_concat. reflexivity.
  - apply groupTuples_nonempty. constructor.
Qed.

(** X7.  For a batch size of at least 1 a clean read of [k] rows returns
    [ceil(k / insertBatchSize)] batches. *)
Theorem batch_count_is_ceiling :
  forall (q : Reader.QueryResult) (insertBatchSize : Z)
         (colTypes : list (string * string)) (tuples : list string),
    clean q colTypes tuples ->
    1 <= insertBatchSize ->
    Z.of_nat (List.length (snd (fst (getRows' q insertBatchSize))))
    = (Z.of_nat (List.length tuples) + insertBatchSize - 1) / insertBatchSize.
Proof.
  intros q n colTypes tuples Hclean Hn.
  destruct (rows_data_of_clean_read n Hclean) as (cols & ->). simpl.
  rewrite length_map.
  rewrite (@groupTuples_count n tuples Hn [] []);
    [| change (List.length (@nil string)) with 0%nat; lia].
  change (List.length (@nil string)) with 0%nat.
  change (List.length (@nil (list string))) with 0%nat.
  change (Z.of_nat 0) with 0. rewrite !Z.add_0_l. reflexivity.
Qed.

End ReaderFacts.

(** The five rows of the scenario read cleanly. *)
Lemma fiveRows_clean :
  reads_cleanly (fun s _ => GoStrings.parse_int64 "ParseInt" s)
    Scenario.parseUint Scenario.noFloat
    (fun s => GoStrings.parse_int64 "ParseInt" s) GoStrings.Itoa
    Scenario.noDecimal (fun _ => true)
    Scenario.fiveRows
    [("int64", "NUMBER"); ("string", "VARCHAR2")]
    ["(1,'a')"; "(2,NULL)"; "(3,NULL)"; "(4,'d\'e')"; "(5,'f')"].
Proof.
  unfold reads_cleanly. split; [reflexivity |].
  split; [exists ["ID"; "NAME"]; reflexivity |].
  split; [reflexivity |]. split; reflexivity.
Defined.

(** The theorem at the fourth row of the scenario. *)
Lemma tuple_has_one_literal_per_column_witness :
  exists lits,
    "(4,'d\'e')" = ("(" ++ GoStrings.Join lits "," ++ ")")%string
    /\ List.length lits = 2%nat
    /\ forall k raw lit,
         nth_error [Some "4"; Some "d'e"] k = Some raw ->
         nth_error lits k = Some lit ->
         Scenario.encode (nth k ["int64"; "string"] "") raw = Ok lit.
Proof.
  exact (@tuple_has_one_literal_per_column Z Z
           (fun s _ => GoStrings.parse_int64 "ParseInt" s)
           Scenario.parseUint Scenario.noFloat
           (fun s => GoStrings.parse_int64 "ParseInt" s) GoStrings.Itoa
           Scenario.noDecimal (fun _ => true)
           ["int64"; "string"] [Some "4"; Some "d'e"] "(4,'d\'e')" eq_refl).
Defined.

(** The theorem at the five rows of the scenario with a batch size of 2. *)
Lemma batches_join_to_all_tuples_witness :
  GoStrings.Join (snd (fst (Scenario.getRows Scenario.fiveRows 2))) ","
  = "(1,'a'),(2,NULL),(3,NULL),(4,'d\'e'),(5,'f')".
Proof.
  exact (@batches_join_to_all_tuples Z Z
           (fun s _ => GoStrings.parse_int64 "ParseInt" s)
           Scenario.parseUint Scenario.noFloat
           (fun s => GoStrings.parse_int64 "ParseInt" s) GoStrings.Itoa
           Scenario.noDecimal (fun _ => true)
           Scenario.fiveRows 2 _ _ fiveRows_clean).
Defined.

(** Five rows in batches of 2: three batches. *)
Lemma batch_count_is_ceiling_witness :
  1 <= 2
  /\ Z.of_nat (List.length (snd (fst (Scenario.getRows Scenario.fiveRows 2))))
     = 3.
Proof.
  assert (H : 1 <= 2) by lia.
  split; [exact H |].
  exact (@batch_count_is_ceiling Z Z
           (fun s _ => GoStrings.parse_int64 "ParseInt" s)
           Scenario.parseUint Scenario.noFloat
           (fun s => GoStrings.parse_int64 "ParseInt" s) GoStrings.Itoa
           Scenario.noDecimal (fun _ => true)
           Scenario.fiveRows 2 _ _ fiveRows_clean H).
Defined.

(** ** The orchestrator: what a table task leaves in the store *)

Lemma chunk_work_apply (p : FullSyncMeta.patch) (r : FullSyncMeta.t) :
  chunk_work (FullSyncMeta.apply p r) = chunk_work r.
Proof. reflexivity. Qed.

Lemma settles_refl (r : FullSyncMeta.t) : settles r r.
Proof. split; [reflexivity | left; reflexivity]. Qed.

Lemma settles_trans (r1 r2 r3 : FullSyncMeta.t) :
  settles r1 r2 -> settles r2 r3 -> settles r1 r3.
Proof.
  intros (Hw1 & Hs1) (Hw2 & Hs2). split; [congruence |].
  destruct Hs2 as [-> | Hs2]; [exact Hs1 | right; exact Hs2].
Qed.

Lemma settles_all_refl (l : list FullSyncMeta.t) : Forall2 settles l l.
Proof. induction l; constructor; auto using settles_refl. Qed.

Lemma settles_all_trans (l1 l2 l3 : list FullSyncMeta.t) :
  Forall2 settles l1 l2 -> Forall2 settles l2 l3 -> Forall2 settles l1 l3.
Proof.
  intros H12. revert l3. induction H12 as [|a b l1 l2 Hab _ IH];
    intros l3 H23; inversion H23; subst; constructor;
    eauto using settles_trans.
Qed.

Lemma settles_outcome (c : FullSyncMeta.t -> bool) (m : FullSyncMeta.t)
    (se : option error) (l : list FullSyncMeta.t) :
  Forall2 settles l
    (meta.update_where c (FullSyncMeta.apply (outcomePatch m se)) l).
Proof.
  unfold meta.update_where.
  induction l as [|r l IH]; simpl; constructor; [| exact IH].
  destruct (c r); [| apply settles_refl].
  split; [apply chunk_work_apply |].
  right. destruct se; [right | left]; reflexivity.
Qed.

(** The inner group, whatever the store's faults: it returns or fails,
    never touches [wait_sync_meta], and settles rows of [full_sync_meta]. *)
Lemma syncChunks_frame cfg env (ms : list FullSyncMeta.t) :
  forall (first : option error) (w : World),
  exists w',
    (errgroup_run (map (o2m.syncChunk cfg env) ms) first w = Ret tt w'
     \/ exists e,
          errgroup_run (map (o2m.syncChunk cfg env) ms) first w = Fail e w')
    /\ wait_sync_meta w' = wait_sync_meta w
    /\ Forall2 settles (full_sync_meta w) (full_sync_meta w').
Proof.
  induction ms as [|m ms IH]; intros first w.
  - exists w. simpl. split; [destruct first; eauto |].
    split; [reflexivity | apply settles_all_refl].
  - destruct (syncChunk_run cfg env m w) as (w1 & Hrun & _ & Hw1 & _ & _).
    simpl map. simpl errgroup_run.
    destruct (meta_fault env (meta_calls w)) as [errf |].
    + destruct Hrun as ((msg & Hrun) & Hf1). rewrite Hrun.
      destruct (IH (match first with None => Some msg | Some _ => first end) w1)
        as (w' & Hcase & Hw & Hf).
      exists w'. split; [exact Hcase |]. split; [congruence |].
      rewrite <- Hf1. exact Hf.
    + destruct Hrun as (Hrun & Hf1). rewrite Hrun.
      destruct (IH first w1) as (w' & Hcase & Hw & Hf).
      exists w'. split; [exact Hcase |]. split; [congruence |].
      apply settles_all_trans with (l2 := full_sync_meta w1); [| exact Hf].
      rewrite Hf1. apply settles_outcome.
Qed.

(** X8.  The chunk workers of a table never add or delete a FullSync row
    and never touch [wait_sync_meta], whether the store fails or not: the
    group returns or fails (it does not panic), and row for row the
    FullSync table describes the same work (key, target, snapshot,
    projection, predicate) as before; a row is as it was or is recorded
    SUCCESS or FAILED. *)
Theorem chunk_workers_only_settle_rows :
  forall cfg env (fullMetas : list FullSyncMeta.t) (w : World),
  exists w',
    (o2m.syncChunks cfg env fullMetas w = Ret tt w'
     \/ exists e, o2m.syncChunks cfg env fullMetas w = Fail e w')
    /\ wait_sync_meta w' = wait_sync_meta w
    /\ Forall2 settles (full_sync_meta w) (full_sync_meta w').
Proof.
  intros cfg env ms w. exact (syncChunks_frame cfg env ms None w).
Qed.

Lemma table_record_apply cfg (t : string) (p : WaitSyncMeta.patch)
    (r : WaitSyncMeta.t) :
  table_record cfg t (WaitSyncMeta.apply p r) = table_record cfg t r.
Proof.
  unfold table_record, meta.wait_matches, o2m.waitQuery.
  cbn [WaitSyncMeta.DBTypeS WaitSyncMeta.DBTypeT WaitSyncMeta.SchemaNameS
       WaitSyncMeta.TableNameS WaitSyncMeta.TaskMode WaitSyncMeta.TaskStatus
       WaitSyncMeta.GlobalScnS WaitSyncMeta.ChunkTotalNums
       WaitSyncMeta.apply].
  change (meta.str_cond "" ?x) with true.
  reflexivity.
Qed.

Lemma update_where_In {A} (c : A -> bool) (f : A -> A) (l : list A) (r' : A) :
  In r' (meta.update_where c f l) ->
  exists r, In r l /\ r' = (if c r then f r else r).
Proof.
  unfold meta.update_where. intros H. apply in_map_iff in H.
  destruct H as (r & <- & Hr). eauto.
Qed.

(** A record of the table found after an update of the table's records is
    one the update has written. *)
Lemma table_record_updated cfg (t : string) (p : WaitSyncMeta.patch)
    (l : list WaitSyncMeta.t) (r' : WaitSyncMeta.t) :
  In r' (meta.update_where (table_record cfg t) (WaitSyncMeta.apply p) l) ->
  table_record cfg t r' = true ->
  exists r, In r l /\ r' = WaitSyncMeta.apply p r.
Proof.
  intros Hin Hrec. apply update_where_In in Hin.
  destruct Hin as (r & Hr & ->). exists r. split; [exact Hr |].
  destruct (table_record cfg t r) eqn:E; [reflexivity | congruence].
Qed.

Lemma filter_delete_where {A} (c : A -> bool) (l : list A) :
  filter c (meta.delete_where c l) = [].
Proof.
  unfold meta.delete_where. induction l as [|x l IH]; simpl; [reflexivity |].
  destruct (c x) eqn:E; simpl; [exact IH | rewrite E; exact IH].
Qed.

(** X9.  When the task of a table returns, the store says how the table
    ended.  Either no FullSync row of the table is left and each of its
    WaitSync records reads SUCCESS with [chunk_failed = 0]; or FAILED
    chunks of the table remain and each of its records reads FAILED with
    [chunk_failed] their number.  In both cases [chunk_success +
    chunk_failed] is the number of chunks that were WAITING when the task
    started. *)
Theorem table_task_records_its_outcome :
  forall cfg env (t : string) (w w' : World),
    o2m.syncTable cfg env t w = Ret tt w' ->
    (chunks_of cfg t (full_sync_meta w') = []
     /\ forall r, In r (wait_sync_meta w') -> table_record cfg t r = true ->
          WaitSyncMeta.TaskStatus r = common.TaskStatusSuccess
          /\ WaitSyncMeta.ChunkFailedNums r = 0
          /\ WaitSyncMeta.ChunkSuccessNums r
             = Z.of_nat (List.length
                           (waiting_chunks cfg t (full_sync_meta w))))
    \/ (failed_chunks cfg t (full_sync_meta w') <> []
        /\ forall r, In r (wait_sync_meta w') -> table_record cfg t r = true ->
             WaitSyncMeta.TaskStatus r = common.TaskStatusFailed
             /\ WaitSyncMeta.ChunkFailedNums r
                = Z.of_nat (List.length
                              (failed_chunks cfg t (full_sync_meta w')))
             /\ WaitSyncMeta.ChunkSuccessNums r + WaitSyncMeta.ChunkFailedNums r
                = Z.of_nat (List.length
                              (waiting_chunks cfg t (full_sync_meta w)))).
Proof.
  intros cfg env t w w' H.
  unfold o2m.syncTable in H.
  unfold meta.UpdateWaitSyncMeta at 1 in H.
  unfold bind at 1 in H. rewrite write_run in H.
  destruct (meta_fault env (meta_calls w)); [discriminate |].
  unfold meta.DetailFullSyncMeta in H.
  unfold bind at 1 in H. rewrite read_run in H.
  match type of H with
  | context [meta_fault env ?n] => destruct (meta_fault env n)
  end; [discriminate |].
  cbv beta iota in H.
  match type of H with
  | context [o2m.syncChunks cfg env ?ms] =>
      change ms with (waiting_chunks cfg t (full_sync_meta w)) in H
  end.
  match type of H with
  | bind _ _ ?x = _ => set (w2 := x) in H
  end.
  destruct (syncChunks_frame cfg env
              (waiting_chunks cfg t (full_sync_meta w)) None w2)
    as (w3 & [Hrun | (e & Hrun)] & _ & _).
  2:{ rewrite (@bind_fail_eq _ _ (o2m.syncChunks cfg env _) _ w2 e w3 Hrun)
        in H.
      discriminate. }
  rewrite (@bind_ret_eq _ _ (o2m.syncChunks cfg env _) _ w2 tt w3 Hrun) in H.
  unfold meta.CountsErrorFullSyncMeta in H.
  unfold bind at 1, attempt in H. rewrite read_run in H.
  destruct (meta_fault env (meta_calls w3)); [discriminate |].
  change (full_sync_meta (count_call w3)) with (full_sync_meta w3) in H.
  change (meta.count_where
            (meta.full_matches
               (o2m.fullQuery cfg (o2m.schemaUPPER cfg)
                  (common.StringUPPER t) common.TaskStatusFailed))
            (full_sync_meta w3))
    with (Z.of_nat (List.length (failed_chunks cfg t (full_sync_meta w3))))
    in H.
  clear Hrun. clearbody w2.
  destruct (Z.eqb_spec
              (Z.of_nat (List.length (failed_chunks cfg t (full_sync_meta w3))))
              0) as [Hzero | Hsome].
  - left.
    unfold meta.DeleteTableFullSyncMetaAndUpdateWaitSyncMeta in H.
    rewrite write_run in H.
    destruct (meta_fault env (meta_calls (count_call w3))); [discriminate |].
    injection H as <-. split.
    + apply filter_delete_where.
    + intros r Hin Hrec.
      apply (@table_record_updated cfg t _ _ r) in Hin; [| exact Hrec].
      destruct Hin as (r0 & _ & ->). repeat split.
  - right.
    unfold meta.UpdateWaitSyncMeta in H. rewrite write_run in H.
    destruct (meta_fault env (meta_calls (count_call w3))); [discriminate |].
    injection H as <-. split.
    + change (failed_chunks cfg t (full_sync_meta w3) <> []).
      intros E. rewrite E in Hsome. apply Hsome. reflexivity.
    + intros r Hin Hrec.
      apply (@table_record_updated cfg t _ _ r) in Hin; [| exact Hrec].
      destruct Hin as (r0 & _ & ->).
      split; [reflexivity |]. split; [reflexivity |].
      cbn [WaitSyncMeta.apply WaitSyncMeta.ChunkSuccessNums
           WaitSyncMeta.ChunkFailedNums WaitSyncMeta.or_else
           WaitSyncMeta.pChunkSuccessNums WaitSyncMeta.pChunkFailedNums].
      lia.
Qed.

(** The theorem at a running table with two waiting chunks that both
    apply. *)
Lemma table_task_records_its_outcome_witness :
  exists w',
    o2m.syncTable (Scenario.cfg true)
      (Scenario.env ["T"] 5 [] Scenario.applyOk Scenario.noFault) "T"
      Scenario.twoChunkWorld = Ret tt w'
    /\ ((chunks_of (Scenario.cfg true) "T" (full_sync_meta w') = []
         /\ forall r, In r (wait_sync_meta w') ->
              table_record (Scenario.cfg true) "T" r = true ->
              WaitSyncMeta.TaskStatus r = common.TaskStatusSuccess
              /\ WaitSyncMeta.ChunkFailedNums r = 0
              /\ WaitSyncMeta.ChunkSuccessNums r
                 = Z.of_nat
                     (List.length
                        (waiting_chunks (Scenario.cfg true) "T"
                           (full_sync_meta Scenario.twoChunkWorld))))
        \/ (failed_chunks (Scenario.cfg true) "T" (full_sync_meta w') <> []
            /\ forall r, In r (wait_sync_meta w') ->
                 table_record (Scenario.cfg true) "T" r = true ->
                 WaitSyncMeta.TaskStatus r = common.TaskStatusFailed
                 /\ WaitSyncMeta.ChunkFailedNums r
                    = Z.of_nat
                        (List.length
                           (failed_chunks (Scenario.cfg true) "T"
                              (full_sync_meta w')))
                 /\ WaitSyncMeta.ChunkSuccessNums r
                    + WaitSyncMeta.ChunkFailedNums r
                    = Z.of_nat
                        (List.length
                           (waiting_chunks (Scenario.cfg true) "T"
                              (full_sync_meta Scenario.twoChunkWorld))))).
Proof.
  assert (H : o2m.syncTable (Scenario.cfg true)
                (Scenario.env ["T"] 5 [] Scenario.applyOk Scenario.noFault)
                "T" Scenario.twoChunkWorld
              = Ret tt
                  (world_of
                     (o2m.syncTable (Scenario.cfg true)
                        (Scenario.env ["T"] 5 [] Scenario.applyOk
                           Scenario.noFault)
                        "T" Scenario.twoChunkWorld)
                     Scenario.twoChunkWorld))
    by (vm_compute; reflexivity).
  eexists. split; [exact H |].
  exact (@table_task_records_its_outcome _ _ _ _ _ H).
Defined.

Lemma running_or_same (c : WaitSyncMeta.t -> bool) (l : list WaitSyncMeta.t) :
  Forall2 (fun r r' => r' = r \/ r' = WaitSyncMeta.apply runningPatch r) l
    (meta.update_where c (WaitSyncMeta.apply runningPatch) l).
Proof.
  unfold meta.update_where.
  induction l as [|r l IH]; simpl; constructor; [| exact IH].
  destruct (c r); auto.
Qed.

Lemma same_records (l : list WaitSyncMeta.t) :
  Forall2 (fun r r' => r' = r \/ r' = WaitSyncMeta.apply runningPatch r) l l.
Proof. induction l; constructor; auto. Qed.

(** X10.  A table task that returns an error has recorded no outcome: no
    row of [full_sync_meta] is deleted (rows are only settled by the chunk
    workers), and every record of [wait_sync_meta] is as it was or marked
    RUNNING with its counters untouched. *)
Theorem failed_table_task_records_no_outcome :
  forall cfg env (t : string) (w w' : World) (e : error),
    o2m.syncTable cfg env t w = Fail e w' ->
    Forall2 (fun r r' => r' = r \/ r' = WaitSyncMeta.apply runningPatch r)
      (wait_sync_meta w) (wait_sync_meta w')
    /\ Forall2 settles (full_sync_meta w) (full_sync_meta w').
Proof.
  intros cfg env t w w' e H.
  unfold o2m.syncTable in H.
  unfold meta.UpdateWaitSyncMeta at 1 in H.
  unfold bind at 1 in H. rewrite write_run in H.
  destruct (meta_fault env (meta_calls w)).
  { injection H as _ <-. split; [apply same_records | apply settles_all_refl]. }
  unfold meta.DetailFullSyncMeta in H.
  unfold bind at 1 in H. rewrite read_run in H.
  match type of H with
  | context [meta_fault env ?n] => destruct (meta_fault env n)
  end.
  { injection H as _ <-.
    split; [apply running_or_same | apply settles_all_refl]. }
  cbv beta iota in H.
  match type of H with
  | context [o2m.syncChunks cfg env ?ms] => set (fullMetas := ms) in H
  end.
  match type of H with
  | bind _ _ ?x = _ => set (w2 := x) in H
  end.
  assert (Hwait2 : Forall2
            (fun r r' => r' = r \/ r' = WaitSyncMeta.apply runningPatch r)
            (wait_sync_meta w) (wait_sync_meta w2))
    by apply running_or_same.
  assert (Hfull2 : full_sync_meta w2 = full_sync_meta w) by reflexivity.
  destruct (syncChunks_frame cfg env fullMetas None w2)
    as (w3 & Hrun & Hwait3 & Hfull3).
  rewrite Hfull2 in Hfull3. rewrite <- Hwait3 in Hwait2.
  clearbody w2 fullMetas.
  destruct Hrun as [Hrun | (e3 & Hrun)].
  2:{ rewrite (@bind_fail_eq _ _ (o2m.syncChunks cfg env _) _ w2 e3 w3 Hrun)
        in H.
      injection H as _ <-. split; assumption. }
  rewrite (@bind_ret_eq _ _ (o2m.syncChunks cfg env _) _ w2 tt w3 Hrun) in H.
  unfold meta.CountsErrorFullSyncMeta in H.
  unfold bind at 1, attempt in H. rewrite read_run in H.
  destruct (meta_fault env (meta_calls w3)).
  { injection H as _ <-. split; assumption. }
  match type of H with
  | (if ?b then _ else _) _ = _ => destruct b
  end.
  - unfold meta.DeleteTableFullSyncMetaAndUpdateWaitSyncMeta in H.
    rewrite write_run in H.
    destruct (meta_fault env (meta_calls (count_call w3))); [| discriminate].
    injection H as _ <-. split; assumption.
  - unfold meta.UpdateWaitSyncMeta in H. rewrite write_run in H.
    destruct (meta_fault env (meta_calls (count_call w3))); [| discriminate].
    injection H as _ <-. split; assumption.
Qed.

(** The theorem at a running table whose store fails its first call. *)
Lemma failed_table_task_records_no_outcome_witness :
  exists e w',
    o2m.syncTable (Scenario.cfg true)
      (Scenario.env ["T"] 5 [] Scenario.applyOk Scenario.firstCallFails) "T"
      Scenario.twoChunkWorld = Fail e w'
    /\ Forall2 (fun r r' => r' = r \/ r' = WaitSyncMeta.apply runningPatch r)
         (wait_sync_meta Scenario.twoChunkWorld) (wait_sync_meta w')
    /\ Forall2 settles (full_sync_meta Scenario.twoChunkWorld)
         (full_sync_meta w').
Proof.
  assert (H : o2m.syncTable (Scenario.cfg true)
                (Scenario.env ["T"] 5 [] Scenario.applyOk
                   Scenario.firstCallFails)
                "T" Scenario.twoChunkWorld
              = Fail "Error 2006: MySQL server has gone away"
                  (world_of
                     (o2m.syncTable (Scenario.cfg true)
                        (Scenario.env ["T"] 5 [] Scenario.applyOk
                           Scenario.firstCallFails)
                        "T" Scenario.twoChunkWorld)
                     Scenario.twoChunkWorld))
    by (vm_compute; reflexivity).
  eexists. eexists. split; [exact H |].
  exact (@failed_table_task_records_no_outcome _ _ _ _ _ _ H).
Defined.

(** ** The chunker: what the chunking of a table leaves in the store *)

Lemma bind_ret_inv {A B} (m : M A) (k : A -> M B) w b w' :
  bind m k w = Ret b w' ->
  exists a w1, m w = Ret a w1 /\ k a w1 = Ret b w'.
Proof.
  unfold bind. destruct (m w) as [a w1 | e w1 |]; try discriminate. eauto.
Qed.

Lemma quiet_returns {A} (m : M A) w a w1 :
  quiet m -> m w = Ret a w1 -> same_meta w w1.
Proof.
  intros Hq H. specialize (Hq w). unfold post_or_crash in Hq.
  rewrite H in Hq. exact Hq.
Qed.



(** The registration of the single chunk [1 = 1], when it returns. *)
Lemma createWholeTableChunk_returns cfg env t target scn col isPartition
    w w' :
  o2m.createWholeTableChunk cfg env t target scn col isPartition w
  = Ret tt w' ->
  full_sync_meta w'
  = (full_sync_meta w
       ++ [o2m.chunkMeta cfg t target scn col "1 = 1" isPartition])%list
  /\ wait_sync_meta w'
     = meta.update_where (table_record cfg t)
         (WaitSyncMeta.apply
            (WaitSyncMeta.mkPatch None (Some scn) (Some 1) (Some 0) (Some 0)
               (Some isPartition)))
         (wait_sync_meta w).
Proof.
  unfold o2m.createWholeTableChunk,
    meta.CreateFullSyncMetaAndUpdateWaitSyncMeta.
  rewrite call_run. cbv zeta. simpl fold_left.
  destruct (meta_fault env (meta_calls w)); [discriminate |].
  match goal with
  | |- context [existsb ?f ?l] => destruct (existsb f l)
  end; [discriminate |].
  intros H. injection H as <-. split; reflexivity.
Qed.

(** ** The chunking of one table *)

Lemma poc_lift_bind {A B} (r : result A) (k : A -> M B) w
    (QR : B -> World -> Prop) (QF : error -> World -> Prop) :
  (forall e, r = Err e -> QF e w) ->
  (forall a, r = Ok a -> post_or_crash (k a) w QR QF) ->
  post_or_crash (bind (lift r) k) w QR QF.
Proof.
  intros HF HR. destruct r as [a | e].
  - exact (HR a eq_refl).
  - exact (HF e eq_refl).
Qed.

(** A call that leaves the metadata alone, followed by more code. *)
Lemma poc_quiet_bind {A B} (m : M A) (k : A -> M B) w0 w
    (QR : B -> World -> Prop) (QF : error -> World -> Prop) :
  same_meta w0 w -> quiet m ->
  (forall e w1, same_meta w0 w1 -> QF e w1) ->
  (forall a w1, same_meta w0 w1 -> post_or_crash (k a) w1 QR QF) ->
  post_or_crash (bind m k) w QR QF.
Proof.
  intros H0 Hq HF HR. apply poc_bind.
  eapply poc_conseq; [apply Hq | |]; simpl.
  - intros a w1 H1. apply HR. exact (same_meta_trans H0 H1).
  - intros e w1 H1. apply HF. exact (same_meta_trans H0 H1).
Qed.

(** The registration of the single chunk [1 = 1]: it is atomic. *)
Lemma createWholeTableChunk_outcome cfg env t target scn col isPartition w :
  post_or_crash
    (o2m.createWholeTableChunk cfg env t target scn col isPartition) w
    (fun _ w' =>
       full_sync_meta w'
       = (full_sync_meta w
            ++ [o2m.chunkMeta cfg t target scn col "1 = 1" isPartition])%list
       /\ wait_sync_meta w'
          = meta.update_where (table_record cfg t)
              (WaitSyncMeta.apply (stamp scn 1 isPartition))
              (wait_sync_meta w))
    (fun _ w' => same_meta w w').
Proof.
  unfold post_or_crash, o2m.createWholeTableChunk,
    meta.CreateFullSyncMetaAndUpdateWaitSyncMeta.
  rewrite call_run. cbv zeta. simpl fold_left.
  destruct (meta_fault env (meta_calls w)); [split; reflexivity |].
  match goal with
  | |- context [existsb ?f ?l] => destruct (existsb f l)
  end; split; reflexivity.
Qed.

(** What the chunking of one table leaves in the store.  When it returns
    it has appended the rows of the table's chunks, at least one, and
    written the snapshot id, their number and the partition flag on the
    table's records.  When it fails it has appended the rows of some
    chunks, possibly none, and written the table's records or not. *)
Lemma initTable_outcome cfg env rules scn parts coll workerID t w :
  post_or_crash (o2m.initTable cfg env rules scn parts coll workerID t) w
    (fun _ w' =>
       exists col chunks,
         chunks <> []
         /\ Projection.adjustTableSelectColumn
              (GetOracleSchemaTableColumn env (OracleSchemaName cfg) t coll)
            = Ok col
         /\ full_sync_meta w'
            = (full_sync_meta w
                 ++ chunkRows cfg rules parts scn t col chunks)%list
         /\ wait_sync_meta w'
            = meta.update_where (table_record cfg t)
                (WaitSyncMeta.apply
                   (stamp scn (Z.of_nat (List.length chunks))
                      (partitionFlag parts t)))
                (wait_sync_meta w))
    (fun _ w' =>
       exists col chunks,
         full_sync_meta w'
         = (full_sync_meta w
              ++ chunkRows cfg rules parts scn t col chunks)%list
         /\ (wait_sync_meta w' = wait_sync_meta w
             \/ wait_sync_meta w'
                = meta.update_where (table_record cfg t)
                    (WaitSyncMeta.apply
                       (stamp scn (Z.of_nat (List.length chunks))
                          (partitionFlag parts t)))
                    (wait_sync_meta w))).
Proof.
  unfold o2m.initTable, o2m.adjustTableSelectColumn.
  fold (targetName rules t). fold (partitionFlag parts t).
  assert (Same : forall (e : error) w1, same_meta w w1 ->
            exists col chunks,
              full_sync_meta w1
              = (full_sync_meta w
                   ++ chunkRows cfg rules parts scn t col chunks)%list
              /\ (wait_sync_meta w1 = wait_sync_meta w
                  \/ wait_sync_meta w1
                     = meta.update_where (table_record cfg t)
                         (WaitSyncMeta.apply
                            (stamp scn (Z.of_nat (List.length chunks))
                               (partitionFlag parts t)))
                         (wait_sync_meta w))).
  { intros _ w1 (Hf & Hw). exists "", []. simpl. rewrite app_nil_r. auto. }
  apply poc_lift_bind; [intros e _; apply (Same e), same_meta_refl |].
  intros col Hcol.
  apply poc_lift_bind; [intros e _; apply (Same e), same_meta_refl |].
  intros rows _.
  assert (Whole : forall w3, same_meta w w3 ->
            post_or_crash
              (o2m.createWholeTableChunk cfg env t (targetName rules t) scn
                 col (partitionFlag parts t)) w3
              (fun _ w' =>
                 exists col chunks,
                   chunks <> []
                   /\ Projection.adjustTableSelectColumn
                        (GetOracleSchemaTableColumn env (OracleSchemaName cfg)
                           t coll)
                      = Ok col
                   /\ full_sync_meta w'
                      = (full_sync_meta w
                           ++ chunkRows cfg rules parts scn t col chunks)%list
                   /\ wait_sync_meta w'
                      = meta.update_where (table_record cfg t)
                          (WaitSyncMeta.apply
                             (stamp scn (Z.of_nat (List.length chunks))
                                (partitionFlag parts t)))
                          (wait_sync_meta w))
              (fun _ w' =>
                 exists col chunks,
                   full_sync_meta w'
                   = (full_sync_meta w
                        ++ chunkRows cfg rules parts scn t col chunks)%list
                   /\ (wait_sync_meta w' = wait_sync_meta w
                       \/ wait_sync_meta w'
                          = meta.update_where (table_record cfg t)
                              (WaitSyncMeta.apply
                                 (stamp scn (Z.of_nat (List.length chunks))
                                    (partitionFlag parts t)))
                              (wait_sync_meta w)))).
  { intros w3 H3.
    eapply poc_conseq; [apply createWholeTableChunk_outcome | |]; simpl.
    - intros _ w' (Hf' & Hw'). destruct H3 as (Hf & Hw).
      exists col, ["1 = 1"]. rewrite Hf', Hw', Hf, Hw.
      split; [discriminate |]. split; [exact Hcol |].
      split; reflexivity.
    - intros e w' H. apply (Same e). exact (same_meta_trans H3 H). }
  destruct (rows =? 0); [apply Whole, same_meta_refl |].
  apply poc_quiet_bind with (w0 := w);
    [apply same_meta_refl | apply quiet_StartOracleChunkCreateTask
     | exact Same |].
  intros _ w3 H3.
  apply poc_quiet_bind with (w0 := w);
    [exact H3 | apply quiet_StartOracleCreateChunkByRowID | exact Same |].
  intros _ w4 H4.
  apply poc_quiet_bind with (w0 := w);
    [exact H4 | apply quiet_GetOracleTableChunksByRowID | exact Same |].
  intros chunkRes w5 H5.
  destruct (Nat.eqb_spec (List.length chunkRes) 0) as [Hnil | Hsome];
    [apply Whole, H5 |].
  clear Whole.
  assert (Hrows :
            map (fun res =>
                   o2m.chunkMeta cfg t (targetName rules t) scn col
                     (row_get res "CMD") (partitionFlag parts t)) chunkRes
            = chunkRows cfg rules parts scn t col
                (map (fun res => row_get res "CMD") chunkRes)).
  { unfold chunkRows. rewrite map_map. reflexivity. }
  rewrite Hrows.
  destruct H5 as (Hf5 & Hw5).
  apply poc_bind. unfold post_or_crash at 1.
  unfold meta.BatchCreateFullSyncMeta. rewrite call_run. cbv zeta.
  simpl fold_left.
  destruct (meta_fault env (meta_calls w5)).
  { apply (Same e). split; simpl; assumption. }
  match goal with
  | |- context [existsb ?f ?l] => destruct (existsb f l)
  end.
  { apply (Same "Duplicate entry for key of full_sync_meta").
    split; simpl; assumption. }
  apply poc_bind. unfold post_or_crash at 1.
  unfold meta.UpdateWaitSyncMeta. rewrite write_run.
  match goal with
  | |- context [meta_fault env ?n] => destruct (meta_fault env n)
  end.
  { exists col, (map (fun res => row_get res "CMD") chunkRes).
    simpl. rewrite Hf5. split; [reflexivity | left; exact Hw5]. }
  eapply poc_conseq; [apply quiet_CloseOracleChunkTask | |]; simpl.
  - intros _ w' (Hf & Hw).
    exists col, (map (fun res => row_get res "CMD") chunkRes).
    split; [destruct chunkRes; [contradiction | discriminate] |].
    split; [exact Hcol |].
    rewrite Hf, Hw, length_map. simpl. rewrite Hf5, Hw5.
    split; reflexivity.
  - intros _ w' (Hf & Hw).
    exists col, (map (fun res => row_get res "CMD") chunkRes).
    rewrite Hf, Hw, length_map. simpl. rewrite Hf5, Hw5.
    split; [reflexivity | right; reflexivity].
Qed.





(** ** The chunker: one snapshot id per run *)

Lemma stamp_twice scn n1 p1 n2 p2 (r : WaitSyncMeta.t) :
  WaitSyncMeta.apply (stamp scn n2 p2) (WaitSyncMeta.apply (stamp scn n1 p1) r)
  = WaitSyncMeta.apply (stamp scn n2 p2) r.
Proof. reflexivity. Qed.

Lemma of_run_apply cfg (tables : list string) (p : WaitSyncMeta.patch)
    (r : WaitSyncMeta.t) :
  of_run cfg tables (WaitSyncMeta.apply p r) = of_run cfg tables r.
Proof.
  unfold of_run. induction tables as [| t tables IH]; simpl; [reflexivity |].
  rewrite table_record_apply, IH. reflexivity.
Qed.

Lemma Forall2_same {A} (R : A -> A -> Prop) (l : list A) :
  (forall a, R a a) -> Forall2 R l l.
Proof. intros H. induction l; constructor; auto. Qed.

Lemma Forall2_update_where {A} (R : A -> A -> Prop) (c : A -> bool)
    (f : A -> A) (l : list A) :
  (forall a, R a (if c a then f a else a)) ->
  Forall2 R l (meta.update_where c f l).
Proof.
  intros H. unfold meta.update_where. induction l; simpl; constructor; auto.
Qed.

Lemma Forall2_compose {A B C} (R1 : A -> B -> Prop) (R2 : B -> C -> Prop)
    (R3 : A -> C -> Prop) (l0 : list A) (l1 : list B) (l2 : list C) :
  (forall a b c, R1 a b -> R2 b c -> R3 a c) ->
  Forall2 R1 l0 l1 -> Forall2 R2 l1 l2 -> Forall2 R3 l0 l2.
Proof.
  intros H H1. revert l2.
  induction H1 as [| a b l0 l1 Hab _ IH]; intros l2 H2;
    inversion H2; subst; constructor; eauto.
Qed.

Lemma stamped_all_nil cfg scn (l : list WaitSyncMeta.t) :
  stamped_all cfg [] scn l l.
Proof. apply Forall2_same. intros r. reflexivity. Qed.

Lemma stamped_some_same cfg tables scn (l : list WaitSyncMeta.t) :
  stamped_some cfg tables scn l l.
Proof. apply Forall2_same. intros r. left. reflexivity. Qed.

(** The records after the chunking of [t] and then of the tables [rest]. *)
Lemma stamped_all_step cfg (t : string) (rest : list string) scn n p
    (l0 l2 : list WaitSyncMeta.t) :
  stamped_all cfg rest scn
    (meta.update_where (table_record cfg t)
       (WaitSyncMeta.apply (stamp scn n p)) l0) l2 ->
  stamped_all cfg (t :: rest) scn l0 l2.
Proof.
  unfold stamped_all. intros H.
  assert (Hstep : Forall2
                    (fun a b =>
                       b = if table_record cfg t a
                           then WaitSyncMeta.apply (stamp scn n p) a else a)
                    l0
                    (meta.update_where (table_record cfg t)
                       (WaitSyncMeta.apply (stamp scn n p)) l0)).
  { apply Forall2_update_where. intros a. reflexivity. }
  eapply Forall2_compose; [| exact Hstep | exact H].
  cbv beta. intros a b c -> Hbc. simpl of_run.
  destruct (table_record cfg t a); simpl.
  - rewrite of_run_apply in Hbc.
    destruct (of_run cfg rest a).
    + destruct Hbc as (n' & p' & ->). exists n', p'. apply stamp_twice.
    + subst c. exists n, p. reflexivity.
  - exact Hbc.
Qed.

Lemma stamped_some_step cfg (t : string) (rest : list string) scn n p
    (l0 l1 l2 : list WaitSyncMeta.t) :
  l1 = l0
  \/ l1 = meta.update_where (table_record cfg t)
            (WaitSyncMeta.apply (stamp scn n p)) l0 ->
  stamped_some cfg rest scn l1 l2 ->
  stamped_some cfg (t :: rest) scn l0 l2.
Proof.
  unfold stamped_some. intros H1 H.
  assert (Hstep : Forall2
                    (fun a b =>
                       b = a
                       \/ (table_record cfg t a = true
                           /\ b = WaitSyncMeta.apply (stamp scn n p) a))
                    l0 l1).
  { destruct H1 as [-> | ->].
    - apply Forall2_same. auto.
    - apply Forall2_update_where. intros a.
      destruct (table_record cfg t a); auto. }
  eapply Forall2_compose; [| exact Hstep | exact H].
  cbv beta. intros a b c Hab Hbc. simpl of_run.
  destruct Hab as [-> | (Ht & ->)].
  - destruct Hbc as [-> | (Hrest & Hst)]; [left; reflexivity |].
    right. rewrite Hrest, orb_true_r. auto.
  - rewrite Ht. simpl. right. split; [reflexivity |].
    destruct Hbc as [-> | (_ & n' & p' & ->)].
    + exists n, p. reflexivity.
    + exists n', p'. apply stamp_twice.
Qed.

Lemma chunkRows_has_table_row cfg rules parts scn t col chunks :
  chunks <> [] ->
  has_table_row t (chunkRows cfg rules parts scn t col chunks).
Proof.
  intros Hne. destruct chunks as [| chunk chunks]; [contradiction |].
  eexists. split; [left; reflexivity | reflexivity].
Qed.

Lemma chunkRows_snapshot cfg rules parts scn t col chunks :
  Forall (fun r => FullSyncMeta.GlobalScnS r = scn)
    (chunkRows cfg rules parts scn t col chunks).
Proof.
  apply Forall_forall. intros r Hr. apply in_map_iff in Hr.
  destruct Hr as (chunk & <- & _). reflexivity.
Qed.

(** The outer group of the chunker, run with the snapshot id [scn]: the
    rows it appends carry [scn]; when it returns every table has a new row
    and the records of every table are restamped. *)
Lemma initTables_outcome cfg env rules scn parts coll
    (items : list (Z * string)) :
  forall (first : option error) (w : World),
    post_or_crash
      (errgroup_run
         (map (fun it => o2m.initTable cfg env rules scn parts coll
                           (fst it) (snd it)) items) first) w
      (fun _ w' =>
         exists created,
           full_sync_meta w' = (full_sync_meta w ++ created)%list
           /\ Forall (fun r => FullSyncMeta.GlobalScnS r = scn) created
           /\ (forall it, In it items -> has_table_row (snd it) created)
           /\ stamped_all cfg (map snd items) scn
                (wait_sync_meta w) (wait_sync_meta w'))
      (fun _ w' =>
         exists created,
           full_sync_meta w' = (full_sync_meta w ++ created)%list
           /\ Forall (fun r => FullSyncMeta.GlobalScnS r = scn) created
           /\ stamped_some cfg (map snd items) scn
                (wait_sync_meta w) (wait_sync_meta w')).
Proof.
  induction items as [| it items IH]; intros first w.
  - unfold post_or_crash. simpl.
    destruct first.
    + exists []. rewrite app_nil_r.
      split; [reflexivity |]. split; [constructor |].
      apply stamped_some_same.
    + exists []. rewrite app_nil_r.
      split; [reflexivity |]. split; [constructor |].
      split; [intros it [] | apply stamped_all_nil].
  - pose proof (initTable_outcome cfg env rules scn parts coll
                  (fst it) (snd it) w) as Ht.
    unfold post_or_crash in *. simpl map. simpl errgroup_run.
    destruct (o2m.initTable cfg env rules scn parts coll (fst it) (snd it) w)
      as [[] w1 | e w1 |]; [| | exact I].
    + destruct Ht as (col & chunks & Hne & _ & Hf1 & Hw1).
      specialize (IH first w1).
      destruct (errgroup_run _ first w1) as [[] w' | e' w' |]; [| | exact I].
      * destruct IH as (n2 & Hf2 & Hs2 & Hr2 & Hw2).
        exists (chunkRows cfg rules parts scn (snd it) col chunks ++ n2)%list.
        split; [rewrite Hf2, Hf1, app_assoc; reflexivity |].
        split; [apply Forall_app; split;
                [apply chunkRows_snapshot | exact Hs2] |].
        split.
        -- intros it' [<- | Hin].
           ++ apply has_table_row_app_l, chunkRows_has_table_row, Hne.
           ++ apply has_table_row_app_r, Hr2, Hin.
        -- rewrite Hw1 in Hw2. eapply stamped_all_step. exact Hw2.
      * destruct IH as (n2 & Hf2 & Hs2 & Hw2).
        exists (chunkRows cfg rules parts scn (snd it) col chunks ++ n2)%list.
        split; [rewrite Hf2, Hf1, app_assoc; reflexivity |].
        split; [apply Forall_app; split;
                [apply chunkRows_snapshot | exact Hs2] |].
        eapply stamped_some_step; [right; exact Hw1 | exact Hw2].
    + destruct Ht as (col & chunks & Hf1 & Hw1).
      set (first' := match first with None => Some e | Some _ => first end).
      assert (Hsome : exists e', first' = Some e').
      { unfold first'. destruct first; eauto. }
      destruct Hsome as (e' & He'). rewrite He'.
      specialize (IH (Some e') w1).
      pose proof (errgroup_some_never_returns
                    (map (fun it => o2m.initTable cfg env rules scn parts coll
                                      (fst it) (snd it)) items) e' w1) as Hnr.
      destruct (errgroup_run _ (Some e') w1) as [[] w' | e'' w' |];
        [discriminate | | exact I].
      destruct IH as (n2 & Hf2 & Hs2 & Hw2).
      exists (chunkRows cfg rules parts scn (snd it) col chunks ++ n2)%list.
      split; [rewrite Hf2, Hf1, app_assoc; reflexivity |].
      split; [apply Forall_app; split;
              [apply chunkRows_snapshot | exact Hs2] |].
      eapply stamped_some_step; [exact Hw1 | exact Hw2].
Qed.

Lemma indexed_tables {A} (l : list A) :
  forall idx, map snd (o2m.indexed idx l) = l.
Proof.
  induction l as [| x l IH]; intros idx; simpl; [reflexivity |].
  rewrite IH. reflexivity.
Qed.

(** The read of the snapshot id changes nothing. *)
Lemma snapshot_read_keeps_world env (w : World) :
  match oracle.GetOracleCurrentSnapshotSCN env w with
  | Ret _ w' => w' = w
  | Fail _ w' => w' = w
  | Crash => True
  end.
Proof.
  unfold oracle.GetOracleCurrentSnapshotSCN, bind, oracle.RunQuery.
  destruct (Query env _ w) as [[| r0 rs] | e]; [exact I | | reflexivity].
  cbv beta iota.
  destruct (StrconvUintBitSize env (row_get r0 "CURRENT_SCN") 64);
    reflexivity.
Qed.

Lemma getTableNameRule_run env (w : World) :
  exists rules,
    o2m.getTableNameRule env w
    = match meta_fault env (meta_calls w) with
      | Some e => Fail e (count_call w)
      | None => Ret rules (count_call w)
      end.
Proof.
  unfold o2m.getTableNameRule, meta.DetailTableNameRule, bind.
  rewrite read_run. eexists.
  destruct (meta_fault env (meta_calls w)); reflexivity.
Qed.

(** What one run of the chunker leaves in the store, with the snapshot id
    it read after the lookup of the table-name rules. *)
Lemma initWaitSyncTableRowID_outcome cfg env (tables : list string) coll w :
  post_or_crash (o2m.initWaitSyncTableRowID cfg env tables coll) w
    (fun _ w' =>
       exists scn created,
         oracle.GetOracleCurrentSnapshotSCN env (count_call w)
         = Ret scn (count_call w)
         /\ full_sync_meta w' = (full_sync_meta w ++ created)%list
         /\ Forall (fun r => FullSyncMeta.GlobalScnS r = scn) created
         /\ (forall t, In t tables -> has_table_row t created)
         /\ stamped_all cfg tables scn (wait_sync_meta w) (wait_sync_meta w'))
    (fun _ w' =>
       exists created,
         full_sync_meta w' = (full_sync_meta w ++ created)%list
         /\ ((created = [] /\ wait_sync_meta w' = wait_sync_meta w)
             \/ exists scn,
                  oracle.GetOracleCurrentSnapshotSCN env (count_call w)
                  = Ret scn (count_call w)
                  /\ Forall (fun r => FullSyncMeta.GlobalScnS r = scn) created
                  /\ stamped_some cfg tables scn
                       (wait_sync_meta w) (wait_sync_meta w'))).
Proof.
  unfold post_or_crash, o2m.initWaitSyncTableRowID.
  unfold bind at 1.
  destruct (getTableNameRule_run env w) as (rules & ->).
  destruct (meta_fault env (meta_calls w)).
  { exists []. rewrite app_nil_r. split; [reflexivity | left; auto]. }
  unfold bind at 1.
  pose proof (snapshot_read_keeps_world env (count_call w)) as Hkeep.
  destruct (oracle.GetOracleCurrentSnapshotSCN env (count_call w))
    as [scn w2 | e w2 |]; [| | exact I].
  2:{ subst w2. exists []. rewrite app_nil_r.
      split; [reflexivity | left; auto]. }
  subst w2. unfold bind at 1.
  destruct (GetOracleSchemaPartitionTable env (OracleSchemaName cfg))
    as [parts | e]; simpl lift; cbv beta iota delta [ret fail].
  2:{ exists []. rewrite app_nil_r. split; [reflexivity | left; auto]. }
  pose proof (initTables_outcome cfg env rules scn parts coll
                (o2m.indexed 0 tables) None (count_call w)) as Hg.
  unfold post_or_crash in Hg. rewrite indexed_tables in Hg.
  unfold errgroup.
  destruct (errgroup_run _ None (count_call w)) as [[] w' | e w' |];
    [| | exact I].
  - destruct Hg as (created & Hf & Hs & Hr & Hw).
    exists scn, created. split; [reflexivity |].
    split; [exact Hf |]. split; [exact Hs |]. split; [| exact Hw].
    intros t Hin. destruct (indexed_In tables 0 t Hin) as (i & Hi).
    exact (Hr (i, t) Hi).
  - destruct Hg as (created & Hf & Hs & Hw).
    exists created. split; [exact Hf |]. right. exists scn. auto.
Qed.

Lemma existsb_keys cfg (t : string) (l : list FullSyncMeta.t) :
  existsb (meta.full_matches (wholeKey cfg t)) (map meta.full_key l)
  = existsb (meta.full_matches (wholeKey cfg t)) l.
Proof.
  induction l as [| r l IH]; simpl; [reflexivity |].
  rewrite IH. reflexivity.
Qed.

(** The chunking of a table the source counts empty, on a store that
    answers and holds no row with the key of its whole-table chunk. *)
Lemma initTable_whole_returns cfg env rules scn parts coll workerID t w :
  meta_fault env (meta_calls w) = None ->
  counted_empty cfg env coll t = true ->
  existsb (meta.full_matches (wholeKey cfg t))
    (map meta.full_key (full_sync_meta w)) = false ->
  exists w',
    o2m.initTable cfg env rules scn parts coll workerID t w = Ret tt w'
    /\ meta_calls w' = S (meta_calls w)
    /\ map meta.full_key (full_sync_meta w')
       = (map meta.full_key (full_sync_meta w) ++ [wholeKey cfg t])%list.
Proof.
  intros F Hc Hk. rewrite existsb_keys in Hk.
  unfold counted_empty in Hc.
  unfold o2m.initTable, o2m.adjustTableSelectColumn.
  destruct (Projection.adjustTableSelectColumn _) as [col |];
    [| discriminate].
  destruct (GetOracleTableRowsByStatistics env (OracleSchemaName cfg) t)
    as [rows |]; [| discriminate].
  rewrite (@bind_ret_eq _ _ (lift (Ok col)) _ w col w eq_refl).
  rewrite (@bind_ret_eq _ _ (lift (Ok rows)) _ w rows w eq_refl).
  rewrite Hc.
  unfold o2m.createWholeTableChunk,
    meta.CreateFullSyncMetaAndUpdateWaitSyncMeta.
  rewrite call_run. cbv zeta. simpl fold_left. rewrite F.
  match goal with
  | |- context [existsb ?f ?l] =>
      change (existsb f l)
        with (existsb (meta.full_matches (wholeKey cfg t)) (full_sync_meta w))
  end.
  rewrite Hk. eexists. split; [reflexivity |]. split; [reflexivity |].
  simpl. rewrite map_app. reflexivity.
Qed.

Lemma initTables_whole_return cfg env rules scn parts coll
    (items : list (Z * string)) :
  (forall n, meta_fault env n = None) ->
  forall w,
    (forall it, In it items -> counted_empty cfg env coll (snd it) = true) ->
    unregistered cfg (map snd items) (map meta.full_key (full_sync_meta w))
    = true ->
    exists w',
      errgroup_run
        (map (fun it => o2m.initTable cfg env rules scn parts coll
                          (fst it) (snd it)) items) None w
      = Ret tt w'.
Proof.
  intros F. induction items as [| it items IH]; intros w Hc Hu.
  - simpl. eauto.
  - simpl in Hu. apply andb_prop in Hu. destruct Hu as (Hk & Hu).
    apply negb_true_iff in Hk.
    destruct (@initTable_whole_returns cfg env rules scn parts coll (fst it)
                (snd it) w (F _) (Hc it (or_introl eq_refl)) Hk)
      as (w1 & Hrun & _ & Hkeys).
    simpl map. simpl errgroup_run. rewrite Hrun.
    apply IH.
    + intros it' Hin. apply Hc. right. exact Hin.
    + rewrite Hkeys. exact Hu.
Qed.

Lemma Forall2_In_r {A B} (R : A -> B -> Prop) (l : list A) (l' : list B)
    (b : B) :
  Forall2 R l l' -> In b l' -> exists a, In a l /\ R a b.
Proof.
  induction 1 as [| a b' l l' Hab _ IH]; intros Hin; [contradiction |].
  destruct Hin as [<- | Hin].
  - exists a. split; [left; reflexivity | exact Hab].
  - destruct (IH Hin) as (a' & Ha' & HR). exists a'. split; [right |]; auto.
Qed.

(** C2.  One run of the chunker reads one snapshot id, right after the
    lookup of the table-name rules and before it chunks any table, and
    stamps that value everywhere.  When the run returns, the value [scn]
    it read is on every FullSync row it created; the FullSync table has
    only grown; every table of the run has at least one new row, the rows
    created for it carry exactly one distinct snapshot id, [scn], as do
    all the FullSync rows of a table that had none before the run; and,
    record by record, the WaitSync records of the tables of the run are
    restamped with [scn] and every other WaitSync record is as it was.
    When the run fails with an error, either it has created no row and
    changed no record, or it has read [scn], the rows it created all carry
    it and the records it changed are records of tables of the run
    restamped with it.  The run does return when the metadata store and
    the source answer, every table is counted empty by the statistics and
    no row with the key of a table's whole-table chunk is in the way; and
    it never panics on a source that answers the snapshot query and the
    chunk-count queries with a row. *)
Theorem one_snapshot_per_table_run :
  forall (cfg : Config) (env : Env) (csvWaitTables : list string)
         (oracleCollation : bool) (w : World),
    (forall w',
       o2m.initWaitSyncTableRowID cfg env csvWaitTables oracleCollation w
       = Ret tt w' ->
       exists scn created,
         oracle.GetOracleCurrentSnapshotSCN env (count_call w)
         = Ret scn (count_call w)
         /\ full_sync_meta w' = (full_sync_meta w ++ created)%list
         /\ Forall (fun r => FullSyncMeta.GlobalScnS r = scn) created
         /\ (forall t, In t csvWaitTables ->
               table_rows t created <> []
               /\ distinct_snapshots (table_rows t created) = [scn]
               /\ List.length (distinct_snapshots (table_rows t created))
                  = 1%nat
               /\ (table_rows t (full_sync_meta w) = [] ->
                   distinct_snapshots (table_rows t (full_sync_meta w'))
                   = [scn]))
         /\ stamped_all cfg csvWaitTables scn
              (wait_sync_meta w) (wait_sync_meta w')
         /\ (forall t r,
               In t csvWaitTables -> In r (wait_sync_meta w') ->
               table_record cfg t r = true ->
               WaitSyncMeta.GlobalScnS r = scn))
    /\ (forall e w',
          o2m.initWaitSyncTableRowID cfg env csvWaitTables oracleCollation w
          = Fail e w' ->
          exists created,
            full_sync_meta w' = (full_sync_meta w ++ created)%list
            /\ ((created = [] /\ wait_sync_meta w' = wait_sync_meta w)
                \/ exists scn,
                     oracle.GetOracleCurrentSnapshotSCN env (count_call w)
                     = Ret scn (count_call w)
                     /\ Forall (fun r => FullSyncMeta.GlobalScnS r = scn)
                          created
                     /\ stamped_some cfg csvWaitTables scn
                          (wait_sync_meta w) (wait_sync_meta w')))
    /\ ((forall n, meta_fault env n = None) ->
        (exists scn,
           oracle.GetOracleCurrentSnapshotSCN env (count_call w)
           = Ret scn (count_call w)) ->
        (exists parts,
           GetOracleSchemaPartitionTable env (OracleSchemaName cfg)
           = Ok parts) ->
        (forall t, In t csvWaitTables ->
           counted_empty cfg env oracleCollation t = true) ->
        unregistered cfg csvWaitTables
          (map meta.full_key (full_sync_meta w)) = true ->
        exists w',
          o2m.initWaitSyncTableRowID cfg env csvWaitTables oracleCollation w
          = Ret tt w')
    /\ (answers_first_row env ->
        is_crash
          (o2m.initWaitSyncTableRowID cfg env csvWaitTables oracleCollation w)
        = false).
Proof.
  intros cfg env tables coll w.
  pose proof (initWaitSyncTableRowID_outcome cfg env tables coll w) as Hout.
  unfold post_or_crash in Hout.
  split; [| split; [| split]].
  - intros w' H. rewrite H in Hout.
    destruct Hout as (scn & created & Hread & Hf & Hs & Hr & Hw).
    exists scn, created.
    split; [exact Hread |]. split; [exact Hf |]. split; [exact Hs |].
    split; [| split; [exact Hw |]].
    + intros t Hin.
      pose proof (@table_rows_of_created scn t created Hs (Hr t Hin)) as Hone.
      split.
      { intros Hnil. rewrite Hnil in Hone. discriminate Hone. }
      split; [exact Hone |]. split; [rewrite Hone; reflexivity |].
      intros Hnone. rewrite Hf. unfold table_rows in *.
      rewrite filter_app, Hnone. exact Hone.
    + intros t r Hin Hr' Hrec.
      destruct (@Forall2_In_r _ _ _ _ _ r Hw Hr') as (r0 & _ & HR).
      cbv beta in HR.
      destruct (of_run cfg tables r0) eqn:Hof.
      * destruct HR as (n & p & ->). reflexivity.
      * subst r. exfalso.
        assert (Htrue : of_run cfg tables r0 = true).
        { unfold of_run. apply existsb_exists. exists t. auto. }
        congruence.
  - intros e w' H. rewrite H in Hout. exact Hout.
  - clear Hout. intros F (scn & Hread) (parts & Hparts) Hc Hu.
    unfold o2m.initWaitSyncTableRowID. unfold bind at 1.
    destruct (getTableNameRule_run env w) as (rules & ->). rewrite F.
    unfold bind at 1. rewrite Hread.
    unfold bind at 1. rewrite Hparts. simpl lift.
    cbv beta iota delta [ret]. unfold errgroup.
    apply initTables_whole_return; [exact F | |].
    + intros it Hin. apply Hc. rewrite <- (indexed_tables tables 0).
      apply in_map. exact Hin.
    + rewrite indexed_tables. exact Hu.
  - intros Hsrc. apply safe_initWaitSyncTableRowID, Hsrc.
Qed.

(** The theorem on the scenario source.  Tables [T] and [U], two row-id
    chunks each, and the record of a table [V] of an earlier run: the run
    returns, the four rows created carry the snapshot id 1000 the source
    answers, the records of [T] and [U] are stamped with it and the record
    of [V] keeps its own.  And with both tables counted empty the run
    returns. *)
Lemma one_snapshot_per_table_run_witness :
  (exists w',
     o2m.initWaitSyncTableRowID (Scenario.cfg true)
       (Scenario.env ["T"; "U"] 5
          ["ROWID BETWEEN 'a' AND 'b'"; "ROWID BETWEEN 'c' AND 'd'"]
          Scenario.applyOk Scenario.noFault)
       ["T"; "U"] true
       (mkWorld
          [Scenario.waitRow "T" "WAITING" 0 0 0 0;
           Scenario.waitRow "V" "SUCCESS" 900 1 1 0;
           Scenario.waitRow "U" "WAITING" 0 0 0 0] [] [] [] 0)
     = Ret tt w'
     /\ map FullSyncMeta.GlobalScnS (full_sync_meta w')
        = [1000; 1000; 1000; 1000]
     /\ distinct_snapshots (table_rows "T" (full_sync_meta w')) = [1000]
     /\ distinct_snapshots (table_rows "U" (full_sync_meta w')) = [1000]
     /\ map WaitSyncMeta.GlobalScnS (wait_sync_meta w') = [1000; 900; 1000])
  /\ (exists w',
        o2m.initWaitSyncTableRowID (Scenario.cfg true)
          (Scenario.env ["T"; "U"] 0 [] Scenario.applyOk Scenario.noFault)
          ["T"; "U"] true
          (mkWorld
             [Scenario.waitRow "T" "WAITING" 0 0 0 0;
              Scenario.waitRow "U" "WAITING" 0 0 0 0] [] [] [] 0)
        = Ret tt w').
Proof.
  split.
  - assert (H : o2m.initWaitSyncTableRowID (Scenario.cfg true)
                  (Scenario.env ["T"; "U"] 5
                     ["ROWID BETWEEN 'a' AND 'b'"; "ROWID BETWEEN 'c' AND 'd'"]
                     Scenario.applyOk Scenario.noFault)
                  ["T"; "U"] true
                  (mkWorld
                     [Scenario.waitRow "T" "WAITING" 0 0 0 0;
                      Scenario.waitRow "V" "SUCCESS" 900 1 1 0;
                      Scenario.waitRow "U" "WAITING" 0 0 0 0] [] [] [] 0)
                = Ret tt
                    (world_of
                       (o2m.initWaitSyncTableRowID (Scenario.cfg true)
                          (Scenario.env ["T"; "U"] 5
                             ["ROWID BETWEEN 'a' AND 'b'";
                              "ROWID BETWEEN 'c' AND 'd'"]
                             Scenario.applyOk Scenario.noFault)
                          ["T"; "U"] true
                          (mkWorld
                             [Scenario.waitRow "T" "WAITING" 0 0 0 0;
                              Scenario.waitRow "V" "SUCCESS" 900 1 1 0;
                              Scenario.waitRow "U" "WAITING" 0 0 0 0]
                             [] [] [] 0))
                       Scenario.emptyWorld))
      by (vm_compute; reflexivity).
    destruct (one_snapshot_per_table_run (Scenario.cfg true)
                (Scenario.env ["T"; "U"] 5
                   ["ROWID BETWEEN 'a' AND 'b'"; "ROWID BETWEEN 'c' AND 'd'"]
                   Scenario.applyOk Scenario.noFault)
                ["T"; "U"] true
                (mkWorld
                   [Scenario.waitRow "T" "WAITING" 0 0 0 0;
                    Scenario.waitRow "V" "SUCCESS" 900 1 1 0;
                    Scenario.waitRow "U" "WAITING" 0 0 0 0] [] [] [] 0))
      as (Hret & _).
    destruct (Hret _ H) as (scn & created & Hread & Hf & Hs & Hrows & Hw & _).
    assert (Hscn : scn = 1000).
    { vm_compute in Hread. injection Hread as <-. reflexivity. }
    subst scn.
    eexists. split; [exact H |].
    destruct (Hrows "T" (or_introl eq_refl)) as (_ & _ & _ & HT).
    destruct (Hrows "U" (or_intror (or_introl eq_refl))) as (_ & _ & _ & HU).
    split; [vm_compute; reflexivity |].
    split; [exact (HT eq_refl) |].
    split; [exact (HU eq_refl) |].
    vm_compute. reflexivity.
  - destruct (one_snapshot_per_table_run (Scenario.cfg true)
                (Scenario.env ["T"; "U"] 0 [] Scenario.applyOk Scenario.noFault)
                ["T"; "U"] true
                (mkWorld
                   [Scenario.waitRow "T" "WAITING" 0 0 0 0;
                    Scenario.waitRow "U" "WAITING" 0 0 0 0] [] [] [] 0))
      as (_ & _ & Hreturns & _).
    apply Hreturns.
    + intros n. reflexivity.
    + eexists. vm_compute. reflexivity.
    + eexists. reflexivity.
    + intros t [<- | [<- | []]]; vm_compute; reflexivity.
    + vm_compute. reflexivity.
Defined.

(** ** What a run issues *)

Lemma extends_refl (Q : Stmt -> Prop) w : extends_by Q w w.
Proof. exists []. rewrite app_nil_r. split; [reflexivity | constructor]. Qed.

Lemma extends_trans (Q : Stmt -> Prop) w w1 w2 :
  extends_by Q w w1 -> extends_by Q w1 w2 -> extends_by Q w w2.
Proof.
  intros (l1 & H1 & Q1) (l2 & H2 & Q2). exists (l1 ++ l2)%list.
  split; [rewrite H2, H1, app_assoc; reflexivity | apply Forall_app; auto].
Qed.

Lemma extends_same (Q : Stmt -> Prop) w w1 :
  trace w1 = trace w -> extends_by Q w w1.
Proof.
  intros H. exists []. rewrite app_nil_r. split; [exact H | constructor].
Qed.

Lemma extends_issue (Q : Stmt -> Prop) w w1 s :
  Q s -> trace w1 = (trace w ++ [s])%list -> extends_by Q w w1.
Proof. intros HQ H. exists [s]. split; [exact H | constructor; auto]. Qed.

Create HintDb adds_db.

Lemma adds_ret {A} Q (a : A) : adds Q (ret a).
Proof. intros w. apply extends_refl. Qed.

Lemma adds_fail {A} Q (e : error) : adds Q (@fail A e).
Proof. intros w. apply extends_refl. Qed.

Lemma adds_crash {A} Q : adds Q (@crash A).
Proof. intros w. exact I. Qed.

Lemma adds_lift {A} Q (r : result A) : adds Q (lift r).
Proof. destruct r; [apply adds_ret | apply adds_fail]. Qed.

Lemma adds_bind {A B} Q (m : M A) (k : A -> M B) :
  adds Q m -> (forall a, adds Q (k a)) -> adds Q (bind m k).
Proof.
  intros Hm Hk w. specialize (Hm w). unfold post_or_crash, bind in *.
  destruct (m w) as [a w1 | e w1 |]; auto.
  specialize (Hk a w1). unfold post_or_crash in Hk.
  destruct (k a w1); eauto using extends_trans.
Qed.

(** A bind whose continuation is only known to behave on the values the
    first part can return. *)
Lemma adds_bind_on {A B} Q (P : A -> Prop) (m : M A) (k : A -> M B) :
  adds Q m -> (forall w a w1, m w = Ret a w1 -> P a) ->
  (forall a, P a -> adds Q (k a)) -> adds Q (bind m k).
Proof.
  intros Hm HP Hk w. specialize (Hm w). unfold post_or_crash, bind in *.
  destruct (m w) as [a w1 | e w1 |] eqn:E; auto.
  specialize (Hk a (HP _ _ _ E) w1). unfold post_or_crash in Hk.
  destruct (k a w1); eauto using extends_trans.
Qed.

Lemma adds_attempt {A} Q (m : M A) : adds Q m -> adds Q (attempt m).
Proof.
  intros Hm w. specialize (Hm w). unfold post_or_crash, attempt in *.
  destruct (m w); auto.
Qed.

Lemma adds_if {A} Q (b : bool) (m1 m2 : M A) :
  adds Q m1 -> adds Q m2 -> adds Q (if b then m1 else m2).
Proof. destruct b; auto. Qed.

Lemma adds_result_match {A B} Q (r : result A) (f : A -> M B)
    (g : error -> M B) :
  (forall a, adds Q (f a)) -> (forall e, adds Q (g e)) ->
  adds Q (match r with Ok a => f a | Err e => g e end).
Proof. destruct r; auto. Qed.

Lemma adds_forM {A} Q (l : list A) (f : A -> M unit) :
  (forall x, In x l -> adds Q (f x)) -> adds Q (forM_ l f).
Proof.
  induction l as [|x l IH]; intros H; simpl; [apply adds_ret |].
  apply adds_bind; [apply H; left; reflexivity |].
  intros _. apply IH. intros y Hy. apply H. right. exact Hy.
Qed.

Lemma adds_errgroup_run Q (tasks : list (M unit)) :
  (forall t, In t tasks -> adds Q t) ->
  forall first, adds Q (errgroup_run tasks first).
Proof.
  induction tasks as [|t tasks IH]; intros H first w; unfold post_or_crash.
  - simpl. destruct first; apply extends_refl.
  - simpl. pose proof (H t (or_introl eq_refl) w) as Ht.
    unfold post_or_crash in Ht.
    assert (Hrest : forall t', In t' tasks -> adds Q t')
      by (intros t' Ht'; apply H; right; exact Ht').
    destruct (t w) as [u w1 | e w1 |]; [| | exact I].
    + pose proof (IH Hrest first w1) as Hr. unfold post_or_crash in Hr.
      destruct (errgroup_run tasks first w1); eauto using extends_trans.
    + pose proof (IH Hrest
                    (match first with None => Some e | Some _ => first end)
                    w1) as Hr.
      unfold post_or_crash in Hr.
      destruct (errgroup_run tasks _ w1); eauto using extends_trans.
Qed.

Lemma adds_errgroup Q (tasks : list (M unit)) :
  (forall t, In t tasks -> adds Q t) -> adds Q (errgroup tasks).
Proof. intros H. apply adds_errgroup_run. exact H. Qed.

Lemma adds_issue Q (s : Stmt) : Q s -> adds Q (modify (issue s)).
Proof.
  intros HQ w. unfold post_or_crash, modify.
  apply extends_issue with (s := s); [exact HQ | reflexivity].
Qed.

Lemma adds_read {A} Q env (f : World -> A) : adds Q (meta.read env f).
Proof.
  intros w. unfold post_or_crash. rewrite read_run.
  destruct (meta_fault env (meta_calls w)); apply extends_same; reflexivity.
Qed.

Lemma adds_write Q env (s : Stmt) (f : World -> World) :
  Q s -> (forall w, trace (f w) = trace w) -> adds Q (meta.write env s f).
Proof.
  intros HQ Hf w. unfold post_or_crash. rewrite write_run.
  destruct (meta_fault env (meta_calls w));
    apply extends_issue with (s := s); auto.
Qed.

Lemma adds_call1 {A} Q env (s : Stmt) (body : World -> result (A * World)) :
  Q s -> (forall w a w2, body w = Ok (a, w2) -> trace w2 = trace w) ->
  adds Q (meta.call env [s] body).
Proof.
  intros HQ Hb w. unfold post_or_crash. rewrite call_run. cbv zeta.
  simpl fold_left.
  destruct (meta_fault env (meta_calls w)).
  { apply extends_issue with (s := s); auto. }
  destruct (body (issue s (count_call w))) as [[a w2] | e] eqn:E.
  - apply extends_issue with (s := s); [exact HQ |].
    rewrite (Hb _ _ _ E). reflexivity.
  - apply extends_issue with (s := s); auto.
Qed.

Lemma adds_RunQuery Q env sql : adds Q (oracle.RunQuery env sql).
Proof.
  intros w. unfold post_or_crash, oracle.RunQuery.
  destruct (Query env sql w); apply extends_refl.
Qed.

Lemma adds_ExecContext Q sql effect :
  Q (StOracleExec sql) -> adds Q (oracle.ExecContext sql effect).
Proof.
  intros HQ w. unfold post_or_crash, oracle.ExecContext. cbv zeta.
  destruct (effect (issue (StOracleExec sql) w));
    apply extends_issue with (s := StOracleExec sql); auto.
Qed.

Lemma adds_TruncateMySQLTable Q env schemaName tableName :
  Q (StTruncate schemaName tableName) ->
  adds Q (mysql.TruncateMySQLTable env schemaName tableName).
Proof.
  intros HQ w. unfold post_or_crash, mysql.TruncateMySQLTable. cbv zeta.
  destruct (TruncateMySQLTable_fault env schemaName tableName);
    apply extends_issue with (s := StTruncate schemaName tableName); auto.
Qed.

#[export] Hint Resolve adds_ret adds_fail adds_crash adds_lift adds_attempt
  adds_read adds_RunQuery : adds_db.

Lemma full_matches_status (q r : FullSyncMeta.t) :
  meta.full_matches q r = true ->
  meta.str_cond (FullSyncMeta.TaskStatus q) (FullSyncMeta.TaskStatus r) = true.
Proof.
  unfold meta.full_matches. intros H.
  apply andb_prop in H. destruct H as [_ H]. exact H.
Qed.

Lemma waiting_chunks_wait cfg (t : string) (l : list FullSyncMeta.t) :
  Forall (fun m => FullSyncMeta.TaskStatus m = common.TaskStatusWaiting)
    (waiting_chunks cfg t l).
Proof.
  apply Forall_forall. intros m Hm. unfold waiting_chunks in Hm.
  apply filter_In in Hm. destruct Hm as (_ & Hm).
  apply full_matches_status in Hm.
  symmetry. apply (@str_cond_eq common.TaskStatusWaiting _); [| exact Hm].
  discriminate.
Qed.

(** The operations of the metadata store issue bookkeeping only. *)
Ltac adds_store :=
  first
    [ apply adds_read
    | apply adds_write;
      [apply allowed_bookkeeping; reflexivity | intros; reflexivity]
    | apply adds_call1;
      [ apply allowed_bookkeeping; reflexivity
      | let Hbody := fresh "Hbody" in
        intros ? ? ? Hbody;
        match type of Hbody with
        | context [if ?b then _ else _] => destruct b
        end;
        [discriminate Hbody | injection Hbody as _ <-; reflexivity] ] ].

Ltac adds_meta :=
  unfold meta.DetailWaitSyncMetaSuccessTables,
    meta.DeleteWaitSyncMetaSuccessTables, meta.CountsErrWaitSyncMetaBySchema,
    meta.DetailWaitSyncMeta, meta.QueryWaitSyncMetaByPartTask,
    meta.CreateWaitSyncMeta, meta.DeleteWaitSyncMeta, meta.UpdateWaitSyncMeta,
    meta.DeleteFullSyncMetaBySchemaSyncMode,
    meta.DistinctFullSyncMetaTableNameSByTaskStatus,
    meta.CountsFullSyncMetaByTaskTable, meta.CountsErrorFullSyncMeta,
    meta.DetailFullSyncMeta, meta.UpdateFullSyncMeta,
    meta.BatchCreateFullSyncMeta,
    meta.CreateFullSyncMetaAndUpdateWaitSyncMeta,
    meta.DeleteTableFullSyncMetaAndUpdateWaitSyncMeta,
    meta.DetailTableNameRule;
  adds_store.

Section Issued.
Variable cfg : Config.
Variable env : Env.

Local Abbreviation may := (allowed cfg env).

Lemma adds_exec sql effect : adds may (oracle.ExecContext sql effect).
Proof. apply adds_ExecContext, allowed_bookkeeping. reflexivity. Qed.

Lemma adds_CloseOracleChunkTask taskName :
  adds may (oracle.CloseOracleChunkTask taskName).
Proof.
  unfold oracle.CloseOracleChunkTask.
  apply adds_bind; [apply adds_attempt, adds_exec |].
  intros r. apply adds_result_match; auto with adds_db.
Qed.

Lemma adds_StartOracleChunkCreateTask taskName :
  adds may (oracle.StartOracleChunkCreateTask env taskName).
Proof.
  unfold oracle.StartOracleChunkCreateTask.
  apply adds_bind; [auto with adds_db |].
  intros [|r0 rs]; [apply adds_crash |].
  apply adds_bind.
  - apply adds_if; [apply adds_CloseOracleChunkTask | apply adds_ret].
  - intros _. apply adds_bind; [apply adds_attempt, adds_exec |].
    intros r. apply adds_result_match; auto with adds_db.
Qed.

Lemma adds_StartOracleCreateChunkByRowID taskName schemaName tableName
    chunkSize :
  adds may (oracle.StartOracleCreateChunkByRowID env taskName schemaName
              tableName chunkSize).
Proof.
  unfold oracle.StartOracleCreateChunkByRowID.
  apply adds_bind; [apply adds_attempt, adds_exec |].
  intros r. apply adds_result_match; auto with adds_db.
Qed.

Lemma adds_GetOracleCurrentSnapshotSCN :
  adds may (oracle.GetOracleCurrentSnapshotSCN env).
Proof.
  unfold oracle.GetOracleCurrentSnapshotSCN.
  apply adds_bind; [auto with adds_db |].
  intros [|r0 rs]; [apply adds_crash |].
  apply adds_result_match; auto with adds_db.
Qed.

Lemma adds_recordFailed (m : FullSyncMeta.t) (stage : string) (err : error) :
  adds may (o2m.recordFailed env m stage err).
Proof.
  unfold o2m.recordFailed.
  apply adds_bind; [apply adds_attempt; adds_meta |].
  intros r. apply adds_result_match; auto with adds_db.
Qed.

Lemma adds_syncChunk (m : FullSyncMeta.t) :
  FullSyncMeta.TaskStatus m = common.TaskStatusWaiting ->
  adds may (o2m.syncChunk cfg env m).
Proof.
  intros Hm. unfold o2m.syncChunk.
  apply adds_bind; [apply adds_issue, allowed_extract, Hm |].
  intros _.
  destruct (IExtractor env m (InsertBatchSize cfg)) as [[c b] | err];
    [| apply adds_recordFailed].
  destruct (ITranslator env m c b); [apply adds_recordFailed |].
  apply adds_bind; [apply adds_issue, allowed_apply, Hm |].
  intros _.
  destruct (IApplier env m c b); [apply adds_recordFailed |].
  apply adds_bind; [apply adds_attempt; adds_meta |].
  intros r. apply adds_result_match; auto with adds_db.
Qed.

Lemma adds_syncTable (t : string) : adds may (o2m.syncTable cfg env t).
Proof.
  unfold o2m.syncTable.
  apply adds_bind; [adds_meta |]. intros _.
  apply adds_bind_on
    with (P := Forall (fun m => FullSyncMeta.TaskStatus m
                                = common.TaskStatusWaiting)).
  - adds_meta.
  - intros w a w1 H. unfold meta.DetailFullSyncMeta in H.
    rewrite read_run in H.
    destruct (meta_fault env (meta_calls w)); [discriminate |].
    injection H as <- _. apply (waiting_chunks_wait cfg t).
  - intros fullMetas Hall. apply adds_bind.
    + unfold o2m.syncChunks. apply adds_errgroup. intros task Hin.
      apply in_map_iff in Hin. destruct Hin as (m & <- & Hm).
      apply adds_syncChunk. rewrite Forall_forall in Hall. auto.
    + intros _. apply adds_bind; [apply adds_attempt; adds_meta |].
      intros r. apply adds_result_match; [| auto with adds_db].
      intros totalErrs. apply adds_if; adds_meta.
Qed.

Lemma adds_fullPartSyncTable (tables : list string) :
  adds may (o2m.fullPartSyncTable cfg env tables).
Proof.
  unfold o2m.fullPartSyncTable. apply adds_errgroup. intros task Hin.
  apply in_map_iff in Hin. destruct Hin as (t & <- & _).
  apply adds_syncTable.
Qed.

Lemma adds_createWholeTableChunk t target scn col isPartition :
  adds may (o2m.createWholeTableChunk cfg env t target scn col isPartition).
Proof. unfold o2m.createWholeTableChunk. adds_meta. Qed.

Lemma adds_initTable rules scn parts coll workerID t :
  adds may (o2m.initTable cfg env rules scn parts coll workerID t).
Proof.
  unfold o2m.initTable.
  apply adds_bind;
    [unfold o2m.adjustTableSelectColumn; auto with adds_db |].
  intros col. apply adds_bind; [auto with adds_db |].
  intros rows. apply adds_if; [apply adds_createWholeTableChunk |].
  apply adds_bind; [apply adds_StartOracleChunkCreateTask |]. intros _.
  apply adds_bind; [apply adds_StartOracleCreateChunkByRowID |]. intros _.
  apply adds_bind;
    [unfold oracle.GetOracleTableChunksByRowID; auto with adds_db |].
  intros chunkRes. apply adds_if; [apply adds_createWholeTableChunk |].
  apply adds_bind; [adds_meta |]. intros _.
  apply adds_bind; [adds_meta |]. intros _.
  apply adds_CloseOracleChunkTask.
Qed.

Lemma adds_initWaitSyncTableRowID tables coll :
  adds may (o2m.initWaitSyncTableRowID cfg env tables coll).
Proof.
  unfold o2m.initWaitSyncTableRowID.
  apply adds_bind.
  { unfold o2m.getTableNameRule. apply adds_bind; [adds_meta |].
    intros rules. apply adds_ret. }
  intros rules. apply adds_bind; [apply adds_GetOracleCurrentSnapshotSCN |].
  intros scn. apply adds_bind; [auto with adds_db |].
  intros parts. apply adds_errgroup. intros task Hin.
  apply in_map_iff in Hin. destruct Hin as (it & <- & _).
  apply adds_initTable.
Qed.

Lemma adds_checkPartSync (details : list WaitSyncMeta.t)
    (waitTables : list string) :
  forall acc, adds may (o2m.checkPartSync cfg env details waitTables acc).
Proof.
  induction details as [|p rest IH]; intros acc; simpl; [apply adds_ret |].
  apply adds_if; [apply IH |].
  apply adds_bind; [adds_meta |].
  intros counts. apply adds_if; apply IH.
Qed.

Lemma adds_fullAfterGate (exporters : list string) (coll : bool) :
  filterCFGTable env = Ok exporters ->
  adds may (o2m.fullAfterGate cfg env exporters coll).
Proof.
  intros Hexp. unfold o2m.fullAfterGate.
  apply adds_bind.
  { apply adds_forM. intros tableName _.
    apply adds_bind; [adds_meta |].
    intros metas. apply adds_if; [adds_meta | apply adds_ret]. }
  intros _. apply adds_bind.
  { destruct (EnableCheckpoint cfg) eqn:Hcp; simpl negb; cbv iota;
      [apply adds_ret |].
    apply adds_bind; [adds_meta |]. intros _.
    apply adds_forM. intros tableName Hin.
    apply adds_bind; [adds_meta |]. intros _.
    apply adds_bind.
    { apply adds_TruncateMySQLTable.
      exact (allowed_truncate cfg env tableName Hcp Hexp Hin). }
    intros _. apply adds_bind; [adds_meta |].
    intros metas. apply adds_if; [adds_meta | apply adds_ret]. }
  intros _. apply adds_bind; [adds_meta |]. intros waitSyncDetails.
  cbv zeta.
  apply adds_bind; [adds_meta |]. intros partSyncDetails.
  apply adds_bind; [adds_meta |]. intros waitFullChunkTables.
  apply adds_bind; [apply adds_checkPartSync |]. intros panicTblFullSlice.
  apply adds_if; [apply adds_fail |].
  apply adds_bind.
  { apply adds_if; [apply adds_fullPartSyncTable | apply adds_ret]. }
  intros _. apply adds_bind.
  { apply adds_if; [| apply adds_ret].
    unfold o2m.fullWaitSyncTable.
    apply adds_bind; [apply adds_initWaitSyncTableRowID |].
    intros _. apply adds_fullPartSyncTable. }
  intros _. apply adds_bind; [adds_meta |]. intros succTotals.
  apply adds_bind; [adds_meta |]. intros failedTotals. apply adds_ret.
Qed.

Lemma adds_Full : adds may (o2m.Full cfg env).
Proof.
  unfold o2m.Full.
  apply adds_bind; [auto with adds_db |]. intros oracleDBVersion.
  apply adds_if; [apply adds_fail |]. cbv zeta.
  apply adds_bind_on with (P := fun a => filterCFGTable env = Ok a).
  - auto with adds_db.
  - intros w a w1 H. destruct (filterCFGTable env); [| discriminate].
    injection H as <- _. reflexivity.
  - intros exporters Hexp.
    apply adds_bind; [adds_meta |]. intros tablesByMeta.
    apply adds_bind; [apply adds_if; [adds_meta | apply adds_ret] |].
    intros _. apply adds_bind; [apply adds_attempt; adds_meta |].
    intros r. apply adds_result_match; [| intros; apply adds_fail].
    intros errTotals. apply adds_if; [apply adds_fail |].
    apply adds_fullAfterGate. exact Hexp.
Qed.

End Issued.

(** What [Full] adds to the trace, also when it panics. *)
Lemma Full_extends cfg env w :
  extends_by (allowed cfg env) w (world_of (o2m.Full cfg env w) w).
Proof.
  pose proof (adds_Full cfg env w) as H. unfold post_or_crash in H.
  destruct (o2m.Full cfg env w); simpl; auto using extends_refl.
Qed.

(** X12.  A full-load run truncates nothing it was not told to: with the
    checkpoint enabled it issues no truncation at all, and with the
    checkpoint disabled every truncation it issues is of a table of the
    configured list, in the destination schema of the configuration.  This
    holds for every source and every fault of the metadata store, whether
    the run returns or fails with an error (of a run that panics only the
    initial world is observed). *)
Theorem full_truncates_only_configured_tables :
  forall cfg env (w : World),
  exists issued,
    trace (world_of (o2m.Full cfg env w) w) = (trace w ++ issued)%list
    /\ forall s, In s issued -> is_truncate s = true ->
         EnableCheckpoint cfg = false
         /\ exists exporters t,
              filterCFGTable env = Ok exporters /\ In t exporters
              /\ s = StTruncate (MySQLSchemaName cfg) t.
Proof.
  intros cfg env w. destruct (Full_extends cfg env w) as (l & Hl & Hall).
  exists l. split; [exact Hl |].
  intros s Hs Htr. rewrite Forall_forall in Hall.
  destruct (Hall s Hs) as [s Hb | m _ | m _ | exporters t Hcp Hexp Hin].
  - unfold bookkeeping in Hb. rewrite Htr in Hb. discriminate.
  - discriminate.
  - discriminate.
  - split; [exact Hcp |]. exists exporters, t. auto.
Qed.

(** X13.  A full-load run extracts and applies only chunks whose FullSync
    row it found WAITING: a chunk recorded SUCCESS or FAILED is never run
    again, whatever the source and the faults of the metadata store,
    whether the run returns or fails with an error. *)
Theorem full_runs_only_waiting_chunks :
  forall cfg env (w : World),
  exists issued,
    trace (world_of (o2m.Full cfg env w) w) = (trace w ++ issued)%list
    /\ forall m, In (StExtract m) issued \/ In (StApply m) issued ->
         FullSyncMeta.TaskStatus m = common.TaskStatusWaiting.
Proof.
  intros cfg env w. destruct (Full_extends cfg env w) as (l & Hl & Hall).
  exists l. split; [exact Hl |].
  rewrite Forall_forall in Hall.
  intros m [Hm | Hm]; specialize (Hall _ Hm);
    inversion Hall as [s Hb | m' Hw | m' Hw | ]; subst;
    try discriminate; assumption.
Qed.

(** ** Panics *)

Lemma safe_recordFailed env (m : FullSyncMeta.t) (stage : string)
    (err : error) :
  safe (o2m.recordFailed env m stage err).
Proof.
  unfold o2m.recordFailed.
  apply safe_bind; [apply safe_attempt, safe_call |].
  intros r. apply safe_result_match; auto with safe_db.
Qed.

Lemma safe_syncChunk cfg env (m : FullSyncMeta.t) :
  safe (o2m.syncChunk cfg env m).
Proof.
  unfold o2m.syncChunk.
  apply safe_bind; [apply safe_modify |]. intros _.
  destruct (IExtractor env m (InsertBatchSize cfg)) as [[c b] | err];
    [| apply safe_recordFailed].
  destruct (ITranslator env m c b); [apply safe_recordFailed |].
  apply safe_bind; [apply safe_modify |]. intros _.
  destruct (IApplier env m c b); [apply safe_recordFailed |].
  apply safe_bind; [apply safe_attempt, safe_call |].
  intros r. apply safe_result_match; auto with safe_db.
Qed.

Lemma safe_syncTable cfg env (t : string) : safe (o2m.syncTable cfg env t).
Proof.
  unfold o2m.syncTable.
  apply safe_bind; [apply safe_call |]. intros _.
  apply safe_bind; [apply safe_call |]. intros fullMetas.
  apply safe_bind.
  { unfold o2m.syncChunks. apply safe_errgroup, Forall_forall.
    intros task Hin. apply in_map_iff in Hin. destruct Hin as (m & <- & _).
    apply safe_syncChunk. }
  intros _. apply safe_bind; [apply safe_attempt, safe_call |].
  intros r. apply safe_result_match; [| auto with safe_db].
  intros totalErrs. apply safe_if; apply safe_call.
Qed.

Lemma safe_fullPartSyncTable cfg env (tables : list string) :
  safe (o2m.fullPartSyncTable cfg env tables).
Proof.
  unfold o2m.fullPartSyncTable. apply safe_errgroup, Forall_forall.
  intros task Hin. apply in_map_iff in Hin. destruct Hin as (t & <- & _).
  apply safe_syncTable.
Qed.

Lemma safe_checkPartSync cfg env (details : list WaitSyncMeta.t)
    (waitTables : list string) :
  forall acc, safe (o2m.checkPartSync cfg env details waitTables acc).
Proof.
  induction details as [|p rest IH]; intros acc; simpl; [apply safe_ret |].
  apply safe_if; [apply IH |].
  apply safe_bind; [apply safe_call |].
  intros counts. apply safe_if; apply IH.
Qed.

Lemma safe_TruncateMySQLTable env schemaName tableName :
  safe (mysql.TruncateMySQLTable env schemaName tableName).
Proof.
  intros w. unfold mysql.TruncateMySQLTable. cbv zeta.
  destruct (TruncateMySQLTable_fault env schemaName tableName); reflexivity.
Qed.

Lemma safe_fullAfterGate cfg env (exporters : list string) (coll : bool) :
  answers_first_row env ->
  safe (o2m.fullAfterGate cfg env exporters coll).
Proof.
  intros Hsrc. unfold o2m.fullAfterGate.
  apply safe_bind.
  { apply safe_forM. intros tableName.
    apply safe_bind; [apply safe_call |].
    intros metas. apply safe_if; [apply safe_call | apply safe_ret]. }
  intros _. apply safe_bind.
  { apply safe_if; [| apply safe_ret].
    apply safe_bind; [apply safe_call |]. intros _.
    apply safe_forM. intros tableName.
    apply safe_bind; [apply safe_call |]. intros _.
    apply safe_bind; [apply safe_TruncateMySQLTable |]. intros _.
    apply safe_bind; [apply safe_call |].
    intros metas. apply safe_if; [apply safe_call | apply safe_ret]. }
  intros _. apply safe_bind; [apply safe_call |]. intros waitSyncDetails.
  cbv zeta.
  apply safe_bind; [apply safe_call |]. intros partSyncDetails.
  apply safe_bind; [apply safe_call |]. intros waitFullChunkTables.
  apply safe_bind; [apply safe_checkPartSync |]. intros panicTblFullSlice.
  apply safe_if; [apply safe_fail |].
  apply safe_bind.
  { apply safe_if; [apply safe_fullPartSyncTable | apply safe_ret]. }
  intros _. apply safe_bind.
  { apply safe_if; [| apply safe_ret].
    unfold o2m.fullWaitSyncTable.
    apply safe_bind; [apply safe_initWaitSyncTableRowID, Hsrc |].
    intros _. apply safe_fullPartSyncTable. }
  intros _. apply safe_bind; [apply safe_call |]. intros succTotals.
  apply safe_bind; [apply safe_call |]. intros failedTotals. apply safe_ret.
Qed.

(** X14.  The unchecked reads of the full-load engine are the first row
    of the snapshot query and of the chunk-count query, and nothing else
    in the engine panics: on a source that answers both queries with at
    least one row, or with an error, a run returns or fails with an error
    value, for every configuration, store and schedule of store failures
    (the stages and the store are taken to answer with a value or an
    error).  Both reads are unchecked indeed: a chunker run whose snapshot
    query answers no row panics as soon as the lookup of the table-name
    rules has answered, and the creation of a chunk task whose count query
    answers no row panics. *)
Theorem full_never_panics_on_answering_source :
  forall cfg env,
    (answers_first_row env ->
     forall w, is_crash (o2m.Full cfg env w) = false)
    /\ (forall tables coll w,
          meta_fault env (meta_calls w) = None ->
          Query env "select min(current_scn) CURRENT_SCN from gv$database"
            (count_call w) = Ok [] ->
          o2m.initWaitSyncTableRowID cfg env tables coll w = Crash)
    /\ (forall taskName w,
          Query env
            (common.StringsBuilder
               ["SELECT COUNT(1) COUNT FROM user_parallel_execute_chunks WHERE TASK_NAME='";
                taskName; "'"]) w = Ok [] ->
          oracle.StartOracleChunkCreateTask env taskName w = Crash).
Proof.
  intros cfg env. split; [| split].
  - intros Hsrc.
    change (safe (o2m.Full cfg env)).
    unfold o2m.Full.
    apply safe_bind; [apply safe_lift |]. intros oracleDBVersion.
    apply safe_if; [apply safe_fail |]. cbv zeta.
    apply safe_bind; [apply safe_lift |]. intros exporters.
    apply safe_bind; [apply safe_call |]. intros tablesByMeta.
    apply safe_bind; [apply safe_if; [apply safe_call | apply safe_ret] |].
    intros _. apply safe_bind; [apply safe_attempt, safe_call |].
    intros r. apply safe_result_match; [| intros; apply safe_fail].
    intros errTotals. apply safe_if; [apply safe_fail |].
    apply safe_fullAfterGate, Hsrc.
  - intros tables coll w F Hq.
    unfold o2m.initWaitSyncTableRowID. unfold bind at 1.
    destruct (getTableNameRule_run env w) as (rules & ->). rewrite F.
    unfold bind at 1.
    unfold oracle.GetOracleCurrentSnapshotSCN, oracle.RunQuery.
    unfold bind at 1. rewrite Hq. reflexivity.
  - intros taskName w Hq.
    unfold oracle.StartOracleChunkCreateTask, oracle.RunQuery. cbv zeta.
    unfold bind at 1. rewrite Hq. reflexivity.
Qed.

(** The scenario source answers its first-row queries. *)
Lemma scenario_answers_first_row exporters statRows chunks applier faults :
  answers_first_row (Scenario.env exporters statRows chunks applier faults).
Proof.
  split.
  - intros w. discriminate.
  - intros taskName w.
    change (Scenario.sourceQuery "1000" (Scenario.countSQL taskName) w
            <> Ok []).
    unfold Scenario.sourceQuery.
    change (String.eqb (Scenario.countSQL taskName)
              "select min(current_scn) CURRENT_SCN from gv$database")
      with false.
    change (String.prefix "SELECT COUNT(1)" (Scenario.countSQL taskName))
      with true.
    cbv iota.
    destruct (find _ (parallel_tasks w)); discriminate.
Defined.

(** The theorem at the scenario source, on a fresh store that answers
    every call: the run of table [T] passes both reads, creates the chunk
    task on the source and returns.  On the same source answering no row
    the chunker panics at the snapshot read, and the run with it. *)
Lemma full_never_panics_on_answering_source_witness :
  (is_crash
     (o2m.Full (Scenario.cfg true)
        (Scenario.env ["T"] 5 ["ROWID BETWEEN 'a' AND 'b'"] Scenario.applyOk
           Scenario.noFault)
        Scenario.emptyWorld)
   = false
   /\ is_ret
        (o2m.Full (Scenario.cfg true)
           (Scenario.env ["T"] 5 ["ROWID BETWEEN 'a' AND 'b'"]
              Scenario.applyOk Scenario.noFault)
           Scenario.emptyWorld)
      = true
   /\ List.length
        (filter is_oracle_exec
           (trace
              (world_of
                 (o2m.Full (Scenario.cfg true)
                    (Scenario.env ["T"] 5 ["ROWID BETWEEN 'a' AND 'b'"]
                       Scenario.applyOk Scenario.noFault)
                    Scenario.emptyWorld)
                 Scenario.emptyWorld)))
      = 3%nat)
  /\ o2m.initWaitSyncTableRowID (Scenario.cfg true)
       (Scenario.silent
          (Scenario.env ["T"] 5 ["ROWID BETWEEN 'a' AND 'b'"]
             Scenario.applyOk Scenario.noFault))
       ["T"] true Scenario.emptyWorld
     = Crash
  /\ o2m.Full (Scenario.cfg true)
       (Scenario.silent
          (Scenario.env ["T"] 5 ["ROWID BETWEEN 'a' AND 'b'"]
             Scenario.applyOk Scenario.noFault))
       Scenario.emptyWorld
     = Crash.
Proof.
  split; [| split].
  - split; [| split; vm_compute; reflexivity].
    destruct (full_never_panics_on_answering_source (Scenario.cfg true)
                (Scenario.env ["T"] 5 ["ROWID BETWEEN 'a' AND 'b'"]
                   Scenario.applyOk Scenario.noFault)) as (Hsafe & _).
    exact (Hsafe (scenario_answers_first_row _ _ _ _ _) Scenario.emptyWorld).
  - destruct (full_never_panics_on_answering_source (Scenario.cfg true)
                (Scenario.silent
                   (Scenario.env ["T"] 5 ["ROWID BETWEEN 'a' AND 'b'"]
                      Scenario.applyOk Scenario.noFault)))
      as (_ & Hscn & _).
    apply Hscn; reflexivity.
  - vm_compute. reflexivity.
Defined.

(** ** The table-name rules *)

Lemma find_app {A} (f : A -> bool) (l1 l2 : list A) :
  find f (l1 ++ l2)%list
  = match find f l1 with Some x => Some x | None => find f l2 end.
Proof.
  induction l1 as [|x l1 IH]; simpl; [reflexivity |].
  destruct (f x); [reflexivity | exact IH].
Qed.

Lemma rule_lookup_fold (rules : list (string * string)) :
  forall (acc : list (string * string)) (k : string),
    o2m.rule_lookup
      (fold_left
         (fun m tr =>
            (common.StringUPPER (fst tr), common.StringUPPER (snd tr)) :: m)
         rules acc) k
    = match find (fun tr => String.eqb k (common.StringUPPER (fst tr)))
                 (rev rules) with
      | Some tr => Some (common.StringUPPER (snd tr))
      | None => o2m.rule_lookup acc k
      end.
Proof.
  induction rules as [|tr rules IH]; intros acc k; [reflexivity |].
  simpl fold_left. rewrite IH. simpl rev. rewrite find_app.
  destruct (find (fun tr0 => String.eqb k (common.StringUPPER (fst tr0)))
                 (rev rules)) as [hit |]; [reflexivity |].
  simpl. destruct (String.eqb k (common.StringUPPER (fst tr))); reflexivity.
Qed.

(** X15.  The rule map the chunker builds answers a table name with the
    upper-cased target of the last rule whose upper-cased source is that
    name: where two rules name the same source table, in whatever case, the
    later one decides; a name no rule matches has no entry. *)
Theorem last_table_name_rule_wins :
  forall env (w w' : World) (tableNameRule : list (string * string)),
    o2m.getTableNameRule env w = Ret tableNameRule w' ->
    forall k,
      o2m.rule_lookup tableNameRule k
      = option_map (fun tr => common.StringUPPER (snd tr))
          (find (fun tr => String.eqb k (common.StringUPPER (fst tr)))
                (rev (table_name_rules env))).
Proof.
  intros env w w' m H k. unfold o2m.getTableNameRule in H.
  apply bind_ret_inv in H. destruct H as (rules & w1 & Hread & H).
  unfold meta.DetailTableNameRule in Hread. rewrite read_run in Hread.
  destruct (meta_fault env (meta_calls w)); [discriminate |].
  injection Hread as <- _. injection H as <- _.
  rewrite rule_lookup_fold.
  destruct (find _ (rev (table_name_rules env))); reflexivity.
Qed.

(** The theorem at two rules for the same source table, written in
    different case. *)
Lemma last_table_name_rule_wins_witness :
  exists tableNameRule w',
    o2m.getTableNameRule
      (mkEnv "11" "12" Scenario.digits 0 0 Scenario.parseUint (Ok "19")
         (Ok ["T"]) [("t", "old_t"); ("T", "new_t")]
         (fun _ => Ok []) (fun _ _ => Ok 0) (fun _ _ _ => Ok [])
         (Scenario.sourceQuery "1000") (fun _ _ _ => Ok [])
         (fun _ _ => Ok ([], [])) (fun _ _ _ => None) (fun _ _ _ => None)
         (fun _ _ => None) Scenario.noFault)
      Scenario.emptyWorld
    = Ret tableNameRule w'
    /\ o2m.rule_lookup tableNameRule "T" = Some "NEW_T".
Proof.
  eexists. eexists.
  assert (H : o2m.getTableNameRule
                (mkEnv "11" "12" Scenario.digits 0 0 Scenario.parseUint
                   (Ok "19") (Ok ["T"]) [("t", "old_t"); ("T", "new_t")]
                   (fun _ => Ok []) (fun _ _ => Ok 0) (fun _ _ _ => Ok [])
                   (Scenario.sourceQuery "1000") (fun _ _ _ => Ok [])
                   (fun _ _ => Ok ([], [])) (fun _ _ _ => None)
                   (fun _ _ _ => None) (fun _ _ => None) Scenario.noFault)
                Scenario.emptyWorld
              = Ret [("T", "NEW_T"); ("T", "OLD_T")]
                  (count_call Scenario.emptyWorld))
    by (vm_compute; reflexivity).
  split; [exact H |].
  exact (@last_table_name_rule_wins _ _ _ _ H "T").
Defined.

(** ** The resume check *)

Lemma ends_bind {A B} (m : M A) (k : A -> M B) w
    (QR : B -> World -> Prop) (QF : World -> Prop) :
  ends m w (fun a w1 => ends (k a) w1 QR QF) QF -> ends (bind m k) w QR QF.
Proof. unfold ends, bind. destruct (m w); auto. Qed.

Lemma ends_ret {A} (a : A) w (QR : A -> World -> Prop) QF :
  QR a w -> ends (ret a) w QR QF.
Proof. auto. Qed.

Lemma ends_fail {A} (e : error) w (QR : A -> World -> Prop)
    (QF : World -> Prop) :
  QF w -> ends (fail e) w QR QF.
Proof. auto. Qed.

Lemma ends_lift {A} (r : result A) w (QR : A -> World -> Prop)
    (QF : World -> Prop) :
  QF w -> (forall a, r = Ok a -> QR a w) -> ends (lift r) w QR QF.
Proof.
  intros HF HR. destruct r; [apply HR; reflexivity | exact HF].
Qed.

Lemma ends_read {A} env (f : World -> A) w (QR : A -> World -> Prop)
    (QF : World -> Prop) :
  QF (count_call w) -> QR (f (count_call w)) (count_call w) ->
  ends (meta.read env f) w QR QF.
Proof.
  intros HF HR. unfold ends. rewrite read_run.
  destruct (meta_fault env (meta_calls w)); assumption.
Qed.

Lemma ends_write env (s : Stmt) (f : World -> World) w
    (QR : unit -> World -> Prop) (QF : World -> Prop) :
  QF (issue s (count_call w)) -> QR tt (f (issue s (count_call w))) ->
  ends (meta.write env s f) w QR QF.
Proof.
  intros HF HR. unfold ends. rewrite write_run.
  destruct (meta_fault env (meta_calls w)); assumption.
Qed.

Lemma ends_call1 {A} env (s : Stmt) (body : World -> result (A * World)) w
    (QR : A -> World -> Prop) (QF : World -> Prop) :
  QF (issue s (count_call w)) ->
  (forall a w2, body (issue s (count_call w)) = Ok (a, w2) -> QR a w2) ->
  ends (meta.call env [s] body) w QR QF.
Proof.
  intros HF HR. unfold ends. rewrite call_run. cbv zeta. simpl fold_left.
  destruct (meta_fault env (meta_calls w)); [assumption |].
  destruct (body (issue s (count_call w))) as [[a w2] | e] eqn:E; auto.
Qed.

Lemma ends_attempt {A} (m : M A) w (QR : result A -> World -> Prop)
    (QF : World -> Prop) :
  ends m w (fun a w' => QR (Ok a) w') (fun w' => forall e, QR (Err e) w') ->
  ends (attempt m) w QR QF.
Proof. unfold ends, attempt. destruct (m w); auto. Qed.

Lemma ends_forM {A} (I : World -> Prop) (l : list A) (f : A -> M unit)
    (QR : unit -> World -> Prop) (QF : World -> Prop) :
  (forall x w1, I w1 -> ends (f x) w1 (fun _ w2 => I w2) QF) ->
  (forall w1, I w1 -> QR tt w1) ->
  forall w, I w -> ends (forM_ l f) w QR QF.
Proof.
  intros Hf HR. induction l as [|x l IH]; intros w HI; simpl.
  - apply ends_ret. auto.
  - apply ends_bind. specialize (Hf x w HI). unfold ends in *.
    destruct (f x w); auto. apply IH. exact Hf.
Qed.

Lemma kept_refl cfg w : kept cfg w w.
Proof. repeat split. apply extends_refl. Qed.

Lemma kept_count cfg w0 w : kept cfg w0 w -> kept cfg w0 (count_call w).
Proof.
  intros (Hf & Hr & He). repeat split; [exact Hf | exact Hr |].
  eapply extends_trans; [exact He | apply extends_same; reflexivity].
Qed.

Lemma kept_issue cfg w0 w s :
  metadata_only s = true -> kept cfg w0 w -> kept cfg w0 (issue s w).
Proof.
  intros Hs (Hf & Hr & He). repeat split; [exact Hf | exact Hr |].
  eapply extends_trans; [exact He |].
  apply extends_issue with (s := s); [exact Hs | reflexivity].
Qed.

Lemma kept_set_wait cfg w0 w ws :
  filter (running_record cfg) ws
  = filter (running_record cfg) (wait_sync_meta w) ->
  kept cfg w0 w -> kept cfg w0 (set_wait ws w).
Proof.
  intros Hws (Hf & Hr & He). repeat split; [exact Hf | |].
  - simpl. rewrite Hws. exact Hr.
  - eapply extends_trans; [exact He | apply extends_same; reflexivity].
Qed.

Lemma running_not_status cfg (q r : WaitSyncMeta.t) :
  WaitSyncMeta.TaskStatus q <> "" ->
  WaitSyncMeta.TaskStatus q <> common.TaskStatusRunning ->
  running_record cfg r = true -> meta.wait_matches q r = false.
Proof.
  intros Hne Hnr Hrun.
  destruct (meta.wait_matches q r) eqn:Hq; [| reflexivity].
  apply wait_matches_status in Hrun. apply wait_matches_status in Hq.
  simpl in Hrun.
  rewrite (@str_cond_status_clash common.TaskStatusRunning
             (WaitSyncMeta.TaskStatus q) (WaitSyncMeta.TaskStatus r)) in Hq;
    try discriminate; auto.
Qed.

Lemma running_after_delete cfg (c : WaitSyncMeta.t -> bool)
    (l : list WaitSyncMeta.t) :
  (forall r, running_record cfg r = true -> c r = false) ->
  filter (running_record cfg) (meta.delete_where c l)
  = filter (running_record cfg) l.
Proof.
  intros Hc. unfold meta.delete_where.
  induction l as [|r l IH]; simpl; [reflexivity |].
  destruct (running_record cfg r) eqn:Hr.
  - rewrite (Hc r Hr). simpl. rewrite Hr, IH. reflexivity.
  - destruct (negb (c r)); simpl; [rewrite Hr |]; exact IH.
Qed.

Lemma running_after_create cfg (rec : WaitSyncMeta.t)
    (l : list WaitSyncMeta.t) :
  running_record cfg rec = false ->
  filter (running_record cfg) (l ++ [rec])%list
  = filter (running_record cfg) l.
Proof.
  intros Hrec. rewrite filter_app. simpl. rewrite Hrec.
  apply app_nil_r.
Qed.

Lemma waitingRecord_not_running cfg env (tableName : string) :
  running_record cfg (o2m.waitingRecord cfg env tableName) = false.
Proof.
  destruct (running_record cfg (o2m.waitingRecord cfg env tableName)) eqn:E;
    [| reflexivity].
  apply wait_matches_status in E. discriminate E.
Qed.

Lemma ends_seq {A B} (m : M A) (k : A -> M B) w
    (Q1 : A -> World -> Prop) (QR : B -> World -> Prop)
    (QF : World -> Prop) :
  ends m w Q1 QF -> (forall a w1, Q1 a w1 -> ends (k a) w1 QR QF) ->
  ends (bind m k) w QR QF.
Proof.
  intros Hm Hk. unfold ends, bind in *. destruct (m w); auto.
  apply Hk. exact Hm.
Qed.

(** The loop of the resume check: it reads the store and collects the
    RUNNING records that fail the test. *)
Lemma checkPartSync_ends cfg env w0 (waitTables : list string)
    (details : list WaitSyncMeta.t) :
  forall acc w,
    kept cfg w0 w ->
    ends (o2m.checkPartSync cfg env details waitTables acc) w
      (fun l w' =>
         kept cfg w0 w'
         /\ l = (acc
                 ++ map WaitSyncMeta.TableNameS
                      (filter
                         (fun p =>
                            negb (common.IsContainString waitTables
                                    (WaitSyncMeta.TableNameS p))
                            || negb (meta.count_where
                                       (meta.full_matches
                                          (o2m.fullQuery cfg
                                             (o2m.schemaUPPER cfg)
                                             (WaitSyncMeta.TableNameS p) ""))
                                       (full_sync_meta w0)
                                     =? WaitSyncMeta.ChunkTotalNums p))
                         details))%list)
      (kept cfg w0).
Proof.
  induction details as [|p rest IH]; intros acc w Hk; simpl.
  - apply ends_ret. rewrite app_nil_r. auto.
  - destruct (negb (common.IsContainString waitTables
                      (WaitSyncMeta.TableNameS p))) eqn:Hc; simpl.
    + specialize (IH (acc ++ [WaitSyncMeta.TableNameS p])%list w Hk).
      unfold ends in *.
      destruct (o2m.checkPartSync cfg env rest waitTables _ w); auto.
      destruct IH as (Hk' & ->). split; [exact Hk' |].
      rewrite <- app_assoc. reflexivity.
    + apply ends_bind. unfold meta.CountsFullSyncMetaByTaskTable.
      apply ends_read; [apply kept_count, Hk |].
      change (full_sync_meta (count_call w)) with (full_sync_meta w).
      rewrite (proj1 Hk).
      destruct (negb (meta.count_where _ (full_sync_meta w0)
                      =? WaitSyncMeta.ChunkTotalNums p)).
      * specialize (IH (acc ++ [WaitSyncMeta.TableNameS p])%list
                      (count_call w) (kept_count Hk)).
        unfold ends in *.
        destruct (o2m.checkPartSync cfg env rest waitTables _ (count_call w));
          auto.
        destruct IH as (Hk' & ->). split; [exact Hk' |].
        rewrite <- app_assoc. reflexivity.
      * apply IH, kept_count, Hk.
Qed.

Lemma cleanup_kept cfg env w0 w1 (tables : list string) :
  kept cfg w0 w1 ->
  ends (meta.DeleteWaitSyncMetaSuccessTables env
          (o2m.waitQuery cfg (o2m.schemaUPPER cfg) ""
             common.TaskStatusSuccess 0 0) tables) w1
    (fun _ w2 => kept cfg w0 w2) (kept cfg w0).
Proof.
  intros Hk. unfold meta.DeleteWaitSyncMetaSuccessTables.
  apply ends_write.
  - apply kept_issue; [reflexivity | apply kept_count, Hk].
  - apply kept_set_wait; [| apply kept_issue; [reflexivity |
                                               apply kept_count, Hk]].
    apply running_after_delete. intros r Hr.
    rewrite (@running_not_status cfg _ r); [reflexivity | | | exact Hr];
      discriminate.
Qed.

(** The registration of one configured table. *)
Lemma register_kept cfg env w0 w1 (tableName : string) :
  kept cfg w0 w1 ->
  ends (bind (meta.DetailWaitSyncMeta env
                (o2m.waitQuery cfg (o2m.schemaUPPER cfg) tableName "" 0 0))
          (fun waitSyncMetas =>
             if Nat.eqb (List.length waitSyncMetas) 0
             then meta.CreateWaitSyncMeta env
                    (o2m.waitingRecord cfg env tableName)
             else ret tt)) w1
    (fun _ w2 => kept cfg w0 w2) (kept cfg w0).
Proof.
  intros Hk. apply ends_bind. unfold meta.DetailWaitSyncMeta.
  apply ends_read; [apply kept_count, Hk |].
  destruct (Nat.eqb _ 0); [| apply ends_ret, kept_count, Hk].
  unfold meta.CreateWaitSyncMeta. apply ends_call1.
  - apply kept_issue; [reflexivity | apply kept_count, kept_count, Hk].
  - intros a w2 Hbody.
    match type of Hbody with
    | context [if ?b then _ else _] => destruct b
    end; [discriminate |].
    injection Hbody as _ <-.
    apply kept_set_wait;
      [| apply kept_issue; [reflexivity | apply kept_count, kept_count, Hk]].
    apply running_after_create, waitingRecord_not_running.
Qed.

Lemma fullAfterGate_refuses cfg env w0 w1 (exporters : list string)
    (coll : bool) :
  EnableCheckpoint cfg = true ->
  resume_blocked cfg w0 = true ->
  kept cfg w0 w1 ->
  ends (o2m.fullAfterGate cfg env exporters coll) w1
    (fun _ _ => False) (kept cfg w0).
Proof.
  intros Hcp Hblocked Hk. unfold o2m.fullAfterGate.
  apply ends_seq with (Q1 := fun _ w2 => kept cfg w0 w2).
  { apply ends_forM with (I := kept cfg w0); auto.
    intros tableName w2 Hk2. apply register_kept, Hk2. }
  clear w1 Hk. intros _ w1 Hk.
  rewrite Hcp. simpl negb. cbv iota.
  apply ends_bind, ends_ret.
  apply ends_bind. unfold meta.DetailWaitSyncMeta.
  apply ends_read; [apply kept_count, Hk |]. cbv zeta.
  apply ends_bind. unfold meta.QueryWaitSyncMetaByPartTask.
  apply ends_read; [apply kept_count, kept_count, Hk |].
  apply ends_bind. unfold meta.DistinctFullSyncMetaTableNameSByTaskStatus.
  apply ends_read; [apply kept_count, kept_count, kept_count, Hk |].
  assert (Hk3 : kept cfg w0 (count_call (count_call (count_call w1))))
    by (apply kept_count, kept_count, kept_count, Hk).
  change (wait_sync_meta (count_call (count_call w1)))
    with (wait_sync_meta w1).
  change (full_sync_meta (count_call (count_call (count_call w1))))
    with (full_sync_meta w1).
  destruct Hk as (Hfull & Hrun & _).
  change (filter
            (meta.wait_matches
               (o2m.waitQuery cfg (o2m.schemaUPPER cfg) ""
                  common.TaskStatusRunning 0 0))
            (wait_sync_meta w1))
    with (filter (running_record cfg) (wait_sync_meta w1)).
  rewrite Hrun, Hfull.
  change (meta.dedup
            (map FullSyncMeta.TableNameS
               (filter
                  (meta.full_matches
                     (o2m.fullQuery cfg (o2m.schemaUPPER cfg) ""
                        common.TaskStatusWaiting))
                  (full_sync_meta w0))))
    with (waiting_tables cfg (full_sync_meta w0)).
  eapply ends_seq; [apply checkPartSync_ends, Hk3 |].
  intros panic w4 (Hk4 & ->).
  change (filter _ (filter (running_record cfg) (wait_sync_meta w0)))
    with (filter (blocks_resume cfg (full_sync_meta w0))
            (filter (running_record cfg) (wait_sync_meta w0))).
  simpl app. rewrite !length_map.
  unfold resume_blocked in Hblocked. rewrite Hblocked.
  apply ends_fail, Hk4.
Qed.

(** X16.  With the checkpoint enabled a run refuses to resume an
    inconsistent store.  If a RUNNING record fails the resume test (its
    table has no WAITING chunk row, or the number of its chunk rows differs
    from its [chunk_total]), or the RUNNING records and the tables with
    WAITING chunks differ in number, the run fails, on every source and
    under every fault of the metadata store; it does not panic; it leaves
    [full_sync_meta] as it was, and issues statements on the metadata store
    only: nothing is truncated, no chunk is extracted or applied, and no
    chunking task is created on the source. *)
Theorem inconsistent_checkpoint_is_refused :
  forall cfg env (w : World),
    EnableCheckpoint cfg = true ->
    resume_blocked cfg w = true ->
    exists e w',
      o2m.Full cfg env w = Fail e w'
      /\ full_sync_meta w' = full_sync_meta w
      /\ exists issued,
           trace w' = (trace w ++ issued)%list
           /\ Forall (fun s => metadata_only s = true) issued.
Proof.
  intros cfg env w Hcp Hblocked.
  assert (H : ends (o2m.Full cfg env) w (fun _ _ => False) (kept cfg w)).
  { unfold o2m.Full.
    apply ends_bind, ends_lift; [apply kept_refl |]. intros v _.
    destruct (VersionOrdinal env v
              <? VersionOrdinal env (RequireOracleDBVersion env));
      [apply ends_fail, kept_refl |].
    cbv zeta.
    apply ends_bind, ends_lift; [apply kept_refl |]. intros exporters _.
    apply ends_bind. unfold meta.DetailWaitSyncMetaSuccessTables.
    apply ends_read; [apply kept_count, kept_refl |].
    apply ends_seq with (Q1 := fun _ w2 => kept cfg w w2).
    { destruct (Nat.ltb 0 _);
        [apply cleanup_kept | apply ends_ret]; apply kept_count, kept_refl. }
    intros _ w1 Hk.
    apply ends_bind, ends_attempt. unfold meta.CountsErrWaitSyncMetaBySchema.
    apply ends_read.
    { intros e. apply ends_fail, kept_count, Hk. }
    destruct (0 <? _); [apply ends_fail, kept_count, Hk |].
    apply fullAfterGate_refuses; [exact Hcp | exact Hblocked |].
    apply kept_count, Hk. }
  unfold ends in H.
  destruct (o2m.Full cfg env w) as [u w' | e w' |]; [contradiction | |
                                                     contradiction].
  destruct H as (Hfull & _ & Hext).
  exists e, w'. split; [reflexivity |]. split; [exact Hfull | exact Hext].
Qed.

(** The theorem at a table left RUNNING with [chunk_total = 3] and two
    chunk rows. *)
Lemma inconsistent_checkpoint_is_refused_witness :
  exists e w',
    o2m.Full (Scenario.cfg true)
      (Scenario.env ["T"] 5 [] Scenario.applyOk Scenario.noFault)
      (mkWorld [Scenario.waitRow "T" "RUNNING" 1000 3 0 0]
         [Scenario.chunk1; Scenario.chunk2] [] [] 0)
    = Fail e w'
    /\ full_sync_meta w' = [Scenario.chunk1; Scenario.chunk2]
    /\ exists issued,
         trace w' = ([] ++ issued)%list
         /\ Forall (fun s => metadata_only s = true) issued.
Proof.
  exact (@inconsistent_checkpoint_is_refused (Scenario.cfg true)
           (Scenario.env ["T"] 5 [] Scenario.applyOk Scenario.noFault)
           (mkWorld [Scenario.waitRow "T" "RUNNING" 1000 3 0 0]
              [Scenario.chunk1; Scenario.chunk2] [] [] 0)
           eq_refl eq_refl).
Defined.

(** ** The chunker issues bookkeeping only *)

Ltac adds_bookkeeping :=
  unfold meta.UpdateWaitSyncMeta, meta.BatchCreateFullSyncMeta,
    meta.CreateFullSyncMetaAndUpdateWaitSyncMeta, meta.DetailTableNameRule;
  first
    [ apply adds_read
    | apply adds_write; [reflexivity | intros; reflexivity]
    | apply adds_call1;
      [ reflexivity
      | let Hbody := fresh "Hbody" in
        intros ? ? ? Hbody;
        match type of Hbody with
        | context [if ?b then _ else _] => destruct b
        end;
        [discriminate Hbody | injection Hbody as _ <-; reflexivity] ] ].

Section IssuedByChunker.
Variable cfg : Config.
Variable env : Env.

Local Abbreviation bk := (fun s : Stmt => bookkeeping s = true).

Lemma bk_exec sql effect : adds bk (oracle.ExecContext sql effect).
Proof. apply adds_ExecContext. reflexivity. Qed.

Lemma bk_CloseOracleChunkTask taskName :
  adds bk (oracle.CloseOracleChunkTask taskName).
Proof.
  unfold oracle.CloseOracleChunkTask.
  apply adds_bind; [apply adds_attempt, bk_exec |].
  intros r. apply adds_result_match; auto with adds_db.
Qed.

Lemma bk_StartOracleChunkCreateTask taskName :
  adds bk (oracle.StartOracleChunkCreateTask env taskName).
Proof.
  unfold oracle.StartOracleChunkCreateTask.
  apply adds_bind; [auto with adds_db |].
  intros [|r0 rs]; [apply adds_crash |].
  apply adds_bind.
  - apply adds_if; [apply bk_CloseOracleChunkTask | apply adds_ret].
  - intros _. apply adds_bind; [apply adds_attempt, bk_exec |].
    intros r. apply adds_result_match; auto with adds_db.
Qed.

Lemma bk_StartOracleCreateChunkByRowID taskName schemaName tableName
    chunkSize :
  adds bk (oracle.StartOracleCreateChunkByRowID env taskName schemaName
             tableName chunkSize).
Proof.
  unfold oracle.StartOracleCreateChunkByRowID.
  apply adds_bind; [apply adds_attempt, bk_exec |].
  intros r. apply adds_result_match; auto with adds_db.
Qed.

Lemma bk_createWholeTableChunk t target scn col isPartition :
  adds bk (o2m.createWholeTableChunk cfg env t target scn col isPartition).
Proof. unfold o2m.createWholeTableChunk. adds_bookkeeping. Qed.

Lemma bk_initTable rules scn parts coll workerID t :
  adds bk (o2m.initTable cfg env rules scn parts coll workerID t).
Proof.
  unfold o2m.initTable.
  apply adds_bind;
    [unfold o2m.adjustTableSelectColumn; auto with adds_db |].
  intros col. apply adds_bind; [auto with adds_db |].
  intros rows. apply adds_if; [apply bk_createWholeTableChunk |].
  apply adds_bind; [apply bk_StartOracleChunkCreateTask |]. intros _.
  apply adds_bind; [apply bk_StartOracleCreateChunkByRowID |]. intros _.
  apply adds_bind;
    [unfold oracle.GetOracleTableChunksByRowID; auto with adds_db |].
  intros chunkRes. apply adds_if; [apply bk_createWholeTableChunk |].
  apply adds_bind; [adds_bookkeeping |]. intros _.
  apply adds_bind; [adds_bookkeeping |]. intros _.
  apply bk_CloseOracleChunkTask.
Qed.

Lemma bk_initWaitSyncTableRowID tables coll :
  adds bk (o2m.initWaitSyncTableRowID cfg env tables coll).
Proof.
  unfold o2m.initWaitSyncTableRowID.
  apply adds_bind.
  { unfold o2m.getTableNameRule. apply adds_bind; [adds_bookkeeping |].
    intros rules. apply adds_ret. }
  intros rules. apply adds_bind.
  { unfold oracle.GetOracleCurrentSnapshotSCN.
    apply adds_bind; [auto with adds_db |].
    intros [|r0 rs]; [apply adds_crash |].
    apply adds_result_match; auto with adds_db. }
  intros scn. apply adds_bind; [auto with adds_db |].
  intros parts. apply adds_errgroup. intros task Hin.
  apply in_map_iff in Hin. destruct Hin as (it & <- & _).
  apply bk_initTable.
Qed.

End IssuedByChunker.

(** X17.  The chunker moves no data: whether it returns or fails with an
    error, a run of it issues only statements on the metadata store and
    PL/SQL blocks on the source; it truncates no destination table and runs
    no stage of a chunk.  When it fails, the tables it was given are
    therefore not loaded: the load of fresh tables fails with the same error
    in the same world. *)
Theorem chunker_moves_no_data :
  forall cfg env (tables : list string) (coll : bool) (w : World),
    (exists issued,
       trace (world_of (o2m.initWaitSyncTableRowID cfg env tables coll w) w)
       = (trace w ++ issued)%list
       /\ Forall (fun s => bookkeeping s = true) issued)
    /\ forall e w',
         o2m.initWaitSyncTableRowID cfg env tables coll w = Fail e w' ->
         o2m.fullWaitSyncTable cfg env tables coll w = Fail e w'.
Proof.
  intros cfg env tables coll w. split.
  - pose proof (bk_initWaitSyncTableRowID cfg env tables coll w) as H.
    unfold post_or_crash in H.
    destruct (o2m.initWaitSyncTableRowID cfg env tables coll w); simpl;
      auto.
    exists []. rewrite app_nil_r. split; [reflexivity | constructor].
  - intros e w' H. unfold o2m.fullWaitSyncTable.
    apply bind_fail_eq. exact H.
Qed.

(** ** The outcome of a table, chunk by chunk *)

(** A chunk group that returns has made every one of its writes. *)
Lemma syncChunks_returns cfg env (ms : list FullSyncMeta.t) :
  forall (first : option error) (w w' : World),
    errgroup_run (map (o2m.syncChunk cfg env) ms) first w = Ret tt w' ->
    full_sync_meta w' = settle cfg env ms (full_sync_meta w)
    /\ wait_sync_meta w' = wait_sync_meta w.
Proof.
  induction ms as [|m ms IH]; intros first w w' H.
  - simpl in H. destruct first; [discriminate |].
    injection H as <-. split; reflexivity.
  - destruct (syncChunk_run cfg env m w) as (w1 & Hrun & _ & Hw1 & _ & _).
    simpl map in H. simpl errgroup_run in H.
    destruct (meta_fault env (meta_calls w)) as [errf |].
    + destruct Hrun as ((msg & Hrun) & _). rewrite Hrun in H.
      pose proof (errgroup_some_never_returns
                    (map (o2m.syncChunk cfg env) ms)
                    (match first with None => msg | Some e => e end) w1)
        as Hnever.
      destruct first; rewrite H in Hnever; discriminate.
    + destruct Hrun as (Hrun & Hf1). rewrite Hrun in H.
      apply IH in H. destruct H as (Hf & Hw).
      split; [| congruence].
      rewrite Hf, Hf1. reflexivity.
Qed.

(** What a table task that returns has written. *)
Lemma syncTable_returns cfg env (t : string) (w w' : World) :
  o2m.syncTable cfg env t w = Ret tt w' ->
  exists fs3,
    fs3 = settle cfg env (waiting_chunks cfg t (full_sync_meta w))
            (full_sync_meta w)
    /\ ((failed_chunks cfg t fs3 = []
         /\ full_sync_meta w'
            = meta.delete_where
                (meta.full_matches
                   (o2m.fullQuery cfg (o2m.schemaUPPER cfg)
                      (common.StringUPPER t) "")) fs3
         /\ wait_sync_meta w'
            = meta.update_where (table_record cfg t)
                (WaitSyncMeta.apply
                   (finalPatch common.TaskStatusSuccess
                      (Z.of_nat
                         (List.length
                            (waiting_chunks cfg t (full_sync_meta w))))
                      0))
                (marked_running cfg t (wait_sync_meta w)))
        \/ (failed_chunks cfg t fs3 <> []
            /\ full_sync_meta w' = fs3
            /\ wait_sync_meta w'
               = meta.update_where (table_record cfg t)
                   (WaitSyncMeta.apply
                      (finalPatch common.TaskStatusFailed
                         (Z.of_nat
                            (List.length
                               (waiting_chunks cfg t (full_sync_meta w)))
                          - Z.of_nat
                              (List.length (failed_chunks cfg t fs3)))
                         (Z.of_nat
                            (List.length (failed_chunks cfg t fs3)))))
                   (marked_running cfg t (wait_sync_meta w)))).
Proof.
  intros H.
  unfold o2m.syncTable in H.
  unfold meta.UpdateWaitSyncMeta at 1 in H.
  unfold bind at 1 in H. rewrite write_run in H.
  destruct (meta_fault env (meta_calls w)); [discriminate |].
  unfold meta.DetailFullSyncMeta in H.
  unfold bind at 1 in H. rewrite read_run in H.
  match type of H with
  | context [meta_fault env ?n] => destruct (meta_fault env n)
  end; [discriminate |].
  cbv beta iota in H.
  match type of H with
  | context [o2m.syncChunks cfg env ?ms] =>
      change ms with (waiting_chunks cfg t (full_sync_meta w)) in H
  end.
  match type of H with
  | bind _ _ ?x = _ => set (w2 := x) in H
  end.
  assert (Hfull2 : full_sync_meta w2 = full_sync_meta w) by reflexivity.
  assert (Hwait2 : wait_sync_meta w2
                   = marked_running cfg t (wait_sync_meta w)) by reflexivity.
  clearbody w2.
  apply bind_ret_inv in H. destruct H as ([] & w3 & Hrun & H).
  apply syncChunks_returns in Hrun. destruct Hrun as (Hfull3 & Hwait3).
  rewrite Hfull2 in Hfull3. rewrite Hwait2 in Hwait3.
  unfold meta.CountsErrorFullSyncMeta in H.
  unfold bind at 1, attempt in H. rewrite read_run in H.
  destruct (meta_fault env (meta_calls w3)); [discriminate |].
  change (full_sync_meta (count_call w3)) with (full_sync_meta w3) in H.
  change (meta.count_where
            (meta.full_matches
               (o2m.fullQuery cfg (o2m.schemaUPPER cfg)
                  (common.StringUPPER t) common.TaskStatusFailed))
            (full_sync_meta w3))
    with (Z.of_nat (List.length (failed_chunks cfg t (full_sync_meta w3))))
    in H.
  exists (full_sync_meta w3). split; [exact Hfull3 |].
  destruct (Z.eqb_spec
              (Z.of_nat (List.length (failed_chunks cfg t (full_sync_meta w3))))
              0) as [Hzero | Hsome].
  - left.
    unfold meta.DeleteTableFullSyncMetaAndUpdateWaitSyncMeta in H.
    rewrite write_run in H.
    destruct (meta_fault env (meta_calls (count_call w3))); [discriminate |].
    injection H as <-. split; [| split].
    + destruct (failed_chunks cfg t (full_sync_meta w3));
        [reflexivity | discriminate].
    + reflexivity.
    + simpl. rewrite Hwait3. reflexivity.
  - right.
    unfold meta.UpdateWaitSyncMeta in H. rewrite write_run in H.
    destruct (meta_fault env (meta_calls (count_call w3))); [discriminate |].
    injection H as <-. split; [| split].
    + intros E. rewrite E in Hsome. apply Hsome. reflexivity.
    + reflexivity.
    + simpl. rewrite Hwait3. reflexivity.
Qed.

(** A record of the table after the task is one of before, rewritten by
    the update that closes the task. *)
Lemma closed_record cfg (t : string) (p : WaitSyncMeta.patch)
    (ws : list WaitSyncMeta.t) (r' : WaitSyncMeta.t) :
  In r' (meta.update_where (table_record cfg t) (WaitSyncMeta.apply p)
           (marked_running cfg t ws)) ->
  table_record cfg t r' = true ->
  exists r ra,
    In r ws /\ table_record cfg t r = true
    /\ (ra = r \/ ra = WaitSyncMeta.apply runningPatch r)
    /\ r' = WaitSyncMeta.apply p ra.
Proof.
  intros Hin Hrec.
  destruct (@table_record_updated cfg t p _ r' Hin Hrec) as (ra & Hra & ->).
  rewrite table_record_apply in Hrec.
  unfold marked_running in Hra. apply update_where_In in Hra.
  destruct Hra as (r & Hr & Hra).
  exists r, ra. split; [exact Hr |]. split; [| split; [| reflexivity]].
  - rewrite Hra in Hrec. destruct (meta.wait_matches _ r);
      [rewrite table_record_apply in Hrec |]; exact Hrec.
  - destruct (meta.wait_matches _ r); auto.
Qed.

(** X18.  A table task keeps the books of a freshly chunked table: if,
    when the task starts, every record of the table has [chunk_total]
    equal to the number of the table's WAITING chunks, then when the task
    returns every record of the table has
    [chunk_success + chunk_failed = chunk_total]. *)
Theorem counters_add_up_on_a_fresh_table :
  forall cfg env (t : string) (w w' : World),
    o2m.syncTable cfg env t w = Ret tt w' ->
    (forall r, In r (wait_sync_meta w) -> table_record cfg t r = true ->
       WaitSyncMeta.ChunkTotalNums r
       = Z.of_nat (List.length (waiting_chunks cfg t (full_sync_meta w)))) ->
    forall r', In r' (wait_sync_meta w') -> table_record cfg t r' = true ->
      WaitSyncMeta.ChunkSuccessNums r' + WaitSyncMeta.ChunkFailedNums r'
      = WaitSyncMeta.ChunkTotalNums r'.
Proof.
  intros cfg env t w w' H Htotal r' Hin Hrec.
  destruct (@syncTable_returns cfg env t w w' H)
    as (fs3 & _ & [(_ & _ & Hw) | (_ & _ & Hw)]);
    rewrite Hw in Hin;
    destruct (@closed_record cfg t _ _ r' Hin Hrec)
      as (r & ra & Hr & Hrr & Hra & ->);
    specialize (Htotal r Hr Hrr);
    destruct Hra as [-> | ->];
    cbn [WaitSyncMeta.apply WaitSyncMeta.ChunkSuccessNums
         WaitSyncMeta.ChunkFailedNums WaitSyncMeta.ChunkTotalNums
         WaitSyncMeta.or_else finalPatch runningPatch
         WaitSyncMeta.pChunkSuccessNums WaitSyncMeta.pChunkFailedNums
         WaitSyncMeta.pChunkTotalNums];
    lia.
Qed.

(** The theorem at a running table of two chunks, both WAITING. *)
Lemma counters_add_up_on_a_fresh_table_witness :
  Forall
    (fun r' =>
       table_record (Scenario.cfg true) "T" r' = true ->
       WaitSyncMeta.ChunkSuccessNums r' + WaitSyncMeta.ChunkFailedNums r'
       = WaitSyncMeta.ChunkTotalNums r')
    (wait_sync_meta
       (world_of
          (o2m.syncTable (Scenario.cfg true)
             (Scenario.env ["T"] 5 [] Scenario.applyOk Scenario.noFault)
             "T" Scenario.twoChunkWorld)
          Scenario.twoChunkWorld)).
Proof.
  apply Forall_forall.
  apply (@counters_add_up_on_a_fresh_table (Scenario.cfg true)
           (Scenario.env ["T"] 5 [] Scenario.applyOk Scenario.noFault)
           "T" Scenario.twoChunkWorld).
  - vm_compute. reflexivity.
  - intros r [<- | []] _. reflexivity.
Defined.

Lemma full_matches_restatus cfg (schema table st1 st2 : string)
    (info err : option string) (m : FullSyncMeta.t) :
  meta.full_matches (o2m.fullQuery cfg schema table st1) m = true ->
  meta.full_matches (o2m.fullQuery cfg schema table st2)
    (FullSyncMeta.apply (FullSyncMeta.mkPatch (Some st2) info err) m) = true.
Proof.
  unfold meta.full_matches, o2m.fullQuery.
  cbn [FullSyncMeta.DBTypeS FullSyncMeta.DBTypeT FullSyncMeta.SchemaNameS
       FullSyncMeta.TableNameS FullSyncMeta.TaskMode FullSyncMeta.ChunkDetailS
       FullSyncMeta.TaskStatus FullSyncMeta.apply FullSyncMeta.or_else
       FullSyncMeta.pTaskStatus].
  intros H. apply andb_prop in H. destruct H as (H & _).
  rewrite H, str_cond_refl. reflexivity.
Qed.

Lemma full_matches_other_status cfg (schema table st1 st2 : string)
    (info err : option string) (m : FullSyncMeta.t) :
  st1 <> "" -> st1 <> st2 ->
  meta.full_matches (o2m.fullQuery cfg schema table st1)
    (FullSyncMeta.apply (FullSyncMeta.mkPatch (Some st2) info err) m) = false.
Proof.
  intros Hne Hdiff.
  destruct (meta.full_matches _ _) eqn:E; [| reflexivity].
  apply full_matches_status in E.
  cbn [o2m.fullQuery FullSyncMeta.TaskStatus FullSyncMeta.apply
       FullSyncMeta.or_else FullSyncMeta.pTaskStatus] in E.
  apply str_cond_eq in E; [contradiction | exact Hne].
Qed.

Lemma chunkQuery_apply (m' : FullSyncMeta.t) (p : FullSyncMeta.patch)
    (m : FullSyncMeta.t) :
  meta.full_matches (o2m.chunkQuery m') (FullSyncMeta.apply p m)
  = meta.full_matches (o2m.chunkQuery m') m.
Proof.
  unfold meta.full_matches, o2m.chunkQuery.
  cbn [FullSyncMeta.DBTypeS FullSyncMeta.DBTypeT FullSyncMeta.SchemaNameS
       FullSyncMeta.TableNameS FullSyncMeta.TaskMode FullSyncMeta.ChunkDetailS
       FullSyncMeta.TaskStatus FullSyncMeta.apply].
  change (meta.str_cond "" ?x) with true.
  reflexivity.
Qed.

(** Chunks that all apply leave no FAILED row where there was none. *)
Lemma settle_without_failure cfg env (t : string)
    (ms : list FullSyncMeta.t) :
  (forall m, In m ms -> stageError cfg env m = None) ->
  forall fs,
    failed_chunks cfg t fs = [] ->
    failed_chunks cfg t (settle cfg env ms fs) = [].
Proof.
  induction ms as [|m ms IH]; intros Hok fs Hfs; [exact Hfs |].
  unfold settle. simpl fold_left. apply IH.
  - intros m' Hm'. apply Hok. right. exact Hm'.
  - rewrite (Hok m (or_introl eq_refl)).
    clear IH Hok. unfold failed_chunks, meta.update_where in *.
    induction fs as [|r fs IHfs]; [reflexivity |].
    simpl in Hfs. simpl.
    destruct (meta.full_matches
                (o2m.fullQuery cfg (o2m.schemaUPPER cfg)
                   (common.StringUPPER t) common.TaskStatusFailed) r) eqn:Er;
      [discriminate |].
    destruct (meta.full_matches (o2m.chunkQuery m) r).
    + unfold outcomePatch, successPatch.
      rewrite full_matches_other_status by discriminate.
      apply IHfs, Hfs.
    + rewrite Er. apply IHfs, Hfs.
Qed.

(** X19.  A table whose chunks all apply ends SUCCESS: if no chunk row of
    the table is FAILED when the task starts and the extract, translate and
    apply stages succeed for every WAITING chunk of the table, then when the
    task returns no chunk row of the table is left in [full_sync_meta] and
    every record of the table reads SUCCESS, with [chunk_failed = 0] and
    [chunk_success] the number of chunks that were WAITING. *)
Theorem table_succeeds_when_all_chunks_apply :
  forall cfg env (t : string) (w w' : World),
    o2m.syncTable cfg env t w = Ret tt w' ->
    failed_chunks cfg t (full_sync_meta w) = [] ->
    (forall m, In m (waiting_chunks cfg t (full_sync_meta w)) ->
       stageError cfg env m = None) ->
    chunks_of cfg t (full_sync_meta w') = []
    /\ forall r', In r' (wait_sync_meta w') -> table_record cfg t r' = true ->
         WaitSyncMeta.TaskStatus r' = common.TaskStatusSuccess
         /\ WaitSyncMeta.ChunkFailedNums r' = 0
         /\ WaitSyncMeta.ChunkSuccessNums r'
            = Z.of_nat (List.length
                          (waiting_chunks cfg t (full_sync_meta w))).
Proof.
  intros cfg env t w w' H Hclean Hok.
  destruct (@syncTable_returns cfg env t w w' H)
    as (fs3 & Hfs3 & [(_ & Hf & Hw) | (Hfailed & _ & _)]).
  - split.
    + rewrite Hf. apply filter_delete_where.
    + intros r' Hin Hrec. rewrite Hw in Hin.
      destruct (@closed_record cfg t _ _ r' Hin Hrec)
        as (r & ra & _ & _ & _ & ->).
      repeat split.
  - exfalso. apply Hfailed. rewrite Hfs3.
    apply settle_without_failure; assumption.
Qed.

(** The theorem at a running table of two waiting chunks that both
    apply. *)
Lemma table_succeeds_when_all_chunks_apply_witness :
  chunks_of (Scenario.cfg true) "T"
    (full_sync_meta
       (world_of
          (o2m.syncTable (Scenario.cfg true)
             (Scenario.env ["T"] 5 [] Scenario.applyOk Scenario.noFault)
             "T" Scenario.twoChunkWorld)
          Scenario.twoChunkWorld))
  = []
  /\ Forall
       (fun r' =>
          table_record (Scenario.cfg true) "T" r' = true ->
          WaitSyncMeta.TaskStatus r' = common.TaskStatusSuccess
          /\ WaitSyncMeta.ChunkFailedNums r' = 0
          /\ WaitSyncMeta.ChunkSuccessNums r' = 2)
       (wait_sync_meta
          (world_of
             (o2m.syncTable (Scenario.cfg true)
                (Scenario.env ["T"] 5 [] Scenario.applyOk Scenario.noFault)
                "T" Scenario.twoChunkWorld)
             Scenario.twoChunkWorld)).
Proof.
  destruct (@table_succeeds_when_all_chunks_apply (Scenario.cfg true)
              (Scenario.env ["T"] 5 [] Scenario.applyOk Scenario.noFault)
              "T" Scenario.twoChunkWorld
              (world_of
                 (o2m.syncTable (Scenario.cfg true)
                    (Scenario.env ["T"] 5 [] Scenario.applyOk
                       Scenario.noFault)
                    "T" Scenario.twoChunkWorld)
                 Scenario.twoChunkWorld))
    as (Hnone & Hrecords).
  - vm_compute. reflexivity.
  - reflexivity.
  - intros m _. reflexivity.
  - split; [exact Hnone |]. apply Forall_forall. exact Hrecords.
Defined.

Lemma failedPatch_twice (m : FullSyncMeta.t) (err : error)
    (r : FullSyncMeta.t) :
  FullSyncMeta.apply (failedPatch m err)
    (FullSyncMeta.apply (failedPatch m err) r)
  = FullSyncMeta.apply (failedPatch m err) r.
Proof. reflexivity. Qed.

(** A chunk that fails a stage leaves its row FAILED, whatever the chunks
    after it do, provided no other chunk's lookup finds its row. *)
Lemma settle_keeps_failure cfg env (all : list FullSyncMeta.t)
    (m : FullSyncMeta.t) (err : error) :
  stageError cfg env m = Some err ->
  own_key all m ->
  forall ms fs,
    incl ms all ->
    (In m ms /\ In m fs)
    \/ In (FullSyncMeta.apply (failedPatch m err) m) fs ->
    In (FullSyncMeta.apply (failedPatch m err) m) (settle cfg env ms fs).
Proof.
  intros Herr Hown. induction ms as [|m1 ms IH]; intros fs Hincl Hinv.
  - destruct Hinv as [([] & _) | Hdone]. exact Hdone.
  - unfold settle. simpl fold_left. apply IH.
    { intros x Hx. apply Hincl. right. exact Hx. }
    unfold meta.update_where.
    destruct (meta.full_matches (o2m.chunkQuery m1) m) eqn:Ematch.
    + (* the chunk itself *)
      assert (m1 = m) by (apply Hown; [apply Hincl; left; reflexivity
                                      | exact Ematch]).
      subst m1. rewrite Herr. right.
      destruct Hinv as [(_ & Hm) | Hdone].
      * apply in_map_iff. exists m. rewrite Ematch. auto.
      * apply in_map_iff.
        exists (FullSyncMeta.apply (failedPatch m err) m).
        rewrite chunkQuery_apply, Ematch. split; [| exact Hdone].
        apply failedPatch_twice.
    + (* another chunk *)
      destruct Hinv as [([-> | Hm1] & Hm) | Hdone].
      * rewrite chunkQuery_matches_own in Ematch. discriminate.
      * left. split; [exact Hm1 |].
        apply in_map_iff. exists m. rewrite Ematch. auto.
      * right. apply in_map_iff.
        exists (FullSyncMeta.apply (failedPatch m err) m).
        rewrite chunkQuery_apply, Ematch. auto.
Qed.

(** X20.  A chunk that fails makes its table FAILED: if a WAITING chunk of
    the table fails its extract, translate or apply stage, and no other
    WAITING chunk of the table shares its key, then when the task returns
    the chunk's row is still in [full_sync_meta], recorded FAILED with the
    stage's error, and every record of the table reads FAILED with
    [chunk_failed >= 1]. *)
Theorem table_fails_when_a_chunk_fails :
  forall cfg env (t : string) (w w' : World) (m : FullSyncMeta.t)
         (err : error),
    o2m.syncTable cfg env t w = Ret tt w' ->
    In m (waiting_chunks cfg t (full_sync_meta w)) ->
    stageError cfg env m = Some err ->
    own_key (waiting_chunks cfg t (full_sync_meta w)) m ->
    In (FullSyncMeta.apply (failedPatch m err) m) (full_sync_meta w')
    /\ forall r', In r' (wait_sync_meta w') -> table_record cfg t r' = true ->
         WaitSyncMeta.TaskStatus r' = common.TaskStatusFailed
         /\ 1 <= WaitSyncMeta.ChunkFailedNums r'.
Proof.
  intros cfg env t w w' m err H Hm Herr Hown.
  assert (Hrow : In (FullSyncMeta.apply (failedPatch m err) m)
                   (settle cfg env (waiting_chunks cfg t (full_sync_meta w))
                      (full_sync_meta w))).
  { apply (@settle_keeps_failure cfg env _ m err Herr Hown);
      [apply incl_refl |].
    left. split; [exact Hm |].
    unfold waiting_chunks in Hm. apply filter_In in Hm. apply Hm. }
  assert (Hfailed : In (FullSyncMeta.apply (failedPatch m err) m)
                      (failed_chunks cfg t
                         (settle cfg env
                            (waiting_chunks cfg t (full_sync_meta w))
                            (full_sync_meta w)))).
  { unfold failed_chunks. apply filter_In. split; [exact Hrow |].
    unfold waiting_chunks in Hm. apply filter_In in Hm.
    destruct Hm as (_ & Hm).
    exact (@full_matches_restatus cfg _ _ _ common.TaskStatusFailed _ _ _
             Hm). }
  destruct (@syncTable_returns cfg env t w w' H)
    as (fs3 & Hfs3 & [(Hnone & _ & _) | (_ & Hf & Hw)]).
  - rewrite Hfs3 in Hnone. rewrite Hnone in Hfailed. contradiction.
  - split; [rewrite Hf, Hfs3; exact Hrow |].
    intros r' Hin Hrec. rewrite Hw in Hin.
    destruct (@closed_record cfg t _ _ r' Hin Hrec)
      as (r & ra & _ & _ & _ & ->).
    split; [reflexivity |].
    cbn [WaitSyncMeta.apply WaitSyncMeta.ChunkFailedNums
         WaitSyncMeta.or_else finalPatch WaitSyncMeta.pChunkFailedNums].
    rewrite Hfs3.
    destruct (failed_chunks cfg t
                (settle cfg env (waiting_chunks cfg t (full_sync_meta w))
                   (full_sync_meta w))); [contradiction |].
    simpl List.length. lia.
Qed.

(** The theorem at a running table of two waiting chunks, the first of
    which fails its apply stage. *)
Lemma table_fails_when_a_chunk_fails_witness :
  In (FullSyncMeta.apply
        (failedPatch Scenario.chunk1
           "Error 1062: Duplicate entry '1' for key 'PRIMARY'")
        Scenario.chunk1)
     (full_sync_meta
        (world_of
           (o2m.syncTable (Scenario.cfg true)
              (Scenario.env ["T"] 5 []
                 (applyFailsOn "ROWID BETWEEN 'a' AND 'b'") Scenario.noFault)
              "T" Scenario.twoChunkWorld)
           Scenario.twoChunkWorld))
  /\ Forall
       (fun r' =>
          table_record (Scenario.cfg true) "T" r' = true ->
          WaitSyncMeta.TaskStatus r' = common.TaskStatusFailed
          /\ 1 <= WaitSyncMeta.ChunkFailedNums r')
       (wait_sync_meta
          (world_of
             (o2m.syncTable (Scenario.cfg true)
                (Scenario.env ["T"] 5 []
                   (applyFailsOn "ROWID BETWEEN 'a' AND 'b'")
                   Scenario.noFault)
                "T" Scenario.twoChunkWorld)
             Scenario.twoChunkWorld)).
Proof.
  destruct (@table_fails_when_a_chunk_fails (Scenario.cfg true)
              (Scenario.env ["T"] 5 []
                 (applyFailsOn "ROWID BETWEEN 'a' AND 'b'") Scenario.noFault)
              "T" Scenario.twoChunkWorld
              (world_of
                 (o2m.syncTable (Scenario.cfg true)
                    (Scenario.env ["T"] 5 []
                       (applyFailsOn "ROWID BETWEEN 'a' AND 'b'")
                       Scenario.noFault)
                    "T" Scenario.twoChunkWorld)
                 Scenario.twoChunkWorld)
              Scenario.chunk1
              "Error 1062: Duplicate entry '1' for key 'PRIMARY'")
    as (Hrow & Hrecords).
  - vm_compute. reflexivity.
  - left. reflexivity.
  - reflexivity.
  - intros m' [<- | [<- | []]] Hmatch; [reflexivity | discriminate Hmatch].
  - split; [exact Hrow |]. apply Forall_forall. exact Hrecords.
Defined.

(** * The reverse run *)

Section ReverseFacts.
Variable Rule : Type.
Variable DDL : Type.
Variable Compatibility : Type.
Variable CharSetMap : Type.
Variable CollationMap : Type.
Variable RuleMaps : Type.
Variable cfg : m2o.Config.
Variable env : m2o.Env Rule DDL Compatibility CharSetMap CollationMap RuleMaps.

Local Abbreviation Ev := (m2o.Event DDL Compatibility).

(** The table task, by the outcome of the stages and of the log write. *)
Lemma reverseTable_run (t : m2o.Table) (tr : list Ev) :
  m2o.reverseTable cfg env t tr
  = match m2o.stageOutcome env t with
    | Ok ddl => (Ok tt, (tr ++ [m2o.EvDDL _ ddl])%list)
    | Err err =>
        match m2o.CreateErrorLog env tr (m2o.errorLog cfg env t err) with
        | None =>
            (Ok tt,
             (tr ++ [m2o.EvErrorLog _ _ (m2o.errorLog cfg env t err)])%list)
        | Some e => (fst (m2o.reverseTable cfg env t tr), tr)
        end
    end.
Proof.
  unfold m2o.stageOutcome, m2o.reverseTable, m2o.logFailure.
  destruct (m2o.IReader env t) as [rule | e1].
  - destruct (m2o.IReverse env rule) as [ddl | e2].
    + destruct (m2o.IWriter env ddl) as [e3 |]; [| reflexivity].
      destruct (m2o.CreateErrorLog env tr _); reflexivity.
    + destruct (m2o.CreateErrorLog env tr _); reflexivity.
  - destruct (m2o.CreateErrorLog env tr _); reflexivity.
Qed.

(** The group when every log write succeeds: one event per table. *)
Lemma group_logs_every_failure (tables : list m2o.Table) :
  (forall tr r, m2o.CreateErrorLog env tr r = None) ->
  forall first tr,
    m2o.group_run (map (m2o.reverseTable cfg env) tables) first tr
    = (match first with None => Ok tt | Some e => Err e end,
       (tr ++ map (m2o.tableEvent cfg env) tables)%list).
Proof.
  intros Hlog. induction tables as [|t tables IH]; intros first tr.
  - simpl. rewrite app_nil_r. destruct first; reflexivity.
  - simpl. rewrite reverseTable_run. unfold m2o.tableEvent.
    destruct (m2o.stageOutcome env t) as [ddl | err].
    + rewrite IH, <- app_assoc. reflexivity.
    + rewrite Hlog, IH, <- app_assoc. reflexivity.
Qed.

(** The group when no log write succeeds: every table still runs, the
    tables that pass are written, and the group fails if one fails. *)
Lemma group_without_log (tables : list m2o.Table) :
  (forall tr r, m2o.CreateErrorLog env tr r <> None) ->
  forall first tr,
  exists res,
    m2o.group_run (map (m2o.reverseTable cfg env) tables) first tr
    = (res, (tr ++ m2o.writtenDDL env tables)%list)
    /\ (res = Ok tt ->
        first = None
        /\ forall t, In t tables ->
             exists ddl, m2o.stageOutcome env t = Ok ddl).
Proof.
  intros Hlog. induction tables as [|t tables IH]; intros first tr.
  - simpl. rewrite app_nil_r. destruct first as [e |]; eexists;
      (split; [reflexivity |]); intros H; [discriminate |].
    split; [reflexivity | contradiction].
  - simpl map. simpl m2o.group_run. rewrite reverseTable_run.
    unfold m2o.writtenDDL. simpl flat_map.
    destruct (m2o.stageOutcome env t) as [ddl | err] eqn:Et.
    + destruct (IH first (tr ++ [m2o.EvDDL _ ddl])%list)
        as (res & Hrun & Hok).
      exists res. split.
      * rewrite Hrun, <- app_assoc. reflexivity.
      * intros Hres. destruct (Hok Hres) as (Hf & Hall).
        split; [exact Hf |].
        intros t' [<- | Ht']; [eauto | auto].
    + destruct (m2o.CreateErrorLog env tr (m2o.errorLog cfg env t err))
        as [e |] eqn:El; [| exfalso; exact (Hlog _ _ El)].
      destruct (fst (m2o.reverseTable cfg env t tr)) as [u | e'] eqn:Ef.
      * (* impossible: the task fails when the log write fails *)
        exfalso. revert Ef.
        rewrite reverseTable_run, Et, El. simpl.
        unfold m2o.reverseTable, m2o.logFailure.
        unfold m2o.stageOutcome in Et.
        destruct (m2o.IReader env t) as [rule | e1].
        -- destruct (m2o.IReverse env rule) as [ddl | e2].
           ++ destruct (m2o.IWriter env ddl) as [e3 |]; [| discriminate].
              injection Et as <-. rewrite El. discriminate.
           ++ injection Et as <-. rewrite El. discriminate.
        -- injection Et as <-. rewrite El. discriminate.
      * destruct (IH (match first with None => Some e' | Some _ => first end)
                    tr) as (res & Hrun & Hok).
        exists res. split; [exact Hrun |].
        intros Hres. destruct (Hok Hres) as (Hf & _).
        destruct first; discriminate.
Qed.

(** The run once the steps before the table group have succeeded. *)
Lemma Reverse_prepared (tr : list Ev) (viewTables : list string)
    (errCompatibility : Compatibility) (tables : list m2o.Table) :
  m2o.prepared cfg env tr viewTables errCompatibility tables ->
  m2o.Reverse cfg env tr
  = m2o.rbind (m2o.group_run (map (m2o.reverseTable cfg env) tables) None)
      (fun _ =>
         m2o.rbind (m2o.effect (m2o.EvClose _ _) (m2o.Close env))
           (fun _ tr1 =>
              match snd (m2o.CountsErrorLogBySchema env tr1
                           (m2o.errorLogQuery cfg)) with
              | Some err => (Err err, tr1)
              | None => (Ok tt, tr1)
              end))
      (tr ++ m2o.preamble DDL cfg viewTables errCompatibility)%list.
Proof.
  intros (exporters & errTotals & v & isExtended & reverseTaskTables & cs
          & co & rules & Hfilter & Hsome & Hcount & Hnone & Hver & Hext
          & Hpre & Hch & Hgen & Hnw & Hcs & Hct).
  unfold m2o.Reverse.
  unfold m2o.rbind at 1. rewrite Hfilter. cbn [m2o.rlift m2o.rret fst snd].
  destruct (Nat.eqb_spec (List.length exporters + List.length viewTables) 0)
    as [E | _]; [contradiction |].
  rewrite Hcount.
  replace (0 <? errTotals) with false by (symmetry; apply Z.ltb_ge; lia).
  cbn [orb].
  unfold m2o.rbind at 1. rewrite Hver. cbn [m2o.rret].
  unfold m2o.rbind at 1.
  assert (Hmode :
            (if m2o.VersionOrdinal env
                  (m2o.OracleTableColumnCollationDBVersion env)
                <=? m2o.VersionOrdinal env v
             then
               match m2o.GetOracleExtendedMode env with
               | Ok b => m2o.rret b
               | Err err =>
                   m2o.rfail ("get oracle version [" ++ v
                                ++ "] extended mode failed: " ++ err)
               end
             else m2o.rret false) tr
            = (Ok isExtended, tr)).
  { destruct (m2o.VersionOrdinal env
                (m2o.OracleTableColumnCollationDBVersion env)
              <=? m2o.VersionOrdinal env v).
    - rewrite Hext. reflexivity.
    - rewrite Hext. reflexivity. }
  rewrite Hmode.
  unfold m2o.rbind at 1. rewrite Hpre. cbn [m2o.rlift m2o.rret fst snd].
  unfold m2o.rbind at 1. rewrite Hch. cbn [m2o.rlift m2o.rret].
  unfold m2o.rbind at 1. rewrite Hgen. cbn [m2o.rlift m2o.rret].
  unfold m2o.rbind at 1. unfold m2o.effect at 1. rewrite Hnw.
  unfold m2o.rbind at 1. unfold m2o.effect at 1. rewrite Hcs.
  unfold m2o.rbind at 1. unfold m2o.effect at 1. rewrite Hct.
  unfold m2o.preamble. rewrite <- !app_assoc. reflexivity.
Qed.

(** X22.  The reverse run reports the failure of a table through the
    error log only.  Once the steps before the table group have succeeded,
    and provided the writes to the error log, the closing of the writer and
    the final count succeed, the run returns nil whatever the reader, the
    reverse and the writer stage of each table return.  What it has done
    by then is the schema and the compatibility output, then the calls of
    the table group, then the closing of the writer; and the calls of the
    group that succeeded are, for each table, the write of its DDL or the
    record of its failure in the error log, and no other. *)
Theorem reverse_returns_nil_when_failures_are_logged :
  forall (tr : list Ev) (viewTables : list string)
         (errCompatibility : Compatibility) (tables : list m2o.Table),
    m2o.prepared cfg env tr viewTables errCompatibility tables ->
    (forall tr' r, m2o.CreateErrorLog env tr' r = None) ->
    m2o.Close env = None ->
    (forall tr' q, snd (m2o.CountsErrorLogBySchema env tr' q) = None) ->
    fst (m2o.Reverse cfg env tr) = Ok tt
    /\ exists events,
         snd (m2o.Reverse cfg env tr)
         = (tr ++ m2o.preamble DDL cfg viewTables errCompatibility
               ++ events ++ [m2o.EvClose _ _])%list
         /\ (forall t, In t tables -> In (m2o.tableEvent cfg env t) events)
         /\ (forall ev, In ev events ->
               exists t, In t tables /\ ev = m2o.tableEvent cfg env t).
Proof.
  intros tr viewTables errCompatibility tables Hprep Hlog Hclose Hcount.
  assert (Hrun : m2o.Reverse cfg env tr
                 = (Ok tt,
                    (tr ++ m2o.preamble DDL cfg viewTables errCompatibility
                        ++ map (m2o.tableEvent cfg env) tables
                        ++ [m2o.EvClose _ _])%list)).
  { rewrite (Reverse_prepared Hprep).
    unfold m2o.rbind at 1. rewrite (group_logs_every_failure tables Hlog).
    unfold m2o.rbind, m2o.effect. rewrite Hclose, Hcount.
    rewrite <- !app_assoc. reflexivity. }
  rewrite Hrun. cbn [fst snd].
  split; [reflexivity |].
  exists (map (m2o.tableEvent cfg env) tables).
  split; [reflexivity |].
  split.
  - intros t Hin. apply in_map. exact Hin.
  - intros ev Hin. apply in_map_iff in Hin.
    destruct Hin as (t & <- & Ht). eauto.
Qed.

(** X23.  The gate of the reverse run: when the schema has tables or views
    and the count of its error-log records is positive or fails, the run
    returns the remediation error before anything else happens: no writer
    is created, nothing is written and nothing is logged. *)
Theorem reverse_gate_blocks_before_any_effect :
  forall (tr : list Ev) (exporters viewTables : list string)
         (errTotals : Z) (err : option error),
    m2o.filterCFGTable env = Ok (exporters, viewTables) ->
    (List.length exporters + List.length viewTables)%nat <> 0%nat ->
    m2o.CountsErrorLogBySchema env tr (m2o.errorLogQuery cfg)
    = (errTotals, err) ->
    0 < errTotals \/ err <> None ->
    m2o.Reverse cfg env tr = (Err (m2o.gateError cfg err), tr).
Proof.
  intros tr exporters viewTables errTotals err Hfilter Hsome Hcount Hgate.
  unfold m2o.Reverse.
  unfold m2o.rbind at 1. rewrite Hfilter. cbn [m2o.rlift m2o.rret fst snd].
  destruct (Nat.eqb_spec (List.length exporters + List.length viewTables) 0)
    as [E | _]; [contradiction |].
  rewrite Hcount.
  destruct Hgate as [Hpos | Herr].
  - replace (0 <? errTotals) with true by (symmetry; apply Z.ltb_lt; lia).
    reflexivity.
  - destruct err as [e |]; [| contradiction].
    rewrite orb_true_r. reflexivity.
Qed.

(** X24.  When the error log cannot be written, a failing table fails the
    run, but cancels nothing and closes nothing: every table is still
    processed, the DDL of each table that passes its stages is written,
    nothing is logged, the run returns an error, and the writer is never
    closed. *)
Theorem reverse_fails_without_closing_when_log_fails :
  forall (tr : list Ev) (viewTables : list string)
         (errCompatibility : Compatibility) (tables : list m2o.Table)
         (t : m2o.Table) (err : error),
    m2o.prepared cfg env tr viewTables errCompatibility tables ->
    (forall tr' r, m2o.CreateErrorLog env tr' r <> None) ->
    In t tables ->
    m2o.stageOutcome env t = Err err ->
    exists e,
      m2o.Reverse cfg env tr
      = (Err e,
         (tr ++ m2o.preamble DDL cfg viewTables errCompatibility
             ++ m2o.writtenDDL env tables)%list).
Proof.
  intros tr viewTables errCompatibility tables t err Hprep Hlog Hin Hfail.
  rewrite (Reverse_prepared Hprep).
  destruct (group_without_log tables Hlog None
              (tr ++ m2o.preamble DDL cfg viewTables errCompatibility)%list)
    as (res & Hrun & Hok).
  unfold m2o.rbind at 1. rewrite Hrun.
  destruct res as [[] | e].
  - destruct (Hok eq_refl) as (_ & Hall).
    destruct (Hall t Hin) as (ddl & Hddl). congruence.
  - exists e. rewrite <- app_assoc. reflexivity.
Qed.

End ReverseFacts.

(** The scenario run is prepared: three tables, no view, an empty error
    log. *)
Lemma scenario_prepared (createErrorLog : option error) :
  m2o.prepared m2o.scenarioCfg (m2o.scenarioEnv 0 createErrorLog) []
    [] [] (map m2o.table ["a"; "b"; "c"]).
Proof.
  exists ["a"; "b"; "c"], 0, "11", false, ["a"; "b"; "c"], tt, tt, tt.
  split; [reflexivity |]. split; [discriminate |].
  split; [reflexivity |]. split; [lia |].
  repeat (split; [reflexivity |]). reflexivity.
Defined.

(** The theorem at the scenario: table [b] fails its reader; the run
    returns nil, the failure of [b] is in the error log, and the DDL of
    [a] and [c] is written. *)
Lemma reverse_returns_nil_when_failures_are_logged_witness :
  fst (m2o.Reverse m2o.scenarioCfg (m2o.scenarioEnv 0 None) []) = Ok tt
  /\ In (m2o.EvErrorLog _ _
           (ErrorLogDetail.mk "MYSQL" "ORACLE" "MARVIN" "b" "MARVIN" "b"
              "REVERSE" "Failed" "b" "unsupported column type"))
        (snd (m2o.Reverse m2o.scenarioCfg (m2o.scenarioEnv 0 None) []))
  /\ In (m2o.EvDDL _ "CREATE TABLE a")
        (snd (m2o.Reverse m2o.scenarioCfg (m2o.scenarioEnv 0 None) []))
  /\ In (m2o.EvDDL _ "CREATE TABLE c")
        (snd (m2o.Reverse m2o.scenarioCfg (m2o.scenarioEnv 0 None) [])).
Proof.
  destruct (@reverse_returns_nil_when_failures_are_logged _ _ _ _ _ _
              m2o.scenarioCfg (m2o.scenarioEnv 0 None) [] [] []
              (map m2o.table ["a"; "b"; "c"])
              (scenario_prepared None)
              (fun _ _ => eq_refl) eq_refl (fun _ _ => eq_refl))
    as (Hok & events & Htr & Hall & _).
  split; [exact Hok |].
  rewrite Htr.
  split; [| split]; apply in_or_app; right; apply in_or_app; right;
    apply in_or_app; left.
  - exact (Hall (m2o.table "b") (or_intror (or_introl eq_refl))).
  - exact (Hall (m2o.table "a") (or_introl eq_refl)).
  - exact (Hall (m2o.table "c")
             (or_intror (or_intror (or_introl eq_refl)))).
Defined.

(** The theorem at the scenario with two records in the error log. *)
Lemma reverse_gate_blocks_before_any_effect_witness :
  m2o.Reverse m2o.scenarioCfg (m2o.scenarioEnv 2 None) []
  = (Err (m2o.gateError m2o.scenarioCfg None), []).
Proof.
  assert (H : 0 < 2 \/ @None error <> None) by (left; lia).
  exact (@reverse_gate_blocks_before_any_effect _ _ _ _ _ _
           m2o.scenarioCfg (m2o.scenarioEnv 2 None) []
           ["a"; "b"; "c"] [] 2 None eq_refl
           (fun E => O_S _ (eq_sym E)) eq_refl H).
Defined.

(** The theorem at the scenario with an error log that cannot be
    written. *)
Lemma reverse_fails_without_closing_when_log_fails_witness :
  exists e,
    m2o.Reverse m2o.scenarioCfg
      (m2o.scenarioEnv 0 (Some "Error 2006: MySQL server has gone away")) []
    = (Err e,
       [ m2o.EvNewWriter _ _;
         m2o.EvCreateSchema _ _ "MARVIN" "MARVIN" false;
         m2o.EvCompatibilityTable _ "MARVIN" [] [];
         m2o.EvDDL _ "CREATE TABLE a";
         m2o.EvDDL _ "CREATE TABLE c" ]).
Proof.
  exact (@reverse_fails_without_closing_when_log_fails _ _ _ _ _ _
           m2o.scenarioCfg
           (m2o.scenarioEnv 0 (Some "Error 2006: MySQL server has gone away"))
           [] [] [] (map m2o.table ["a"; "b"; "c"]) (m2o.table "b")
           "unsupported column type"
           (scenario_prepared _)
           (fun _ _ E => eq_ind (Some "Error 2006: MySQL server has gone away")
                           (fun o => match o with
                                     | Some _ => True
                                     | None => False
                                     end) I None E)
           (or_intror (or_introl eq_refl)) eq_refl).
Defined.
